(** * Reader_book_04: gamification, audio record and assignment rules

    A shallow embedding of the rule layer of the reading application:
    [services/gamification] (points, levels, streaks, achievements),
    [services/audio] (record persistence and deletion),
    [services/assignments] (assignment status) and the two screen
    handlers that drive them ([validateAndSave], [deleteRecord]).

    The managed backend is modelled as a relational store of row lists
    plus an object bucket.  Every request the client issues may fail; the
    failures are chosen by an oracle indexed by the request's place in the
    source and fixed for the length of one call.  Exceptions do not roll
    the store back, exactly as in the JavaScript original: a computation
    returns a result together with the world it leaves behind.  Integer
    columns are [Z], nullable columns are options, and the recorded
    duration is an exact rational: the statements are about numbers in the
    range of the store's integer columns, on which the arithmetic of
    JavaScript's numbers is exact.  The evaluator's filter on the catalog
    is modelled as the request the client sends, a list of literal values,
    and not as the query its text spells out. *)

From Stdlib Require Import ZArith QArith Qround List String Ascii Bool Lia.
From Stdlib Require Import DecimalString Permutation Sorted.
Import ListNotations.
Local Open Scope string_scope.
Local Open Scope Z_scope.

Set Implicit Arguments.

(** ** JavaScript values used by the rule layer *)

Module Js.

(** [x || d] on a nullable number: [null], [undefined] and [0] are falsy. *)
Definition or_num (x : option Z) (d : Z) : Z :=
  match x with
  | Some v => if v =? 0 then d else v
  | None => d
  end.

(** [x || null] on a number that may have a fractional part. *)
Definition or_null_q (x : Q) : option Q :=
  if Qeq_bool x 0 then None else Some x.

(** [s.split('T')[0]]: the text before the first capital T. *)
Fixpoint before_T (s : string) : string :=
  match s with
  | EmptyString => EmptyString
  | String c rest =>
      if Ascii.eqb c "T"%char then EmptyString else String c (before_T rest)
  end.

(** The white space of the ASCII range: space, tab, line feed, vertical
    tab, form feed, carriage return. *)
Definition is_space (c : ascii) : bool :=
  (Ascii.eqb c " " || Ascii.eqb c "009" || Ascii.eqb c "010" || Ascii.eqb c "011"
   || Ascii.eqb c "012" || Ascii.eqb c "013")%bool.

Fixpoint trim_start (s : string) : string :=
  match s with
  | String c rest => if is_space c then trim_start rest else s
  | EmptyString => EmptyString
  end.

(** Drops trailing white space: a character is kept when something that is
    not white space follows it or it is itself not white space. *)
Fixpoint trim_end (s : string) : string :=
  match s with
  | EmptyString => EmptyString
  | String c rest =>
      match trim_end rest with
      | EmptyString => if is_space c then EmptyString else String c EmptyString
      | kept => String c kept
      end
  end.

(** [s.trim()]. *)
Definition trim (s : string) : string := trim_end (trim_start s).

(** Truthiness of a string: only the empty string is falsy. *)
Definition truthy (s : string) : bool :=
  match s with EmptyString => false | _ => true end.

End Js.

(** ** Rows of the relational store *)

Module Profile.
Record t := mk {
  id : string;
  user_id : string;
  full_name : string;
  points : option Z;
  diamonds : option Z;
  current_streak : option Z;
  longest_streak : option Z;
  level : option Z;
  last_activity : option string;
  updated_at : option string
}.

(** [update({ points, level, updated_at })] *)
Definition set_points_level (np nl : Z) (now : string) (p : t) : t :=
  mk (id p) (user_id p) (full_name p) (Some np) (diamonds p)
     (current_streak p) (longest_streak p) (Some nl) (last_activity p)
     (Some now).

(** [update({ current_streak, longest_streak, last_activity })] *)
Definition set_streak (cur lon : Z) (day : string) (p : t) : t :=
  mk (id p) (user_id p) (full_name p) (points p) (diamonds p)
     (Some cur) (Some lon) (level p) (Some day) (updated_at p).

(** [update({ points, diamonds })] *)
Definition set_points_diamonds (np nd : Z) (p : t) : t :=
  mk (id p) (user_id p) (full_name p) (Some np) (Some nd)
     (current_streak p) (longest_streak p) (level p) (last_activity p)
     (updated_at p).
End Profile.

Module Streak.
(** A row of [reading_streaks]: the per-day ledger. *)
Record t := mk {
  id : string;
  student_id : string;
  streak_date : string;
  recordings_count : Z;
  points_earned : Z
}.

(** [update({ recordings_count, points_earned })] *)
Definition set_counters (count earned : Z) (r : t) : t :=
  mk (id r) (student_id r) (streak_date r) count earned.
End Streak.

Inductive requirement_type :=
| total_recordings
| streak
| points
| perfect_week.

Module Achievement.
Record t := mk {
  id : string;
  name : string;
  requirement : requirement_type;
  requirement_value : Z;
  points_reward : Z;
  diamonds_reward : Z
}.
End Achievement.

Module UserAchievement.
Record t := mk {
  user_id : string;
  achievement_id : string;
  earned_at : string
}.
End UserAchievement.

Module AudioRecord.
Record t := mk {
  id : string;
  user_id : string;
  title : string;
  description : option string;
  file_path : string;
  file_size : option Z;
  duration : option Q;
  points_earned : Z;
  assignment_id : option string;
  parent_rating : option Z;
  parent_feedback : option string;
  reading_quality : option string;
  created_at : string;
  updated_at : string
}.

Definition set_assignment (a : string) (r : t) : t :=
  mk (id r) (user_id r) (title r) (description r) (file_path r)
     (file_size r) (duration r) (points_earned r) (Some a)
     (parent_rating r) (parent_feedback r) (reading_quality r)
     (created_at r) (updated_at r).

(** [update({ parent_rating, parent_feedback, reading_quality })]; a key
    whose value is [undefined] is not sent and its column stays. *)
Definition set_review (rating : Z) (feedback quality : option string) (r : t) : t :=
  mk (id r) (user_id r) (title r) (description r) (file_path r)
     (file_size r) (duration r) (points_earned r) (assignment_id r)
     (Some rating)
     (match feedback with Some f => Some f | None => parent_feedback r end)
     (match quality with Some q => Some q | None => reading_quality r end)
     (created_at r) (updated_at r).
End AudioRecord.

Inductive assignment_status :=
| pending
| completed
| reviewed.

Module Assignment.
Record t := mk {
  id : string;
  student_id : string;
  parent_id : string;
  book_title : string;
  status : assignment_status;
  updated_at : string
}.

Definition set_status (s : assignment_status) (now : string) (a : t) : t :=
  mk (id a) (student_id a) (parent_id a) (book_title a) s now.
End Assignment.

(** ** Requests, faults and observable effects *)

(** The places of the source that send a request to the backend.  The
    requests made once per achievement inside the evaluator's loop carry
    the achievement's id. *)
Inductive CallSite :=
| ProgressProfileSelect
| ProgressProfileInsert
| ProgressCountTotal
| ProgressCountWeek
| AwardProfileSelect
| AwardProfileUpdate
| StreakLedgerSelect
| StreakLedgerUpdate
| StreakLedgerInsert
| StreakProfileSelect
| StreakProfileUpdate
| AchievementsSelect
| UserAchievementInsert (achievement_id : string)
| RewardProfileSelect (achievement_id : string)
| RewardProfileUpdate (achievement_id : string)
| StorageUpload
| StorageList
| StorageRemove
| AudioInsert
| AudioSelectAll
| AudioDelete
| AssignmentComplete
| AssignmentLink
| AssignmentReview
| AssignmentRecordingSelect
| AssignmentRecordingUpdate.

(** The calls a handler makes on the screen state, the alert box and the
    sound player.  The four alerts are [showAlert] with the titles
    "Recording Saved Successfully!", "Recording Saved!", "Deleted" and
    "Delete Error"; the first two carry the numbers their text shows. *)
Inductive Ui :=
| SetTitleError (message : string)
| SetIsSaving (flag : bool)
| ResetRecordingState
| SetTitle (text : string)
| SetDescription (text : string)
| OnRecordingSaved
| AlertRecordingSavedSuccessfully (totalPoints basePoints durationBonus : Z)
                                  (newAchievements : nat)
| AlertRecordingSaved (totalPoints : Z)
| AlertDeleted
| AlertDeleteError
| LoadRecords
| SoundStopAsync
| SoundUnloadAsync
| SetPlaybackNull
| SetPlayingRecordIdNull
| ResetPlaybackState.

Inductive Event :=
| Request (site : CallSite)
| ConsoleError (label : string)
| Screen (u : Ui).

Inductive Exn :=
| NotAuthenticated
| SupabaseError (site : CallSite)
| Error (message : string)
| ReferenceError (identifier : string).

Inductive Platform := ios | android | web.

Record AuthUser := {
  uid : string;
  (** [user.user_metadata?.full_name || user.email?.split('@')[0] || 'Student'] *)
  display_name : string
}.

(** What a call reads from its surroundings: the signed-in user, the clock,
    the device and the outcome of each request. *)
Record Env := {
  auth_user : option AuthUser;
  now_iso : string;          (* [new Date().toISOString()] *)
  week_start_iso : string;   (* local start of the week, as ISO text *)
  platform : Platform;
  local_file : string -> option Z;  (* size of the file behind a local uri *)
  sound_fails : bool;        (* the player rejects [stopAsync] *)
  faults : CallSite -> bool
}.

Record World := {
  profiles : list Profile.t;
  reading_streaks : list Streak.t;
  achievements : list Achievement.t;
  user_achievements : list UserAchievement.t;
  audio_records : list AudioRecord.t;
  reading_assignments : list Assignment.t;
  audio_files : list (string * Z);   (* bucket [audio-files]: path, size *)
  next_uuid : nat;
  trace : list Event
}.

Definition with_profiles (f : list Profile.t -> list Profile.t) (w : World) : World :=
  Build_World (f (profiles w)) (reading_streaks w) (achievements w)
    (user_achievements w) (audio_records w) (reading_assignments w)
    (audio_files w) (next_uuid w) (trace w).

Definition with_reading_streaks (f : list Streak.t -> list Streak.t) (w : World) : World :=
  Build_World (profiles w) (f (reading_streaks w)) (achievements w)
    (user_achievements w) (audio_records w) (reading_assignments w)
    (audio_files w) (next_uuid w) (trace w).

Definition with_user_achievements
    (f : list UserAchievement.t -> list UserAchievement.t) (w : World) : World :=
  Build_World (profiles w) (reading_streaks w) (achievements w)
    (f (user_achievements w)) (audio_records w) (reading_assignments w)
    (audio_files w) (next_uuid w) (trace w).

Definition with_audio_records (f : list AudioRecord.t -> list AudioRecord.t) (w : World) : World :=
  Build_World (profiles w) (reading_streaks w) (achievements w)
    (user_achievements w) (f (audio_records w)) (reading_assignments w)
    (audio_files w) (next_uuid w) (trace w).

Definition with_reading_assignments
    (f : list Assignment.t -> list Assignment.t) (w : World) : World :=
  Build_World (profiles w) (reading_streaks w) (achievements w)
    (user_achievements w) (audio_records w) (f (reading_assignments w))
    (audio_files w) (next_uuid w) (trace w).

Definition with_audio_files (f : list (string * Z) -> list (string * Z)) (w : World) : World :=
  Build_World (profiles w) (reading_streaks w) (achievements w)
    (user_achievements w) (audio_records w) (reading_assignments w)
    (f (audio_files w)) (next_uuid w) (trace w).

Definition with_next_uuid (f : nat -> nat) (w : World) : World :=
  Build_World (profiles w) (reading_streaks w) (achievements w)
    (user_achievements w) (audio_records w) (reading_assignments w)
    (audio_files w) (f (next_uuid w)) (trace w).

Definition with_trace (f : list Event -> list Event) (w : World) : World :=
  Build_World (profiles w) (reading_streaks w) (achievements w)
    (user_achievements w) (audio_records w) (reading_assignments w)
    (audio_files w) (next_uuid w) (f (trace w)).

(** ** Computations: a result and the world left behind *)

Inductive Result (A : Type) :=
| Ok (a : A)
| Throw (e : Exn).
Arguments Throw {A} e.

Definition M (A : Type) := World -> Result A * World.

Definition ret {A} (a : A) : M A := fun w => (Ok a, w).

Definition throw {A} (e : Exn) : M A := fun w => (Throw e, w).

Definition bind {A B} (c : M A) (k : A -> M B) : M B :=
  fun w =>
    match c w with
    | (Ok a, w') => k a w'
    | (Throw e, w') => (Throw e, w')
    end.

(** [try { c } catch (error) { h error }] *)
Definition try_catch {A} (c : M A) (h : Exn -> M A) : M A :=
  fun w =>
    match c w with
    | (Ok a, w') => (Ok a, w')
    | (Throw e, w') => h e w'
    end.

(** [try { c } finally { f }] *)
Definition try_finally {A} (c : M A) (f : M unit) : M A :=
  fun w =>
    match c w with
    | (r, w') =>
        match f w' with
        | (Ok _, w'') => (r, w'')
        | (Throw e, w'') => (Throw e, w'')
        end
    end.

Definition gets {A} (f : World -> A) : M A := fun w => (Ok (f w), w).

Definition modify (f : World -> World) : M unit := fun w => (Ok tt, f w).

Declare Scope js_scope.
Delimit Scope js_scope with js.
Notation "x <- c ;; k" := (bind c (fun x => k))
  (at level 61, c at next level, right associativity) : js_scope.
Notation "c ;;; k" := (bind c (fun _ => k))
  (at level 61, right associativity) : js_scope.
Local Open Scope js_scope.

Definition emit (e : Event) : M unit := modify (with_trace (fun t => (t ++ [e])%list)).

Definition console_error (label : string) : M unit := emit (ConsoleError label).

Definition screen (u : Ui) : M unit := emit (Screen u).

(** The wrapper every service method has:
    [try { body } catch (error) { console.error(label, error); throw error; }] *)
Definition logged {A} (label : string) (body : M A) : M A :=
  try_catch body (fun e => console_error label ;;; throw e).

(** ** The backend client *)

Module supabase.

(** Sends a request; the answer says whether the backend reported an
    error.  A request that fails changes nothing. *)
Definition request (env : Env) (site : CallSite) : M bool :=
  emit (Request site) ;;; ret (faults env site).

(** [auth.getUser()] followed by
    [if (!user) throw new Error('User not authenticated')]. *)
Definition getUser (env : Env) : M AuthUser :=
  match auth_user env with
  | Some u => ret u
  | None => throw NotAuthenticated
  end.

(** [.single()]: data only when exactly one row matches. *)
Definition single {R} (rows : list R) : option R :=
  match rows with
  | [r] => Some r
  | _ => None
  end.

(** [.update(f).eq(...)]: every matching row is rewritten. *)
Definition update {R} (p : R -> bool) (f : R -> R) (table : list R) : list R :=
  map (fun r => if p r then f r else r) table.

(** [.delete().eq(...)] *)
Definition delete {R} (p : R -> bool) (table : list R) : list R :=
  filter (fun r => negb (p r)) table.

(** [.select(...).eq(...).single()], read as [{ data }]. *)
Definition select_single {R} (env : Env) (site : CallSite)
    (table : World -> list R) (p : R -> bool) : M (option R) :=
  failed <- request env site ;;
  rows <- gets table ;;
  ret (if failed then None else single (filter p rows)).

(** [.select('*', { count: 'exact', head: true })], read as [{ count }]. *)
Definition select_count {R} (env : Env) (site : CallSite)
    (table : World -> list R) (p : R -> bool) : M (option Z) :=
  failed <- request env site ;;
  rows <- gets table ;;
  ret (if failed then None else Some (Z.of_nat (List.length (filter p rows)))).

(** The identifier the store gives to a new row. *)
Definition uuid_of (n : nat) : string :=
  "row-" ++ NilEmpty.string_of_uint (Nat.to_uint n).

Definition fresh_uuid : M string :=
  n <- gets next_uuid ;;
  modify (with_next_uuid S) ;;;
  ret (uuid_of n).

End supabase.

(** ** services/gamification *)

Module Progress.
(** The object [getStudentProgress] returns. *)
Record t := mk {
  points : Z;
  diamonds : Z;
  currentStreak : Z;
  longestStreak : Z;
  level : Z;
  totalRecordings : Z;
  thisWeekRecordings : Z;
  nextLevelPoints : Z
}.
End Progress.

Record Award := {
  newPoints : Z;
  newLevel : Z
}.

Module gamificationService.
Import supabase.

Definition of_user (u : AuthUser) (p : Profile.t) : bool :=
  String.eqb (Profile.user_id p) (uid u).

Definition recorded_by (u : AuthUser) (r : AudioRecord.t) : bool :=
  String.eqb (AudioRecord.user_id r) (uid u).

(** [.gte('created_at', weekStart.toISOString())] on ISO text. *)
Definition since (start : string) (r : AudioRecord.t) : bool :=
  String.leb start (AudioRecord.created_at r).

(** The tail shared by both branches of [getStudentProgress]: the two
    counts and the object built from the profile row. *)
Definition progress_of (env : Env) (u : AuthUser) (profile : Profile.t) : M Progress.t :=
  totalRecordings <- select_count env ProgressCountTotal audio_records (recorded_by u) ;;
  thisWeekRecordings <- select_count env ProgressCountWeek audio_records
    (fun r => recorded_by u r && since (week_start_iso env) r)%bool ;;
  let currentLevel := Js.or_num (Profile.level profile) 1 in
  let nextLevelPoints := currentLevel * 100 in
  let pointsToNext := nextLevelPoints - Js.or_num (Profile.points profile) 0 in
  ret (Progress.mk
         (Js.or_num (Profile.points profile) 0)
         (Js.or_num (Profile.diamonds profile) 0)
         (Js.or_num (Profile.current_streak profile) 0)
         (Js.or_num (Profile.longest_streak profile) 0)
         (Js.or_num (Profile.level profile) 1)
         (Js.or_num totalRecordings 0)
         (Js.or_num thisWeekRecordings 0)
         (Z.max 0 pointsToNext)).

(** The values returned when the profile can be neither read nor made. *)
Definition default_progress : Progress.t :=
  Progress.mk 0 0 0 0 1 0 0 100.

Definition getStudentProgress (env : Env) : M Progress.t :=
  logged "Get student progress error" (
    user <- getUser env ;;
    profile <- select_single env ProgressProfileSelect profiles (of_user user) ;;
    match profile with
    | None =>
        createError <- request env ProgressProfileInsert ;;
        if createError then
          console_error "Failed to create profile" ;;;
          ret default_progress
        else
          new_id <- fresh_uuid ;;
          let newProfile :=
            Profile.mk new_id (uid user) (display_name user)
              (Some 0) (Some 0) (Some 0) (Some 0) (Some 1) None None in
          modify (with_profiles (fun t => (t ++ [newProfile])%list)) ;;;
          progress_of env user newProfile
    | Some profile => progress_of env user profile
    end).

(** The [switch] on [requirement_type]; [perfect_week] leaves [earned]
    false. *)
Definition earned (stats : Progress.t) (a : Achievement.t) : bool :=
  match Achievement.requirement a with
  | total_recordings => Progress.totalRecordings stats >=? Achievement.requirement_value a
  | streak => Progress.currentStreak stats >=? Achievement.requirement_value a
  | points => Progress.points stats >=? Achievement.requirement_value a
  | perfect_week => false
  end.

Definition has_id (key : string) (p : Profile.t) : bool :=
  String.eqb (Profile.id p) key.

(** The body of [if (earned) { ... }] for one achievement. *)
Definition award_achievement (env : Env) (user : AuthUser) (a : Achievement.t) : M unit :=
  let aid := Achievement.id a in
  insertError <- request env (UserAchievementInsert aid) ;;
  (if insertError then ret tt
   else modify (with_user_achievements
          (fun t => (t ++ [UserAchievement.mk (uid user) aid (now_iso env)])%list))) ;;;
  if ((Achievement.points_reward a >? 0) || (Achievement.diamonds_reward a >? 0))%bool then
    profile <- select_single env (RewardProfileSelect aid) profiles (has_id (uid user)) ;;
    let old_points := match profile with Some p => Profile.points p | None => None end in
    let old_diamonds := match profile with Some p => Profile.diamonds p | None => None end in
    updateError <- request env (RewardProfileUpdate aid) ;;
    if updateError then ret tt
    else modify (with_profiles (update (has_id (uid user))
           (Profile.set_points_diamonds
              (Js.or_num old_points 0 + Achievement.points_reward a)
              (Js.or_num old_diamonds 0 + Achievement.diamonds_reward a))))
  else ret tt.

(** [for (const achievement of availableAchievements || [])]; the list
    was read before the loop and [newAchievements] grows by [push]. *)
Fixpoint award_loop (env : Env) (user : AuthUser) (stats : Progress.t)
    (available : list Achievement.t) (newAchievements : list Achievement.t)
    : M (list Achievement.t) :=
  match available with
  | [] => ret newAchievements
  | achievement :: rest =>
      if earned stats achievement then
        award_achievement env user achievement ;;;
        award_loop env user stats rest (newAchievements ++ [achievement])%list
      else
        award_loop env user stats rest newAchievements
  end.

(** The text [checkAndAwardAchievements] hands to [.not('id', 'in', ...)]
    as the list of ids to leave out, line breaks and indentation
    included. *)
Definition earned_ids_text (user : AuthUser) : string :=
  "(
          SELECT achievement_id 
          FROM user_achievements 
          WHERE user_id = '" ++ uid user ++ "'
        )".

(** A list literal of the store, [(v1,v2,...)]: what stands between the
    parentheses, cut at the commas. *)
Fixpoint cut_at_commas (text : string) : list string :=
  match text with
  | EmptyString => [EmptyString]
  | String c rest =>
      if Ascii.eqb c ","%char then EmptyString :: cut_at_commas rest
      else
        match cut_at_commas rest with
        | value :: values => String c value :: values
        | [] => [String c EmptyString]
        end
  end.

Definition listed (text : string) : list string :=
  cut_at_commas (String.substring 1 (String.length text - 2)%nat text).

(** [.not('id', 'in', text)].  The client writes the text into the request
    as it stands, and the store compares the [id] of a row with the values
    of the list literal it is given.  Nothing runs the text as a query:
    the rows of [user_achievements] play no part in the answer.  A store
    that turns the text down altogether is the fault at
    [AchievementsSelect]. *)
Definition unearned (user : AuthUser) (a : Achievement.t) : bool :=
  negb (existsb (String.eqb (Achievement.id a)) (listed (earned_ids_text user))).

Definition checkAndAwardAchievements (env : Env) : M (list Achievement.t) :=
  logged "Check achievements error" (
    user <- getUser env ;;
    stats <- getStudentProgress env ;;
    error <- request env AchievementsSelect ;;
    if error then throw (SupabaseError AchievementsSelect)
    else
      catalog <- gets achievements ;;
      award_loop env user stats (filter (unearned user) catalog) []).

(** [recordingId] is accepted and not used. *)
Definition awardPoints (env : Env) (points : Z) (recordingId : option string) : M Award :=
  logged "Award points error" (
    user <- getUser env ;;
    profile <- select_single env AwardProfileSelect profiles (of_user user) ;;
    match profile with
    | None =>
        console_error "Profile not found for points award" ;;;
        ret {| newPoints := points; newLevel := 1 |}
    | Some profile =>
        let newPoints := Js.or_num (Profile.points profile) 0 + points in
        let newLevel := newPoints / 100 + 1 in
        updateError <- request env AwardProfileUpdate ;;
        if updateError then
          console_error "Failed to update points" ;;;
          ret {| newPoints := newPoints; newLevel := newLevel |}
        else
          modify (with_profiles (update (of_user user)
            (Profile.set_points_level newPoints newLevel (now_iso env)))) ;;;
          checkAndAwardAchievements env ;;;
          ret {| newPoints := newPoints; newLevel := newLevel |}
    end).

Definition on_day (user : AuthUser) (day : string) (r : Streak.t) : bool :=
  (String.eqb (Streak.student_id r) (uid user)
   && String.eqb (Streak.streak_date r) day)%bool.

Definition streak_has_id (key : string) (r : Streak.t) : bool :=
  String.eqb (Streak.id r) key.

(** [new Date().toISOString().split('T')[0]] *)
Definition today_of (env : Env) : string := Js.before_T (now_iso env).

Definition updateStreak (env : Env) : M unit :=
  logged "Update streak error" (
    user <- getUser env ;;
    let today := today_of env in
    existingStreak <- select_single env StreakLedgerSelect reading_streaks (on_day user today) ;;
    match existingStreak with
    | Some existingStreak =>
        failed <- request env StreakLedgerUpdate ;;
        if failed then ret tt
        else modify (with_reading_streaks
               (update (streak_has_id (Streak.id existingStreak))
                  (Streak.set_counters
                     (Streak.recordings_count existingStreak + 1)
                     (Streak.points_earned existingStreak + 10))))
    | None =>
        streakError <- request env StreakLedgerInsert ;;
        if streakError then
          console_error "Failed to create streak record"
        else
          new_id <- fresh_uuid ;;
          modify (with_reading_streaks
            (fun t => (t ++ [Streak.mk new_id (uid user) today 1 10])%list)) ;;;
          profile <- select_single env StreakProfileSelect profiles (of_user user) ;;
          match profile with
          | Some profile =>
              let newCurrentStreak := Js.or_num (Profile.current_streak profile) 0 + 1 in
              let newLongestStreak :=
                Z.max (Js.or_num (Profile.longest_streak profile) 0) newCurrentStreak in
              failed <- request env StreakProfileUpdate ;;
              if failed then ret tt
              else modify (with_profiles (update (of_user user)
                     (Profile.set_streak newCurrentStreak newLongestStreak today)))
          | None => ret tt
          end
    end).

End gamificationService.

(** ** services/audio *)

Record CreateAudioRecordData := {
  data_title : string;
  data_description : option string;
  data_file_path : string;
  data_file_size : Z;
  data_duration : Q;
  data_points_earned : Z
}.

Module audioService.
Import supabase.

Definition is_mobile (p : Platform) : bool :=
  match p with
  | ios | android => true
  | web => false
  end.

Definition stored_at (path : string) (object : string * Z) : bool :=
  String.eqb (fst object) path.

(** [storage.from('audio-files').upload(filePath, body, { upsert: false })]
    followed by the [if (error)] block and the listing that is only
    printed.  An object already stored under the path is an error. *)
Definition upload (env : Env) (user : AuthUser) (filePath : string) (size : Z) : M string :=
  failed <- request env StorageUpload ;;
  objects <- gets audio_files ;;
  if (failed || existsb (stored_at filePath) objects)%bool then
    console_error "Supabase storage error" ;;;
    console_error "Error details" ;;;
    throw (SupabaseError StorageUpload)
  else
    modify (with_audio_files (fun t => (t ++ [(filePath, size)])%list)) ;;;
    request env StorageList ;;;
    ret filePath.

Definition uploadAudioFile (env : Env) (uri fileName : string) : M string :=
  logged "Upload audio file error" (
    user <- getUser env ;;
    let filePath := uid user ++ "/" ++ fileName in
    if is_mobile (platform env) then
      try_catch
        (match local_file env uri with
         | None => throw (Error "File does not exist")
         | Some size => upload env user filePath size
         end)
        (fun _ =>
           console_error "FileSystem error" ;;;
           throw (Error "file processing failed"))
    else
      size <- try_catch
        (match local_file env uri with
         | None => throw (Error "Local file fetch failed")
         | Some size => ret size
         end)
        (fun _ =>
           console_error "Fetch error" ;;;
           throw (Error "Failed to process local audio file")) ;;
      if size =? 0 then throw (Error "Audio file is empty")
      else upload env user filePath size).

(** The insert answers with the row it made, so the check for an empty
    answer after a successful insert has no case here. *)
Definition saveAudioRecord (env : Env) (data : CreateAudioRecordData) : M AudioRecord.t :=
  logged "Save audio record error" (
    user <- getUser env ;;
    error <- request env AudioInsert ;;
    if error then
      console_error "Save record error" ;;;
      console_error "Error details" ;;;
      throw (SupabaseError AudioInsert)
    else
      new_id <- fresh_uuid ;;
      let record :=
        AudioRecord.mk new_id (uid user) (data_title data)
          (match data_description data with
           | Some text => if Js.truthy text then Some text else None
           | None => None
           end)
          (data_file_path data)
          (if data_file_size data =? 0 then None else Some (data_file_size data))
          (Js.or_null_q (data_duration data))
          (Js.or_num (Some (data_points_earned data)) 0)
          None None None None (now_iso env) (now_iso env) in
      modify (with_audio_records (fun t => (t ++ [record])%list)) ;;;
      ret record).

(** [.order('created_at', { ascending: false })] *)
Fixpoint insert_newest_first (r : AudioRecord.t) (sorted : list AudioRecord.t)
    : list AudioRecord.t :=
  match sorted with
  | [] => [r]
  | s :: rest =>
      if String.leb (AudioRecord.created_at s) (AudioRecord.created_at r)
      then r :: sorted
      else s :: insert_newest_first r rest
  end.

Definition newest_first (records : list AudioRecord.t) : list AudioRecord.t :=
  fold_right insert_newest_first [] records.

Definition getUserAudioRecords (env : Env) : M (list AudioRecord.t) :=
  logged "Get audio records error" (
    error <- request env AudioSelectAll ;;
    if error then
      console_error "Fetch records error" ;;;
      throw (SupabaseError AudioSelectAll)
    else
      records <- gets audio_records ;;
      ret (newest_first records)).

Definition record_has_id (key : string) (r : AudioRecord.t) : bool :=
  String.eqb (AudioRecord.id r) key.

Definition deleteAudioRecord (env : Env) (id filePath : string) : M unit :=
  logged "Delete audio record error" (
    storageError <- request env StorageRemove ;;
    (if storageError then console_error "Delete file error"
     else modify (with_audio_files (delete (stored_at filePath)))) ;;;
    dbError <- request env AudioDelete ;;
    if dbError then
      console_error "Delete record error" ;;;
      throw (SupabaseError AudioDelete)
    else
      modify (with_audio_records (delete (record_has_id id)))).

End audioService.

(** ** services/assignments *)

Module assignmentService.
Import supabase.

Definition assignment_has_id (key : string) (a : Assignment.t) : bool :=
  String.eqb (Assignment.id a) key.

(** [.update({ status, updated_at }).eq('id', assignmentId).select().single()]:
    the row as rewritten, or an error, with nothing written, when the
    request is refused or not exactly one row matches.  The current status
    is not read. *)
Definition set_status (env : Env) (site : CallSite) (assignmentId : string)
    (s : assignment_status) : M Assignment.t :=
  failed <- request env site ;;
  rows <- gets reading_assignments ;;
  match (if failed then None else single (filter (assignment_has_id assignmentId) rows)) with
  | None => throw (SupabaseError site)
  | Some row =>
      modify (with_reading_assignments
        (update (assignment_has_id assignmentId)
           (Assignment.set_status s (now_iso env)))) ;;;
      ret (Assignment.set_status s (now_iso env) row)
  end.

Definition completeAssignment (env : Env) (assignmentId recordingId : string)
    : M Assignment.t :=
  logged "Complete assignment error" (
    data <- set_status env AssignmentComplete assignmentId completed ;;
    failed <- request env AssignmentLink ;;
    (if failed then ret tt
     else modify (with_audio_records
            (update (audioService.record_has_id recordingId)
               (AudioRecord.set_assignment assignmentId)))) ;;;
    ret data).

Definition linked_to (assignmentId : string) (r : AudioRecord.t) : bool :=
  match AudioRecord.assignment_id r with
  | Some a => String.eqb a assignmentId
  | None => false
  end.

Definition reviewAssignment (env : Env) (assignmentId : string) (rating : Z)
    (feedback quality : option string) : M Assignment.t :=
  logged "Review assignment error" (
    data <- set_status env AssignmentReview assignmentId reviewed ;;
    recording <- select_single env AssignmentRecordingSelect audio_records
                   (linked_to assignmentId) ;;
    match recording with
    | Some recording =>
        failed <- request env AssignmentRecordingUpdate ;;
        (if failed then ret tt
         else modify (with_audio_records
                (update (audioService.record_has_id (AudioRecord.id recording))
                   (AudioRecord.set_review rating feedback quality)))) ;;;
        ret data
    | None => ret data
    end).

End assignmentService.

(** ** components/audio: the history list *)

Module AudioHistory.

(** The state the handlers close over in one render. *)
Record State := {
  playback : bool;                    (* an [Audio.Sound] is loaded *)
  playingRecordId : option string
}.

Definition stopAudio (env : Env) (st : State) : M unit :=
  try_catch
    (if playback st then
       screen SoundStopAsync ;;;
       (if sound_fails env then throw (Error "stopAsync rejected") else ret tt) ;;;
       screen SoundUnloadAsync ;;;
       screen SetPlaybackNull ;;;
       screen SetPlayingRecordIdNull ;;;
       screen ResetPlaybackState
     else ret tt)
    (fun _ => console_error "Stop audio error").

Definition is_playing (st : State) (record : AudioRecord.t) : bool :=
  match playingRecordId st with
  | Some id => String.eqb id (AudioRecord.id record)
  | None => false
  end.

Definition deleteRecord (env : Env) (st : State) (record : AudioRecord.t) : M unit :=
  try_catch
    ((if is_playing st record then stopAudio env st else ret tt) ;;;
     audioService.deleteAudioRecord env (AudioRecord.id record)
       (AudioRecord.file_path record) ;;;
     screen AlertDeleted ;;;
     screen LoadRecords)
    (fun _ =>
       console_error "Delete record error" ;;;
       screen AlertDeleteError).

End AudioHistory.

(** ** components/audio: the recorder *)

Module AudioRecorder.

Record RecordingState := {
  duration : Q;
  uri : option string
}.

(** The state the handler closes over in one render. *)
Record State := {
  title : string;
  description : string;
  recordingState : RecordingState
}.

Definition discardRecording : M unit :=
  screen ResetRecordingState ;;;
  screen (SetTitle "") ;;;
  screen (SetDescription "") ;;;
  screen (SetTitleError "").

(** [.replace(/[:.]/g, '-')] *)
Fixpoint dashes (s : string) : string :=
  match s with
  | EmptyString => EmptyString
  | String c rest =>
      String (if (Ascii.eqb c ":" || Ascii.eqb c ".")%bool then "-"%char else c)
             (dashes rest)
  end.

Definition basePoints : Z := 10.

(** [Math.ceil(recordingState.duration / 60)] *)
Definition durationMinutes (duration : Q) : Z := Qceiling (duration / 60).

(** [Math.min(durationMinutes * 2, 20)] *)
Definition durationBonus (duration : Q) : Z := Z.min (durationMinutes duration * 2) 20.

Definition totalPoints (duration : Q) : Z := basePoints + durationBonus duration.

(** Reading an identifier no enclosing scope declares. *)
Definition undeclared {A} (identifier : string) : M A :=
  throw (ReferenceError identifier).

(** The [try] block of [validateAndSave]. *)
Definition save (env : Env) (st : State) (uri : string) : M unit :=
  let duration := duration (recordingState st) in
  size <- match local_file env uri with
          | None => throw (Error "Local recording file is not accessible")
          | Some size => ret size
          end ;;
  (if size =? 0 then throw (Error "Recording file is empty. Please record again.")
   else ret tt) ;;;
  let fileName := "recording-" ++ dashes (now_iso env) ++ ".m4a" in
  filePath <- audioService.uploadAudioFile env uri fileName ;;
  let totalPoints := totalPoints duration in
  let recordData :=
    {| data_title := Js.trim (title st);
       data_description :=
         (if Js.truthy (Js.trim (description st))
          then Some (Js.trim (description st)) else None);
       data_file_path := filePath;
       data_file_size := size;
       data_duration := duration;
       data_points_earned := totalPoints |} in
  savedRecord <- audioService.saveAudioRecord env recordData ;;
  gamificationService.awardPoints env totalPoints (Some (AudioRecord.id savedRecord)) ;;;
  gamificationService.updateStreak env ;;;
  newAchievements <- gamificationService.checkAndAwardAchievements env ;;
  audioService.getUserAudioRecords env ;;;
  screen (AlertRecordingSavedSuccessfully totalPoints basePoints
            (durationBonus duration) (List.length newAchievements)) ;;;
  discardRecording ;;;
  screen OnRecordingSaved.

(** The [catch] block.  [totalPoints] is declared with [const] inside the
    [try] block, so the name is not in scope here. *)
Definition save_failed : M unit :=
  console_error "Save recording error" ;;;
  console_error "Full error object" ;;;
  totalPoints <- undeclared "totalPoints" ;;
  screen (AlertRecordingSaved totalPoints) ;;;
  discardRecording ;;;
  screen OnRecordingSaved.

Definition validateAndSave (env : Env) (st : State) : M unit :=
  if negb (Js.truthy (Js.trim (title st))) then
    screen (SetTitleError "Title is required")
  else
    match uri (recordingState st) with
    | None => ret tt
    | Some uri =>
        if negb (Js.truthy uri) then ret tt
        else
          screen (SetTitleError "") ;;;
          screen (SetIsSaving true) ;;;
          try_finally
            (try_catch (save env st uri) (fun _ => save_failed))
            (screen (SetIsSaving false))
    end.

End AudioRecorder.


(** ** services/audio: the remaining methods

    The requests of the methods below are answered through arguments of
    their own: [refused] says whether the backend reported an error, and
    what a refused request throws is the backend's error object, written
    [Error "backend error"]. *)


Module audioEdits.
Import supabase.





(** [n.toString()] for an integer. *)
Definition number_to_string (n : Z) : string :=
  NilEmpty.string_of_int (Z.to_int n).

Fixpoint repeat_char (c : ascii) (n : nat) : string :=
  match n with
  | O => EmptyString
  | S m => String c (repeat_char c m)
  end.

(** [str.padStart(target, c)] *)
Definition padStart (target : nat) (c : ascii) (str : string) : string :=
  repeat_char c (target - String.length str) ++ str.

(** [Math.trunc], and [a % b] on numbers: the remainder has the sign of
    [a]. *)
Definition truncate (q : Q) : Z :=
  if Qle_bool 0 q then Qfloor q else Qceiling q.

Definition remainder (a b : Q) : Q :=
  a - b * inject_Z (truncate (a / b)).

(** [formatDuration]: [undefined] and [0] are both falsy. *)
Definition formatDuration (seconds : option Q) : string :=
  match seconds with
  | None => "0:00"
  | Some s =>
      if Qeq_bool s 0 then "0:00"
      else
        let mins := Qfloor (s / 60) in
        let secs := Qfloor (remainder s 60) in
        number_to_string mins ++ ":" ++ padStart 2 "0" (number_to_string secs)
  end.

End audioEdits.

(** ** services/gamification: the achievement list *)

Module Listed.
(** An element of what [getAllAchievements] returns: the catalog row with
    the two keys added to it. *)
Record t := mk {
  achievement : Achievement.t;
  earned : bool;
  earned_at : option string
}.
End Listed.

Module achievementList.
Import supabase.

(** [.order('requirement_value', { ascending: true })]; rows of equal
    value come in the order of the table, one of the orders the store may
    answer with. *)
Fixpoint insert_by_requirement (a : Achievement.t) (sorted : list Achievement.t)
    : list Achievement.t :=
  match sorted with
  | [] => [a]
  | s :: rest =>
      if Achievement.requirement_value a <=? Achievement.requirement_value s
      then a :: sorted
      else s :: insert_by_requirement a rest
  end.

Definition by_requirement (catalog : list Achievement.t) : list Achievement.t :=
  fold_right insert_by_requirement [] catalog.

Definition row_of (user : AuthUser) (ua : UserAchievement.t) : bool :=
  String.eqb (UserAchievement.user_id ua) (uid user).

Definition row_for (a : Achievement.t) (ua : UserAchievement.t) : bool :=
  String.eqb (UserAchievement.achievement_id ua) (Achievement.id a).

(** [earnedMap.get(achievement.id)] after the [forEach] of [set]: the
    last row for the id is the one that stays. *)
Definition earned_at_of (a : Achievement.t) (mine : list UserAchievement.t)
    : option string :=
  fold_left
    (fun found ua => if row_for a ua then Some (UserAchievement.earned_at ua) else found)
    mine None.

Definition getAllAchievements (env : Env) (achievementsError userError : bool)
    : M (list Listed.t) :=
  logged "Get all achievements error" (
    user <- getUser env ;;
    catalog <- gets achievements ;;
    if achievementsError then throw (Error "backend error")
    else
      rows <- gets user_achievements ;;
      if userError then throw (Error "backend error")
      else
        let mine := filter (row_of user) rows in
        ret (map (fun a => Listed.mk a (existsb (row_for a) mine) (earned_at_of a mine))
                 (by_requirement catalog))).

End achievementList.

(** ** components/achievements: the progress bar *)

Module AchievementsScreen.

(** What [Math.min(current / value, 1)] can be for two integers: a
    number, or one of the two values a zero [value] brings. *)
Inductive Bar :=
| Fraction (q : Q)
| MinusInfinity
| NotANumber.

Definition min_with_one (current value : Z) : Bar :=
  if value =? 0 then
    if current =? 0 then NotANumber
    else if 0 <? current then Fraction 1
    else MinusInfinity
  else
    let q := (inject_Z current / inject_Z value)%Q in
    Fraction (if Qle_bool q 1 then q else 1).

(** The [switch] of [getProgressPercentage]; the statistics carry no
    [perfectWeeks] key, so that case reads [undefined || 0]. *)
Definition current_of (userStats : Progress.t) (a : Achievement.t) : Z :=
  match Achievement.requirement a with
  | total_recordings => Js.or_num (Some (Progress.totalRecordings userStats)) 0
  | streak => Js.or_num (Some (Progress.currentStreak userStats)) 0
  | points => Js.or_num (Some (Progress.points userStats)) 0
  | perfect_week => 0
  end.

Definition getProgressPercentage (userStats : option Progress.t) (a : Listed.t)
    : Bar :=
  if Listed.earned a then Fraction 1
  else
    match userStats with
    | None => Fraction 0
    | Some stats =>
        min_with_one (current_of stats (Listed.achievement a))
          (Achievement.requirement_value (Listed.achievement a))
    end.

End AchievementsScreen.

(** ** Vocabulary of the statements *)

(** The rows one evaluation pass adds: one per achievement that is earned
    and whose insert the backend accepts. *)
Definition rows_added (env : Env) (user : AuthUser) (stats : Progress.t)
    (available : list Achievement.t) : list UserAchievement.t :=
  map (fun a => UserAchievement.mk (uid user) (Achievement.id a) (now_iso env))
      (filter (fun a => gamificationService.earned stats a
                        && negb (faults env (UserAchievementInsert (Achievement.id a))))%bool
              available).

(** The catalog rows the evaluator scans for a user. *)
Definition available_to (user : AuthUser) (w : World) : list Achievement.t :=
  filter (gamificationService.unearned user) (achievements w).

(** A computation leaves a part of the world as it found it, whatever its
    outcome. *)
Definition keeps {T A : Type} (part : World -> T) (c : M A) : Prop :=
  forall w, part (snd (c w)) = part w.

(** The recordings and what is stored or planned around them: the part of
    the world the gamification service never writes. *)
Definition recordings (w : World)
    : list AudioRecord.t * list (string * Z) * list Assignment.t :=
  (audio_records w, audio_files w, reading_assignments w).

(** The events [deleteRecord] leaves when the record is the one loaded in
    the player: the stop, and either the unloading and the three state
    resets or the logged rejection. *)
Definition stop_trace (env : Env) : list Event :=
  if sound_fails env
  then [Screen SoundStopAsync; ConsoleError "Stop audio error"]
  else [Screen SoundStopAsync; Screen SoundUnloadAsync; Screen SetPlaybackNull;
        Screen SetPlayingRecordIdNull; Screen ResetPlaybackState].

(** The events of the deletion proper: the object removal with its log
    line on failure, then the row deletion with either the failure logs and
    the error alert or the confirmation and the refresh. *)
Definition delete_trace (env : Env) : list Event :=
  ([Request StorageRemove]
   ++ (if faults env StorageRemove then [ConsoleError "Delete file error"] else [])
   ++ [Request AudioDelete]
   ++ (if faults env AudioDelete
       then [ConsoleError "Delete record error";
             ConsoleError "Delete audio record error";
             ConsoleError "Delete record error";
             Screen AlertDeleteError]
       else [Screen AlertDeleted; Screen LoadRecords]))%list.

(** The order of the assignment states the specification describes:
    a status stays, or moves one step forward. *)
Definition steps_forward (s s' : assignment_status) : bool :=
  match s, s' with
  | pending, pending | completed, completed | reviewed, reviewed => true
  | pending, completed | completed, reviewed => true
  | _, _ => false
  end.

(** The (user, achievement) pair a [user_achievements] row stands for. *)
Definition pair_of (ua : UserAchievement.t) : string * string :=
  (UserAchievement.user_id ua, UserAchievement.achievement_id ua).

(** No request fails. *)
Definition reliable (env : Env) : Prop := forall site, faults env site = false.

(** The streak counters as the code reads them ([x || 0]). *)
Definition streak_of (p : Profile.t) : Z := Js.or_num (Profile.current_streak p) 0.

Definition longest_of (p : Profile.t) : Z := Js.or_num (Profile.longest_streak p) 0.

(** Two readings of a profile row, before and after a call: the same row,
    with neither streak counter lower. *)
Definition streaks_kept (p p' : Profile.t) : Prop :=
  Profile.id p' = Profile.id p
  /\ Profile.user_id p' = Profile.user_id p
  /\ streak_of p <= streak_of p'
  /\ longest_of p <= longest_of p'.

(** The ledger row [updateStreak] files for a day without one. *)
Definition first_entry (env : Env) (user : AuthUser) (w : World) : Streak.t :=
  Streak.mk (supabase.uuid_of (next_uuid w)) (uid user)
    (gamificationService.today_of env) 1 10.

(** The rewrite of the profile made by the day's first call, computed from
    the row [profile] that was read. *)
Definition counting (env : Env) (profile : Profile.t) : Profile.t -> Profile.t :=
  Profile.set_streak
    (streak_of profile + 1)
    (Z.max (longest_of profile) (streak_of profile + 1))
    (gamificationService.today_of env).

Definition counted (env : Env) (profile : Profile.t) : Profile.t :=
  counting env profile profile.

(** What a same-day call does to a ledger row: the day's row gets one more
    recording and ten more points and keeps its other columns, every other
    row stays as it is. *)
Definition only_day_counted (user : AuthUser) (day : string) (r r' : Streak.t) : Prop :=
  if gamificationService.on_day user day r
  then Streak.recordings_count r' = Streak.recordings_count r + 1
       /\ Streak.points_earned r' = Streak.points_earned r + 10
       /\ Streak.id r' = Streak.id r
       /\ Streak.student_id r' = Streak.student_id r
       /\ Streak.streak_date r' = Streak.streak_date r
  else r' = r.

(** What the day's first call does to a profile row: a row of the user
    gets a streak one longer, the longest streak raised to it where it was
    shorter, and the day as its last activity; every other column and every
    other row stays as it is. *)
Definition day_counted (user : AuthUser) (day : string) (p p' : Profile.t) : Prop :=
  if gamificationService.of_user user p
  then Profile.current_streak p' = Some (streak_of p + 1)
       /\ Profile.longest_streak p' = Some (Z.max (longest_of p) (streak_of p + 1))
       /\ Profile.last_activity p' = Some day
       /\ Profile.id p' = Profile.id p
       /\ Profile.user_id p' = Profile.user_id p
       /\ Profile.full_name p' = Profile.full_name p
       /\ Profile.points p' = Profile.points p
       /\ Profile.diamonds p' = Profile.diamonds p
       /\ Profile.level p' = Profile.level p
       /\ Profile.updated_at p' = Profile.updated_at p
  else p' = p.

(** What the write of [awardPoints] does to a profile row: a row of the
    user gets the new points, the new level and the time of the write;
    every other column and every other row stays as it is. *)
Definition points_written (env : Env) (user : AuthUser) (np nl : Z)
    (p p' : Profile.t) : Prop :=
  if gamificationService.of_user user p
  then Profile.points p' = Some np
       /\ Profile.level p' = Some nl
       /\ Profile.updated_at p' = Some (now_iso env)
       /\ Profile.id p' = Profile.id p
       /\ Profile.user_id p' = Profile.user_id p
       /\ Profile.full_name p' = Profile.full_name p
       /\ Profile.diamonds p' = Profile.diamonds p
       /\ Profile.current_streak p' = Profile.current_streak p
       /\ Profile.longest_streak p' = Profile.longest_streak p
       /\ Profile.last_activity p' = Profile.last_activity p
  else p' = p.

(** Everything the store holds besides the profiles. *)
Definition other_tables (w : World)
    : list Streak.t * list Achievement.t * list UserAchievement.t
      * (list AudioRecord.t * list (string * Z) * list Assignment.t) * nat :=
  (reading_streaks w, achievements w, user_achievements w, recordings w, next_uuid w).

(** No profile row carries the user's id as its own row id: the table that
    the evaluator's reward query, which looks rows up by [id], does not
    reach. *)
Definition unkeyed (user : AuthUser) (w : World) : Prop :=
  filter (gamificationService.has_id (uid user)) (profiles w) = [].


(** ** Vocabulary of the further statements *)

(** The ledger's book-keeping rule: ten points for each recording of the
    day. *)
Definition ten_per_recording (r : Streak.t) : Prop :=
  Streak.points_earned r = 10 * Streak.recordings_count r.

(** The four alert boxes. *)
Definition is_alert (e : Event) : bool :=
  match e with
  | Screen (AlertRecordingSavedSuccessfully _ _ _ _)
  | Screen (AlertRecordingSaved _)
  | Screen AlertDeleted
  | Screen AlertDeleteError => true
  | _ => false
  end.

Definition quiet (e : Event) : Prop := is_alert e = false.

(** A computation only appends events, and every event it appends
    satisfies [allowed]. *)
Definition adds {A : Type} (allowed : Event -> Prop) (c : M A) : Prop :=
  forall w, exists events,
    trace (snd (c w)) = (trace w ++ events)%list /\ Forall allowed events.

(** A computation that shows no alert on the runs that end in a throw. *)
Definition fails_quietly {A : Type} (c : M A) : Prop :=
  forall w, exists events,
    trace (snd (c w)) = (trace w ++ events)%list
    /\ (forall e, fst (c w) = Throw e -> Forall quiet events).

Definition never_throws {A : Type} (c : M A) : Prop :=
  forall w, exists a, fst (c w) = Ok a.

(** The two tables the audio service never writes. *)
Definition standing (w : World) : list Profile.t * list Streak.t :=
  (profiles w, reading_streaks w).

(** ** Vocabulary for the remaining methods *)


(** The two decimal digits of a number below one hundred. *)
Definition two_digits (n : Z) : string :=
  String (ascii_of_nat (48 + Z.to_nat (n / 10)))
    (String (ascii_of_nat (48 + Z.to_nat (n mod 10))) EmptyString).

(** A catalog listing in ascending order of [requirement_value]. *)
Definition no_higher (a b : Achievement.t) : Prop :=
  Achievement.requirement_value a <= Achievement.requirement_value b.

Definition ascending (listing : list Achievement.t) : Prop :=
  Sorted no_higher listing.

(** ** Sample worlds *)

Module Sample.

Definition ann : AuthUser := {| uid := "u1"; display_name := "Ann" |}.

Definition never : CallSite -> bool := fun _ => false.

Definition env_at (now : string) (failing : CallSite -> bool) (size : Z) : Env :=
  {| auth_user := Some ann;
     now_iso := now;
     week_start_iso := "2026-03-01T00:00:00.000Z";
     platform := web;
     local_file := fun _ => Some size;
     sound_fails := false;
     faults := failing |}.

Definition env_with (failing : CallSite -> bool) (size : Z) : Env :=
  env_at "2026-03-02T10:00:00.000Z" failing size.

(** Nothing fails and the captured file holds 1234 bytes. *)
Definition env : Env := env_with never 1234.

(** Later the same day. *)
Definition evening : Env := env_at "2026-03-02T18:30:00.000Z" never 1234.

(** The same moment with the request at [site] refused. *)
Definition env_failing (site : CallSite -> bool) : Env := env_with site 1234.

Definition ann_profile : Profile.t :=
  Profile.mk "p1" "u1" "Ann" (Some 95) (Some 0) (Some 2) (Some 3) (Some 1) None None.

(** A reader whose last activity lies two months back. *)
Definition lapsed_profile : Profile.t :=
  Profile.mk "p1" "u1" "Ann" (Some 95) (Some 0) (Some 2) (Some 3) (Some 1)
    (Some "2026-01-05") None.

Definition century : Achievement.t :=
  Achievement.mk "a1" "Century" points 100 25 5.

Definition bookworm : Achievement.t :=
  Achievement.mk "a2" "Bookworm" points 50 25 5.

Definition chapter : AudioRecord.t :=
  AudioRecord.mk "r1" "u1" "Chapter 1" None "u1/recording-1.m4a" (Some 1234)
    (Some 90%Q) 14 None None None None
    "2026-03-01T09:00:00.000Z" "2026-03-01T09:00:00.000Z".

Definition homework (s : assignment_status) : Assignment.t :=
  Assignment.mk "h1" "u1" "parent" "Moby Dick" s "2026-03-01T08:00:00.000Z".

Definition world : World :=
  {| profiles := [ann_profile];
     reading_streaks := [];
     achievements := [century];
     user_achievements := [];
     audio_records := [chapter];
     reading_assignments := [homework pending];
     audio_files := [("u1/recording-1.m4a", 1234)];
     next_uuid := 0;
     trace := [] |}.

Definition lapsed_world : World :=
  {| profiles := [lapsed_profile];
     reading_streaks := [Streak.mk "s1" "u1" "2026-01-05" 1 10];
     achievements := [];
     user_achievements := [];
     audio_records := [];
     reading_assignments := [];
     audio_files := [];
     next_uuid := 0;
     trace := [] |}.

(** The homework has already been reviewed. *)
Definition reviewed_world : World :=
  {| profiles := [ann_profile];
     reading_streaks := [];
     achievements := [];
     user_achievements := [];
     audio_records := [AudioRecord.set_assignment "h1" chapter];
     reading_assignments := [homework reviewed];
     audio_files := [("u1/recording-1.m4a", 1234)];
     next_uuid := 0;
     trace := [] |}.

(** A named recording; whether its captured file is empty is up to the
    environment. *)
Definition capture : AudioRecorder.State :=
  {| AudioRecorder.title := "Chapter 1";
     AudioRecorder.description := "";
     AudioRecorder.recordingState :=
       {| AudioRecorder.duration := 90;
          AudioRecorder.uri := Some "file:///rec.m4a" |} |}.

(** A recording without a title. *)
Definition untitled : AudioRecorder.State :=
  {| AudioRecorder.title := "   ";
     AudioRecorder.description := "";
     AudioRecorder.recordingState :=
       {| AudioRecorder.duration := 90;
          AudioRecorder.uri := Some "file:///rec.m4a" |} |}.

(** The history screen while [chapter] is playing. *)
Definition playing_chapter : AudioHistory.State :=
  {| AudioHistory.playback := true;
     AudioHistory.playingRecordId := Some "r1" |}.

Definition storage_down (site : CallSite) : bool :=
  match site with
  | StorageRemove => true
  | _ => false
  end.

Definition database_down (site : CallSite) : bool :=
  match site with
  | AudioDelete => true
  | _ => false
  end.

Definition welcome : Achievement.t :=
  Achievement.mk "a0" "Welcome" points 0 10 1.

(** A reader who signs in for the first time: no profile row yet. *)
Definition first_visit : World :=
  {| profiles := [];
     reading_streaks := [];
     achievements := [welcome];
     user_achievements := [];
     audio_records := [];
     reading_assignments := [];
     audio_files := [];
     next_uuid := 0;
     trace := [] |}.

(** Ann with 95 points and an achievement within reach. *)
Definition bookworm_world : World :=
  {| profiles := [ann_profile];
     reading_streaks := [];
     achievements := [bookworm; century];
     user_achievements := [];
     audio_records := [];
     reading_assignments := [];
     audio_files := [];
     next_uuid := 0;
     trace := [] |}.

(** The same reader in a table whose row id happens to be the user id. *)
Definition keyed_world : World :=
  {| profiles := [Profile.mk "u1" "u1" "Ann" (Some 95) (Some 0) (Some 2) (Some 3)
                    (Some 1) None None];
     reading_streaks := [];
     achievements := [bookworm; century];
     user_achievements := [];
     audio_records := [];
     reading_assignments := [];
     audio_files := [];
     next_uuid := 0;
     trace := [] |}.

(** The columns of a profile row the rewards are about. *)
Definition balance (p : Profile.t) : string * string * option Z * option Z :=
  (Profile.id p, Profile.user_id p, Profile.points p, Profile.diamonds p).

(** The profile look-up of [awardPoints] is refused. *)
Definition no_profile_for_award (site : CallSite) : bool :=
  match site with
  | AwardProfileSelect => true
  | _ => false
  end.

(** The catalog query of the evaluator is refused. *)
Definition catalog_down (site : CallSite) : bool :=
  match site with
  | AchievementsSelect => true
  | _ => false
  end.

(** The ledger look-up of [updateStreak] is refused. *)
Definition ledger_lookup_down (site : CallSite) : bool :=
  match site with
  | StreakLedgerSelect => true
  | _ => false
  end.

(** Later the same day, with the ledger look-up refused. *)
Definition afternoon : Env :=
  env_at "2026-03-02T15:00:00.000Z" ledger_lookup_down 1234.

(** An achievement that carries no reward. *)
Definition first_steps : Achievement.t :=
  Achievement.mk "a3" "First steps" points 50 0 0.

(** Ann with 95 points and a catalog of that one achievement. *)
Definition first_steps_world : World :=
  {| profiles := [ann_profile];
     reading_streaks := [];
     achievements := [first_steps];
     user_achievements := [];
     audio_records := [];
     reading_assignments := [];
     audio_files := [];
     next_uuid := 0;
     trace := [] |}.

(** The columns of a profile row the points calculator is about. *)
Definition standing (p : Profile.t) : option Z * option Z :=
  (Profile.points p, Profile.level p).

(** The columns of a profile row the streak tracker writes. *)
Definition streaks (p : Profile.t) : option Z * option Z * option string :=
  (Profile.current_streak p, Profile.longest_streak p, Profile.last_activity p).

(** The columns of a ledger row besides its id. *)
Definition entry (r : Streak.t) : string * string * Z * Z :=
  (Streak.student_id r, Streak.streak_date r, Streak.recordings_count r,
   Streak.points_earned r).


(** Nobody is signed in. *)
Definition signed_out : Env :=
  {| auth_user := None;
     now_iso := "2026-03-02T10:00:00.000Z";
     week_start_iso := "2026-03-01T00:00:00.000Z";
     platform := web;
     local_file := fun _ => Some 1234;
     sound_fails := false;
     faults := never |}.

(** The morning after. *)
Definition next_day : Env := env_at "2026-03-03T09:00:00.000Z" never 1234.

(** The captured file is empty. *)
Definition nothing_captured : Env := env_with never 0.

Definition chapter_two : AudioRecord.t :=
  AudioRecord.mk "r2" "u1" "Chapter 2" None "u1/recording-2.m4a" (Some 2345)
    (Some 120%Q) 14 None None None None
    "2026-03-01T10:00:00.000Z" "2026-03-01T10:00:00.000Z".

(** Two recordings and one piece of homework. *)
Definition two_chapters : World :=
  {| profiles := [ann_profile];
     reading_streaks := [];
     achievements := [];
     user_achievements := [];
     audio_records := [chapter; chapter_two];
     reading_assignments := [homework pending];
     audio_files := [("u1/recording-1.m4a", 1234); ("u1/recording-2.m4a", 2345)];
     next_uuid := 0;
     trace := [] |}.

(** What the recorder hands to [saveAudioRecord] for a file stored as
    [u1/take.m4a]. *)
Definition take : CreateAudioRecordData :=
  {| data_title := "Chapter 3";
     data_description := None;
     data_file_path := "u1/take.m4a";
     data_file_size := 1234;
     data_duration := 90;
     data_points_earned := 14 |}.

(** Ann's statistics as [getStudentProgress] reports them. *)
Definition ann_stats : Progress.t :=
  Progress.mk 95 0 2 3 1 1 1 5.

(** An achievement whose threshold is zero. *)
Definition zero_streak : Achievement.t :=
  Achievement.mk "a4" "Warm-up" streak 0 0 0.

(** Ann without any streak yet. *)
Definition fresh_stats : Progress.t :=
  Progress.mk 0 0 0 0 1 0 0 100.

End Sample.

(** * Properties *)

Import supabase gamificationService.

Ltac world_simpl :=
  cbn [profiles reading_streaks achievements user_achievements audio_records
       reading_assignments audio_files next_uuid trace
       with_profiles with_reading_streaks with_user_achievements
       with_audio_records with_reading_assignments with_audio_files
       with_next_uuid with_trace fst snd] in *.

Ltac unfold_m :=
  unfold logged, select_single, select_count, request, getUser, fresh_uuid,
    console_error, screen, emit, try_catch, try_finally, bind, ret, throw,
    gets, modify in *.

Arguments progress_of : simpl never.
Arguments award_achievement : simpl never.
Arguments getStudentProgress : simpl never.

(** ** Points, levels and what one evaluation pass returns *)

Section Progress_facts.
Variable env : Env.

Lemma progress_of_returns (u : AuthUser) (p : Profile.t) (w : World) :
  exists s w',
    progress_of env u p w = (Ok s, w')
    /\ Progress.points s = Js.or_num (Profile.points p) 0
    /\ Progress.level s = Js.or_num (Profile.level p) 1
    /\ Progress.nextLevelPoints s
       = Z.max 0 (Progress.level s * 100 - Progress.points s)
    /\ profiles w' = profiles w
    /\ user_achievements w' = user_achievements w
    /\ achievements w' = achievements w.
Proof.
  unfold progress_of. unfold_m. cbn.
  eexists. eexists. split; [reflexivity|]. cbn. auto 10.
Qed.
End Progress_facts.

Section Evaluator_facts.
Variable env : Env.
Variable user : AuthUser.
Hypothesis signed_in : auth_user env = Some user.

Lemma getStudentProgress_returns (w : World) :
  exists s w',
    getStudentProgress env w = (Ok s, w')
    /\ Progress.nextLevelPoints s
       = Z.max 0 (Progress.level s * 100 - Progress.points s)
    /\ user_achievements w' = user_achievements w
    /\ achievements w' = achievements w.
Proof.
  unfold getStudentProgress. unfold_m. rewrite signed_in. cbn.
  destruct (faults env ProgressProfileSelect); cbn.
  - destruct (faults env ProgressProfileInsert); cbn.
    + eexists. eexists. split; [reflexivity|]. cbn. auto.
    + match goal with |- context [progress_of env user ?p ?w0] =>
        destruct (progress_of_returns env user p w0)
          as (s & w' & -> & _ & _ & Hn & _ & Hu & Ha) end.
      eexists. eexists. split; [reflexivity|]. cbn in *. auto.
  - destruct (single (filter (of_user user) (profiles w))) as [p|]; cbn.
    + match goal with |- context [progress_of env user ?p ?w0] =>
        destruct (progress_of_returns env user p w0)
          as (s & w' & -> & _ & _ & Hn & _ & Hu & Ha) end.
      eexists. eexists. split; [reflexivity|]. cbn in *. auto.
    + destruct (faults env ProgressProfileInsert); cbn.
      * eexists. eexists. split; [reflexivity|]. cbn. auto.
      * match goal with |- context [progress_of env user ?p ?w0] =>
          destruct (progress_of_returns env user p w0)
            as (s & w' & -> & _ & _ & Hn & _ & Hu & Ha) end.
        eexists. eexists. split; [reflexivity|]. cbn in *. auto.
Qed.

Lemma award_achievement_returns (a : Achievement.t) (w : World) :
  exists w',
    award_achievement env user a w = (Ok tt, w')
    /\ achievements w' = achievements w
    /\ user_achievements w'
       = (if faults env (UserAchievementInsert (Achievement.id a))
          then user_achievements w
          else user_achievements w
               ++ [UserAchievement.mk (uid user) (Achievement.id a) (now_iso env)])%list.
Proof.
  unfold award_achievement. unfold_m. cbn.
  destruct (faults env (UserAchievementInsert (Achievement.id a))); cbn;
    destruct ((Achievement.points_reward a >? 0) || (Achievement.diamonds_reward a >? 0))%bool;
    cbn;
    try destruct (faults env (RewardProfileUpdate (Achievement.id a))); cbn;
    eexists; (split; [reflexivity|]); cbn; auto.
Qed.

Lemma award_loop_returns (stats : Progress.t) (available : list Achievement.t) :
  forall (acc : list Achievement.t) (w : World),
  exists w',
    award_loop env user stats available acc w
      = (Ok (acc ++ filter (earned stats) available)%list, w')
    /\ achievements w' = achievements w
    /\ user_achievements w'
       = (user_achievements w ++ rows_added env user stats available)%list.
Proof.
  induction available as [|a rest IH]; intros acc w; cbn [award_loop].
  - exists w. unfold ret, rows_added. cbn. now rewrite !app_nil_r.
  - unfold rows_added in *. cbn [filter].
    destruct (earned stats a) eqn:He; cbn [andb].
    + unfold bind at 1.
      destruct (award_achievement_returns a w) as (w1 & -> & Ha & Hu).
      destruct (IH (acc ++ [a])%list w1) as (w' & -> & Ha' & Hu').
      exists w'. rewrite <- app_assoc. split; [reflexivity|].
      split; [congruence|]. rewrite Hu', Hu.
      destruct (faults env (UserAchievementInsert (Achievement.id a)));
        cbn [negb map]; [reflexivity|]. now rewrite <- app_assoc.
    + destruct (IH acc w) as (w' & -> & Ha' & Hu'). eauto.
Qed.

Lemma checkAndAwardAchievements_spec (w : World) :
  exists s w0 w',
    getStudentProgress env w = (Ok s, w0)
    /\ achievements w' = achievements w
    /\ if faults env AchievementsSelect
       then checkAndAwardAchievements env w
              = (Throw (SupabaseError AchievementsSelect), w')
            /\ user_achievements w' = user_achievements w
       else checkAndAwardAchievements env w
              = (Ok (filter (earned s) (available_to user w)), w')
            /\ user_achievements w'
               = (user_achievements w ++ rows_added env user s (available_to user w))%list.
Proof.
  destruct (getStudentProgress_returns w) as (s & w0 & Hs & _ & Hu & Ha).
  unfold checkAndAwardAchievements, available_to.
  unfold_m. rewrite signed_in, Hs.
  destruct (faults env AchievementsSelect).
  - eexists s, w0, _. split; [reflexivity|].
    split; [|split; [reflexivity|]]; cbn; auto.
  - match goal with |- context [award_loop env user s ?l ?acc ?w1] =>
      destruct (award_loop_returns s l acc w1) as (w' & -> & Ha' & Hu') end.
    cbn in Ha', Hu'. exists s, w0, w'. rewrite <- Hu, <- Ha.
    split; [reflexivity|]. split; [congruence|]. split; [reflexivity|]. assumption.
Qed.
End Evaluator_facts.

(** C9, as stated, fails: with the profile look-up refused and a delta of
    100 the answer is level 1, while the calculator's formulas on the default
    profile (0 points) give level 2. *)
Lemma awardPoints_without_profile_counterexample :
  fst (awardPoints (Sample.env_failing Sample.no_profile_for_award) 100 None Sample.world)
    = Ok {| newPoints := 100; newLevel := 1 |}
  /\ fst (awardPoints (Sample.env_failing Sample.no_profile_for_award) 100 None Sample.world)
     <> Ok {| newPoints := 0 + 100; newLevel := (0 + 100) / 100 + 1 |}.
Proof.
  split; [reflexivity|]. cbv. discriminate.
Qed.

(** C9, amended: when the profile cannot be resolved (the look-up is
    refused or does not find exactly one row) [awardPoints] does not throw;
    it answers [newPoints = d] and the default level 1 without recomputing
    the level, and writes nothing.  That answer is the calculator's
    [floor(d / 100) + 1] on the default profile exactly when [d < 100]. *)
Theorem awardPoints_without_profile
    (env : Env) (user : AuthUser) (d : Z) (recordingId : option string) (w : World) :
  auth_user env = Some user ->
  faults env AwardProfileSelect = true
    \/ single (filter (of_user user) (profiles w)) = None ->
  0 <= d ->
  awardPoints env d recordingId w
    = (Ok {| newPoints := d; newLevel := 1 |},
       with_trace
         (fun t => (t ++ [Request AwardProfileSelect;
                          ConsoleError "Profile not found for points award"])%list)
         w)
  /\ ((0 + d) / 100 + 1 = 1 <-> d < 100).
Proof.
  intros Hauth Hnone Hd.
  unfold awardPoints. unfold_m. rewrite Hauth. world_simpl.
  assert ((if faults env AwardProfileSelect then None
           else single (filter (of_user user) (profiles w))) = None) as ->.
  { destruct Hnone as [-> | ->]; [reflexivity|]. now destruct (faults env _). }
  split.
  - unfold with_trace. world_simpl. now rewrite <- app_assoc.
  - split; intros H.
    + assert (d / 100 = 0) as H0 by (cbn in H; lia).
      apply Z.div_small_iff in H0; lia.
    + cbn. rewrite Z.div_small; lia.
Qed.

Lemma awardPoints_without_profile_witness :
  awardPoints (Sample.env_failing Sample.no_profile_for_award) 30 None Sample.world
    = (Ok {| newPoints := 30; newLevel := 1 |},
       with_trace
         (fun t => (t ++ [Request AwardProfileSelect;
                          ConsoleError "Profile not found for points award"])%list)
         Sample.world)
  /\ ((0 + 30) / 100 + 1 = 1 <-> 30 < 100).
Proof.
  apply (@awardPoints_without_profile
           (Sample.env_failing Sample.no_profile_for_award) Sample.ann 30 None Sample.world).
  - reflexivity.
  - left. reflexivity.
  - lia.
Defined.

(** ** Queries on tables *)

Section Tables.
Context {R : Type}.
Variable p : R -> bool.

Lemma single_unique (table : list R) (x : R) :
  single (filter p table) = Some x ->
  forall r, In r table -> p r = true -> r = x.
Proof.
  intros Hs r Hin Hp.
  assert (In r (filter p table)) as Hf by (apply filter_In; auto).
  destruct (filter p table) as [|y [|z rest]]; cbn in Hs; try discriminate.
  inversion Hs; subst. destruct Hf as [->|[]]. reflexivity.
Qed.

Lemma single_filter (table : list R) (x : R) :
  single (filter p table) = Some x -> filter p table = [x].
Proof.
  destruct (filter p table) as [|y [|z rest]]; cbn; intros H;
    try discriminate. now inversion H.
Qed.

(** Rows rewritten by [update] stay in step with the old ones. *)
Lemma update_Forall2 (rel : R -> R -> Prop) (f : R -> R) (table : list R) :
  (forall r, rel r r) ->
  (forall r, In r table -> p r = true -> rel r (f r)) ->
  Forall2 rel table (update p f table).
Proof.
  intros Hrefl. unfold update. induction table as [|r rest IH]; intros Hf; cbn.
  - constructor.
  - constructor.
    + destruct (p r) eqn:Hp; [apply Hf; cbn; auto | apply Hrefl].
    + apply IH. intros r' Hin. apply Hf. now right.
Qed.

Lemma Forall2_same (rel : R -> R -> Prop) (table : list R) :
  (forall r, rel r r) -> Forall2 rel table table.
Proof. intros H. induction table; constructor; auto. Qed.

(** A rewrite that keeps the key keeps the selection. *)
Lemma filter_update (f : R -> R) (table : list R) :
  (forall r, p (f r) = p r) ->
  filter p (update p f table) = map f (filter p table).
Proof.
  intros Hk. unfold update.
  induction table as [|r rest IH]; cbn; [reflexivity|].
  destruct (p r) eqn:Hp; cbn.
  - now rewrite Hk, Hp, IH.
  - now rewrite Hp, IH.
Qed.

End Tables.

(** ** The streak tracker *)

Lemma or_num_some (v : Z) : Js.or_num (Some v) 0 = v.
Proof. unfold Js.or_num. destruct (Z.eqb_spec v 0); congruence. Qed.

Lemma streaks_kept_refl (p : Profile.t) : streaks_kept p p.
Proof. unfold streaks_kept. repeat split; lia. Qed.

Lemma updateStreak_keeps_streaks (env : Env) (w : World) :
  Forall2 streaks_kept (profiles w) (profiles (snd (updateStreak env w))).
Proof.
  unfold updateStreak. unfold_m.
  destruct (auth_user env) as [user|]; world_simpl;
    [|apply Forall2_same, streaks_kept_refl].
  destruct (if faults env StreakLedgerSelect then None
            else single (filter (on_day user (today_of env)) (reading_streaks w)))
    as [existing|]; world_simpl.
  - destruct (faults env StreakLedgerUpdate); world_simpl;
      apply Forall2_same, streaks_kept_refl.
  - destruct (faults env StreakLedgerInsert); world_simpl;
      [apply Forall2_same, streaks_kept_refl|].
    destruct (if faults env StreakProfileSelect then None
              else single (filter (of_user user) (profiles w)))
      as [profile|] eqn:Hsel; world_simpl;
      [|apply Forall2_same, streaks_kept_refl].
    destruct (faults env StreakProfileUpdate); world_simpl;
      [apply Forall2_same, streaks_kept_refl|].
    destruct (faults env StreakProfileSelect); [discriminate|].
    apply update_Forall2; [apply streaks_kept_refl|].
    intros r Hin Hr. rewrite (single_unique _ _ Hsel _ Hin Hr).
    unfold streaks_kept, streak_of, longest_of, Profile.set_streak.
    cbn [Profile.id Profile.user_id Profile.current_streak Profile.longest_streak].
    rewrite !or_num_some. repeat split; lia.
Qed.

Section Streak_calls.
Variable env : Env.
Variable user : AuthUser.
Hypothesis signed_in : auth_user env = Some user.

Lemma updateStreak_first_of_day (profile : Profile.t) (w : World) :
  faults env StreakLedgerSelect = true
    \/ single (filter (on_day user (today_of env)) (reading_streaks w)) = None ->
  faults env StreakLedgerInsert = false ->
  faults env StreakProfileSelect = false ->
  faults env StreakProfileUpdate = false ->
  single (filter (of_user user) (profiles w)) = Some profile ->
  exists w',
    updateStreak env w = (Ok tt, w')
    /\ reading_streaks w' = (reading_streaks w ++ [first_entry env user w])%list
    /\ profiles w' = update (of_user user) (counting env profile) (profiles w)
    /\ single (filter (of_user user) (profiles w')) = Some (counted env profile).
Proof.
  intros Hnone Hins Hsel Hupd Hprofile.
  unfold updateStreak. unfold_m. rewrite signed_in. world_simpl.
  assert ((if faults env StreakLedgerSelect then None
           else single (filter (on_day user (today_of env)) (reading_streaks w)))
          = None) as ->.
  { destruct Hnone as [-> | ->]; [reflexivity|]. now destruct (faults env StreakLedgerSelect). }
  rewrite Hins. world_simpl. rewrite Hsel, Hprofile, Hupd. world_simpl.
  eexists. split; [reflexivity|]. world_simpl.
  split; [reflexivity|]. split; [reflexivity|].
  fold (streak_of profile) (longest_of profile).
  fold (counting env profile).
  rewrite filter_update by (intros r; reflexivity).
  now rewrite (single_filter _ _ Hprofile).
Qed.

Lemma updateStreak_later_that_day (entry : Streak.t) (w : World) :
  faults env StreakLedgerSelect = false ->
  faults env StreakLedgerUpdate = false ->
  single (filter (on_day user (today_of env)) (reading_streaks w)) = Some entry ->
  exists w',
    updateStreak env w = (Ok tt, w')
    /\ profiles w' = profiles w
    /\ reading_streaks w'
       = update (streak_has_id (Streak.id entry))
           (Streak.set_counters (Streak.recordings_count entry + 1)
                                (Streak.points_earned entry + 10))
           (reading_streaks w).
Proof.
  intros Hsel Hupd Hentry.
  unfold updateStreak. unfold_m. rewrite signed_in. world_simpl.
  rewrite Hsel, Hentry, Hupd. world_simpl.
  eexists. split; [reflexivity|]. world_simpl. auto.
Qed.
End Streak_calls.

Lemma key_injective {R K : Type} (key : R -> K) (table : list R) :
  NoDup (map key table) ->
  forall a b, In a table -> In b table -> key a = key b -> a = b.
Proof.
  induction table as [|r rest IH]; cbn; intros Hnd a b Ha Hb Hk; [contradiction|].
  inversion Hnd as [|? ? Hnot Hrest]; subst.
  destruct Ha as [->|Ha], Hb as [->|Hb]; auto.
  - exfalso. apply Hnot. rewrite Hk. now apply in_map.
  - exfalso. apply Hnot. rewrite <- Hk. now apply in_map.
Qed.

Lemma Forall2_map_right {R : Type} (rel : R -> R -> Prop) (g : R -> R) (table : list R) :
  (forall r, In r table -> rel r (g r)) -> Forall2 rel table (map g table).
Proof.
  induction table as [|r rest IH]; intros H; cbn; constructor.
  - apply H. now left.
  - apply IH. intros r' Hin. apply H. now right.
Qed.

Lemma later_call_touches_one_row (user : AuthUser) (day : string)
    (entry : Streak.t) (ledger : list Streak.t) :
  NoDup (map Streak.id ledger) ->
  single (filter (on_day user day) ledger) = Some entry ->
  Forall2 (only_day_counted user day) ledger
    (update (streak_has_id (Streak.id entry))
       (Streak.set_counters (Streak.recordings_count entry + 1)
                            (Streak.points_earned entry + 10))
       ledger).
Proof.
  intros Hkeys Hentry. unfold update. apply Forall2_map_right. intros r Hin.
  assert (In entry ledger /\ on_day user day entry = true) as [Hin_e Hday_e].
  { apply filter_In. rewrite (single_filter _ _ Hentry). now left. }
  unfold only_day_counted, streak_has_id.
  destruct (String.eqb_spec (Streak.id r) (Streak.id entry)) as [Hid|Hid].
  - assert (r = entry) as -> by (eapply key_injective; eauto).
    rewrite Hday_e. cbn. auto.
  - destruct (on_day user day r) eqn:Hday; [|reflexivity].
    exfalso. apply Hid. now rewrite (single_unique _ _ Hentry _ Hin Hday).
Qed.

Lemma set_streak_reads (cur lon : Z) (day : string) (p : Profile.t) :
  streak_of (Profile.set_streak cur lon day p) = cur
  /\ longest_of (Profile.set_streak cur lon day p) = lon.
Proof. split; apply or_num_some. Qed.

Lemma counted_streak (env : Env) (profile : Profile.t) :
  streak_of (counted env profile) = streak_of profile + 1
  /\ longest_of (counted env profile)
     = Z.max (longest_of profile) (streak_of (counted env profile))
  /\ Profile.last_activity (counted env profile) = Some (today_of env).
Proof.
  unfold counted, counting.
  destruct (set_streak_reads (streak_of profile + 1)
              (Z.max (longest_of profile) (streak_of profile + 1))
              (today_of env) profile) as [-> ->].
  auto.
Qed.

Section Streak_day.
Variable env : Env.
Variable user : AuthUser.
Hypothesis signed_in : auth_user env = Some user.

(** The day's first call when the profile look-up gives no row. *)
Lemma updateStreak_first_without_profile (w : World) :
  faults env StreakLedgerSelect = true
    \/ single (filter (on_day user (today_of env)) (reading_streaks w)) = None ->
  faults env StreakLedgerInsert = false ->
  faults env StreakProfileSelect = true
    \/ single (filter (of_user user) (profiles w)) = None ->
  exists w',
    updateStreak env w = (Ok tt, w')
    /\ reading_streaks w' = (reading_streaks w ++ [first_entry env user w])%list
    /\ profiles w' = profiles w.
Proof.
  intros Hnone Hins Hprofile.
  unfold updateStreak. unfold_m. rewrite signed_in. world_simpl.
  assert ((if faults env StreakLedgerSelect then None
           else single (filter (on_day user (today_of env)) (reading_streaks w)))
          = None) as ->.
  { destruct Hnone as [-> | ->]; [reflexivity|]. now destruct (faults env StreakLedgerSelect). }
  rewrite Hins. world_simpl.
  assert ((if faults env StreakProfileSelect then None
           else single (filter (of_user user) (profiles w))) = None) as ->.
  { destruct Hprofile as [-> | ->]; [reflexivity|]. now destruct (faults env StreakProfileSelect). }
  eexists. split; [reflexivity|]. world_simpl. auto.
Qed.

(** The rewrite of the day's first call, column by column. *)
Lemma counting_day_counted (profile : Profile.t) (table : list Profile.t) :
  single (filter (of_user user) table) = Some profile ->
  Forall2 (day_counted user (today_of env)) table
    (update (of_user user) (counting env profile) table).
Proof.
  intros Hprofile. unfold update. apply Forall2_map_right. intros r Hin.
  unfold day_counted. destruct (of_user user r) eqn:Hr; [|reflexivity].
  rewrite (single_unique _ _ Hprofile _ Hin Hr).
  unfold counting. cbn. auto 12.
Qed.
End Streak_day.

(** A call changes no streak by anything but one step up, and lowers no
    longest streak. *)
Lemma updateStreak_one_step (env : Env) (w : World) :
  Forall2 (fun p p' =>
             longest_of p <= longest_of p'
             /\ (streak_of p' = streak_of p \/ streak_of p' = streak_of p + 1))
    (profiles w) (profiles (snd (updateStreak env w))).
Proof.
  assert (forall table : list Profile.t,
             Forall2 (fun p p' =>
                        longest_of p <= longest_of p'
                        /\ (streak_of p' = streak_of p \/ streak_of p' = streak_of p + 1))
               table table) as Hsame.
  { intros table. apply Forall2_same. intros r. split; [lia|now left]. }
  unfold updateStreak. unfold_m.
  destruct (auth_user env) as [user|]; world_simpl; [|apply Hsame].
  destruct (if faults env StreakLedgerSelect then None
            else single (filter (on_day user (today_of env)) (reading_streaks w)))
    as [existing|]; world_simpl.
  - destruct (faults env StreakLedgerUpdate); world_simpl; apply Hsame.
  - destruct (faults env StreakLedgerInsert); world_simpl; [apply Hsame|].
    destruct (if faults env StreakProfileSelect then None
              else single (filter (of_user user) (profiles w)))
      as [profile|] eqn:Hsel; world_simpl; [|apply Hsame].
    destruct (faults env StreakProfileUpdate); world_simpl; [apply Hsame|].
    destruct (faults env StreakProfileSelect); [discriminate|].
    unfold update. apply Forall2_map_right. intros r Hin.
    destruct (of_user user r) eqn:Hr; [|split; [lia|now left]].
    rewrite (single_unique _ _ Hsel _ Hin Hr).
    unfold streak_of, longest_of, Profile.set_streak.
    cbn [Profile.current_streak Profile.longest_streak].
    rewrite !or_num_some. split; [lia|now right].
Qed.

(** C3, as stated, fails.  A reader who is signed in and has no profile
    row yet gets the day's ledger entry from the first call and no
    increment: no profile exists after it, the row that
    [getStudentProgress] then creates starts at streak 0, and a second call
    the same day finds the ledger entry and leaves the streak at 0, so the
    day is never counted.  And for a reader with a profile one refused
    ledger look-up is taken for a day without entry: the call files a
    second entry and counts the day again, after which the look-up finds
    two rows and every further call that day counts once more (streak 2,
    then 3, 4 and 5 on one day). *)
Lemma updateStreak_once_per_day_counterexample :
  (map Sample.entry
     (reading_streaks (snd (updateStreak Sample.env Sample.first_visit)))
   = [("u1", "2026-03-02", 1, 10)]
   /\ profiles (snd (updateStreak Sample.env Sample.first_visit)) = []
   /\ map Sample.streaks
        (profiles
           (snd (getStudentProgress Sample.env
                   (snd (updateStreak Sample.env Sample.first_visit)))))
      = [(Some 0, Some 0, None)]
   /\ map Sample.streaks
        (profiles
           (snd (updateStreak Sample.evening
                   (snd (getStudentProgress Sample.env
                           (snd (updateStreak Sample.env Sample.first_visit)))))))
      = [(Some 0, Some 0, None)])
  /\ (map Sample.streaks (profiles Sample.world) = [(Some 2, Some 3, None)]
      /\ map Sample.streaks (profiles (snd (updateStreak Sample.env Sample.world)))
         = [(Some 3, Some 3, Some "2026-03-02")]
      /\ map Sample.streaks
           (profiles
              (snd (updateStreak Sample.afternoon
                      (snd (updateStreak Sample.env Sample.world)))))
         = [(Some 4, Some 4, Some "2026-03-02")]
      /\ map Sample.streaks
           (profiles
              (snd (updateStreak Sample.evening
                      (snd (updateStreak Sample.afternoon
                              (snd (updateStreak Sample.env Sample.world)))))))
         = [(Some 5, Some 5, Some "2026-03-02")]
      /\ map Sample.entry
           (reading_streaks
              (snd (updateStreak Sample.evening
                      (snd (updateStreak Sample.afternoon
                              (snd (updateStreak Sample.env Sample.world)))))))
         = [("u1", "2026-03-02", 1, 10); ("u1", "2026-03-02", 1, 10);
            ("u1", "2026-03-02", 1, 10)]).
Proof. repeat split; reflexivity. Qed.

(** C3, amended: for a signed-in reader, a day without a ledger entry of
    theirs and a backend that answers every request.  The day's first call
    files the entry with count 1 and 10 points.  When the reader has exactly
    one profile row the call adds exactly 1 to its [current_streak], sets
    [longest_streak] to the larger of the old value and the new streak and
    [last_activity] to the day, and touches no other column or row; when
    there is no such row it writes no profile at all.  A second call the
    same day brings the entry to count 2 and 20 points and leaves every
    profile as the first call left it, so the two calls add 1 to the streak
    in total where a profile existed and nothing where none did.  Any call
    that finds the day's entry leaves the profiles alone and, the ledger ids
    being keys, rewrites that entry only: one more recording, ten more
    points.  Whatever the backend answers, no call lowers [longest_streak]
    or moves a streak by anything but one step up. *)
Theorem updateStreak_once_per_day
    (morning evening : Env) (user : AuthUser) (w : World) :
  auth_user morning = Some user ->
  auth_user evening = Some user ->
  today_of evening = today_of morning ->
  reliable morning ->
  reliable evening ->
  filter (on_day user (today_of morning)) (reading_streaks w) = [] ->
  let day := today_of morning in
  let w1 := snd (updateStreak morning w) in
  let w2 := snd (updateStreak evening w1) in
  (fst (updateStreak morning w) = Ok tt
   /\ exists entry,
        reading_streaks w1 = (reading_streaks w ++ [entry])%list
        /\ Streak.student_id entry = uid user
        /\ Streak.streak_date entry = day
        /\ Streak.recordings_count entry = 1
        /\ Streak.points_earned entry = 10)
  /\ match single (filter (of_user user) (profiles w)) with
     | Some profile =>
         Forall2 (day_counted user day) (profiles w) (profiles w1)
         /\ exists after,
              single (filter (of_user user) (profiles w1)) = Some after
              /\ streak_of after = streak_of profile + 1
              /\ longest_of after = Z.max (longest_of profile) (streak_of after)
              /\ Profile.last_activity after = Some day
     | None => profiles w1 = profiles w
     end
  /\ (fst (updateStreak evening w1) = Ok tt
      /\ profiles w2 = profiles w1
      /\ exists earlier entry,
           reading_streaks w2 = (earlier ++ [entry])%list
           /\ List.length earlier = List.length (reading_streaks w)
           /\ Streak.student_id entry = uid user
           /\ Streak.streak_date entry = day
           /\ Streak.recordings_count entry = 2
           /\ Streak.points_earned entry = 20)
  /\ (forall v entry,
        single (filter (on_day user day) (reading_streaks v)) = Some entry ->
        fst (updateStreak evening v) = Ok tt
        /\ profiles (snd (updateStreak evening v)) = profiles v
        /\ (NoDup (map Streak.id (reading_streaks v)) ->
            Forall2 (only_day_counted user day)
              (reading_streaks v) (reading_streaks (snd (updateStreak evening v)))))
  /\ (forall e v,
        Forall2 (fun p p' =>
                   longest_of p <= longest_of p'
                   /\ (streak_of p' = streak_of p \/ streak_of p' = streak_of p + 1))
          (profiles v) (profiles (snd (updateStreak e v)))).
Proof.
  intros Hm He Hday Rm Re Hnew day w1 w2.
  assert (exists v1,
             updateStreak morning w = (Ok tt, v1)
             /\ reading_streaks v1 = (reading_streaks w ++ [first_entry morning user w])%list
             /\ match single (filter (of_user user) (profiles w)) with
                | Some profile =>
                    profiles v1 = update (of_user user) (counting morning profile) (profiles w)
                    /\ single (filter (of_user user) (profiles v1))
                       = Some (counted morning profile)
                | None => profiles v1 = profiles w
                end) as (v1 & Hrun1 & Hledger1 & Hprofiles1).
  { destruct (single (filter (of_user user) (profiles w))) as [profile|] eqn:Hprofile.
    - destruct (@updateStreak_first_of_day morning user Hm profile w)
        as (v1 & Hrun & Hl & Hp & Hmine); auto.
      { right. now rewrite Hnew. }
      exists v1. auto.
    - destruct (@updateStreak_first_without_profile morning user Hm w)
        as (v1 & Hrun & Hl & Hp); auto.
      { right. now rewrite Hnew. }
      exists v1. auto. }
  assert (w1 = v1) as Hw1 by (unfold w1; now rewrite Hrun1).
  assert (single (filter (on_day user (today_of evening)) (reading_streaks w1))
          = Some (first_entry morning user w)) as Hentry.
  { rewrite Hw1, Hledger1, filter_app, Hday, Hnew. cbn [filter app].
    unfold on_day, first_entry at 1 2.
    cbn [Streak.student_id Streak.streak_date].
    now rewrite !String.eqb_refl. }
  destruct (@updateStreak_later_that_day evening user He _ w1 (Re _) (Re _) Hentry)
    as (v2 & Hrun2 & Hprofiles2 & Hledger2).
  assert (w2 = v2) as Hw2 by (unfold w2; now rewrite Hrun2).
  split; [|split; [|split; [|split]]].
  - rewrite Hrun1. split; [reflexivity|].
    exists (first_entry morning user w). rewrite Hw1. repeat split; assumption.
  - rewrite Hw1.
    destruct (single (filter (of_user user) (profiles w))) as [profile|] eqn:Hprofile;
      [|exact Hprofiles1].
    destruct Hprofiles1 as [Hp Hmine]. split.
    + rewrite Hp. now apply counting_day_counted.
    + exists (counted morning profile). split; [exact Hmine|].
      apply counted_streak.
  - rewrite Hrun2, Hw2. split; [reflexivity|]. split; [exact Hprofiles2|].
    rewrite Hledger2, Hw1, Hledger1. unfold update. rewrite map_app. cbn [map].
    replace (streak_has_id (Streak.id (first_entry morning user w))
               (first_entry morning user w))
      with true by (symmetry; apply String.eqb_refl).
    eexists. eexists. split; [reflexivity|].
    rewrite length_map. cbn. auto.
  - intros v entry Hv. unfold day in *. rewrite <- Hday in Hv.
    destruct (@updateStreak_later_that_day evening user He _ v (Re _) (Re _) Hv)
      as (v' & Hrun & Hp & Hl').
    rewrite Hrun. cbn [fst snd]. split; [reflexivity|]. split; [exact Hp|].
    intros Hkeys. rewrite Hl', <- Hday.
    now apply later_call_touches_one_row.
  - intros e v. apply updateStreak_one_step.
Qed.

Lemma updateStreak_once_per_day_witness :
  map Sample.streaks (profiles Sample.world) = [(Some 2, Some 3, None)]
  /\ fst (updateStreak Sample.env Sample.world) = Ok tt
  /\ exists after,
       single (filter (of_user Sample.ann)
                 (profiles (snd (updateStreak Sample.env Sample.world))))
         = Some after
       /\ streak_of after = 2 + 1
       /\ profiles (snd (updateStreak Sample.evening
                           (snd (updateStreak Sample.env Sample.world))))
          = profiles (snd (updateStreak Sample.env Sample.world)).
Proof.
  destruct (@updateStreak_once_per_day Sample.env Sample.evening Sample.ann Sample.world
              eq_refl eq_refl eq_refl (fun _ => eq_refl) (fun _ => eq_refl) eq_refl)
    as ((Hrun & _) & (_ & after & Hmine & Hs & _) & (_ & Hkept & _) & _).
  split; [reflexivity|]. split; [exact Hrun|].
  exists after. split; [exact Hmine|]. split; [exact Hs|exact Hkept].
Defined.

(** C10: no call of [updateStreak], whatever the day, the prior state and
    the backend's answers, lowers [current_streak] of any profile; a streak
    that is positive stays positive.  In particular the first call after a
    gap of any length continues the count: the new streak is the old one
    plus 1, whatever [last_activity] holds. *)
Theorem updateStreak_never_resets (env : Env) (w : World) :
  Forall2 (fun p p' =>
             Profile.user_id p' = Profile.user_id p
             /\ streak_of p <= streak_of p'
             /\ (0 < streak_of p -> 0 < streak_of p'))
          (profiles w) (profiles (snd (updateStreak env w)))
  /\ forall user profile,
       auth_user env = Some user ->
       reliable env ->
       filter (on_day user (today_of env)) (reading_streaks w) = [] ->
       single (filter (of_user user) (profiles w)) = Some profile ->
       exists after,
         single (filter (of_user user) (profiles (snd (updateStreak env w)))) = Some after
         /\ streak_of after = streak_of profile + 1.
Proof.
  split.
  - eapply Forall2_impl; [|apply updateStreak_keeps_streaks].
    intros p p' (_ & Hu & Hs & _). repeat split; auto. lia.
  - intros user profile Hauth Hrel Hnew Hprofile.
    destruct (@updateStreak_first_of_day env user Hauth profile w)
      as (w1 & Hrun & _ & _ & Hmine); auto.
    { right. now rewrite Hnew. }
    rewrite Hrun. exists (counted env profile). split; [exact Hmine|].
    apply counted_streak.
Qed.

Lemma updateStreak_never_resets_witness :
  Profile.last_activity Sample.lapsed_profile = Some "2026-01-05"
  /\ today_of Sample.env = "2026-03-02"
  /\ streak_of Sample.lapsed_profile = 2
  /\ exists after,
       single (filter (of_user Sample.ann)
                 (profiles (snd (updateStreak Sample.env Sample.lapsed_world))))
         = Some after
       /\ streak_of after = 2 + 1.
Proof.
  repeat split.
  exact (proj2 (updateStreak_never_resets Sample.env Sample.lapsed_world)
           Sample.ann Sample.lapsed_profile
           eq_refl (fun _ => eq_refl) eq_refl eq_refl).
Defined.

(** ** Frames: what a computation leaves alone *)

Section Frame.
Context {T : Type}.
Variable part : World -> T.

Lemma keeps_ret {A} (a : A) : keeps part (ret a).
Proof. intros w. reflexivity. Qed.

Lemma keeps_throw {A} (e : Exn) : keeps part (@throw A e).
Proof. intros w. reflexivity. Qed.

Lemma keeps_gets {A} (f : World -> A) : keeps part (gets f).
Proof. intros w. reflexivity. Qed.

Lemma keeps_modify (f : World -> World) :
  (forall w, part (f w) = part w) -> keeps part (modify f).
Proof. intros H w. apply H. Qed.

Lemma keeps_bind {A B} (c : M A) (k : A -> M B) :
  keeps part c -> (forall a, keeps part (k a)) -> keeps part (bind c k).
Proof.
  intros Hc Hk w. unfold bind. specialize (Hc w).
  destruct (c w) as [[a|e] w1]; cbn in *; [|assumption].
  now rewrite Hk.
Qed.

Lemma keeps_try_catch {A} (c : M A) (h : Exn -> M A) :
  keeps part c -> (forall e, keeps part (h e)) -> keeps part (try_catch c h).
Proof.
  intros Hc Hh w. unfold try_catch. specialize (Hc w).
  destruct (c w) as [[a|e] w1]; cbn in *; [assumption|].
  now rewrite Hh.
Qed.

Lemma keeps_try_finally {A} (c : M A) (f : M unit) :
  keeps part c -> keeps part f -> keeps part (try_finally c f).
Proof.
  intros Hc Hf w. unfold try_finally. specialize (Hc w).
  destruct (c w) as [r w1]. specialize (Hf w1).
  destruct (f w1) as [[u|e] w2]; cbn in *; congruence.
Qed.
End Frame.

Ltac frame_step :=
  first
    [ apply keeps_ret
    | apply keeps_throw
    | apply keeps_gets
    | apply keeps_modify; intros ?; reflexivity
    | apply keeps_bind; [|intros ?]
    | apply keeps_try_catch; [|intros ?]
    | apply keeps_try_finally
    | match goal with
      | |- keeps _ (match ?x with _ => _ end) => destruct x
      end ].

Ltac unfold_helpers :=
  unfold logged, select_single, select_count, request, getUser, fresh_uuid,
    console_error, screen, emit.

Ltac frame := unfold_helpers; repeat frame_step.

Section Gamification_frame.
Variable env : Env.

Lemma getStudentProgress_keeps_recordings :
  keeps recordings (getStudentProgress env).
Proof. unfold getStudentProgress, progress_of. frame. Qed.

Lemma award_loop_keeps_recordings (user : AuthUser) (stats : Progress.t)
    (available : list Achievement.t) :
  forall acc, keeps recordings (award_loop env user stats available acc).
Proof.
  induction available as [|a rest IH]; intros acc; cbn [award_loop].
  - apply keeps_ret.
  - destruct (earned stats a); [|apply IH].
    apply keeps_bind; [|intros _; apply IH].
    unfold award_achievement. frame.
Qed.

Lemma checkAndAwardAchievements_keeps_recordings :
  keeps recordings (checkAndAwardAchievements env).
Proof.
  unfold checkAndAwardAchievements.
  apply keeps_try_catch; [|intros e; frame].
  apply keeps_bind; [frame|intros user].
  apply keeps_bind; [apply getStudentProgress_keeps_recordings|intros stats].
  apply keeps_bind; [frame|intros failed].
  destruct failed; [frame|].
  apply keeps_bind; [frame|intros catalog].
  apply award_loop_keeps_recordings.
Qed.

Lemma awardPoints_keeps_recordings (d : Z) (recordingId : option string) :
  keeps recordings (awardPoints env d recordingId).
Proof.
  unfold awardPoints.
  apply keeps_try_catch; [|intros e; frame].
  apply keeps_bind; [frame|intros user].
  apply keeps_bind; [frame|intros [profile|]]; [|frame].
  apply keeps_bind; [frame|intros failed].
  destruct failed; [frame|].
  apply keeps_bind; [frame|intros _].
  apply keeps_bind; [apply checkAndAwardAchievements_keeps_recordings|intros _].
  frame.
Qed.

Lemma updateStreak_keeps_recordings :
  keeps recordings (updateStreak env).
Proof. unfold updateStreak. frame. Qed.
End Gamification_frame.

Section Frame_after.
Context {T : Type}.
Variable part : World -> T.

Lemma bind_part {A B} (c : M A) (k : A -> M B) (w : World) :
  (forall a, keeps part (k a)) ->
  part (snd (bind c k w)) = part (snd (c w)).
Proof.
  intros Hk. unfold bind. destruct (c w) as [[a|e] w1]; cbn; [apply Hk|reflexivity].
Qed.

Lemma try_catch_part {A} (c : M A) (h : Exn -> M A) (w : World) :
  (forall e, keeps part (h e)) ->
  part (snd (try_catch c h w)) = part (snd (c w)).
Proof.
  intros Hh. unfold try_catch. destruct (c w) as [[a|e] w1]; cbn; [reflexivity|apply Hh].
Qed.

Lemma try_finally_part {A} (c : M A) (f : M unit) (w : World) :
  keeps part f ->
  part (snd (try_finally c f w)) = part (snd (c w)).
Proof.
  intros Hf. unfold try_finally. destruct (c w) as [r w1]. specialize (Hf w1).
  destruct (f w1) as [[u|e] w2]; cbn in *; assumption.
Qed.
End Frame_after.

Lemma bind_ok {A B} (c : M A) (k : A -> M B) (w w1 : World) (a : A) :
  c w = (Ok a, w1) -> bind c k w = k a w1.
Proof. intros H. unfold bind. now rewrite H. Qed.

(** ** The audio service *)

Import audioService.

Section Audio_calls.
Variable env : Env.
Variable user : AuthUser.
Hypothesis signed_in : auth_user env = Some user.

Lemma uploadAudioFile_stores (file fileName : string) (size : Z) (w : World) :
  local_file env file = Some size ->
  size <> 0 ->
  faults env StorageUpload = false ->
  existsb (stored_at (uid user ++ "/" ++ fileName)) (audio_files w) = false ->
  exists w',
    uploadAudioFile env file fileName w = (Ok (uid user ++ "/" ++ fileName), w')
    /\ audio_records w' = audio_records w
    /\ audio_files w' = (audio_files w ++ [((uid user ++ "/" ++ fileName)%string, size)])%list.
Proof.
  intros Hfile Hsize Hup Hfree.
  unfold uploadAudioFile, upload. unfold_m. rewrite signed_in, Hfile.
  destruct (is_mobile (platform env)); world_simpl.
  - rewrite Hup, Hfree. cbn [orb]. eexists. split; [reflexivity|]. world_simpl. auto.
  - destruct (Z.eqb_spec size 0) as [|_]; [contradiction|]. world_simpl.
    rewrite Hup, Hfree. cbn [orb]. eexists. split; [reflexivity|]. world_simpl. auto.
Qed.

(** The row [saveAudioRecord] inserts. *)
Lemma saveAudioRecord_stores (data : CreateAudioRecordData) (w : World) :
  faults env AudioInsert = false ->
  exists record w',
    saveAudioRecord env data w = (Ok record, w')
    /\ audio_records w' = (audio_records w ++ [record])%list
    /\ AudioRecord.points_earned record = data_points_earned data
    /\ AudioRecord.title record = data_title data
    /\ AudioRecord.file_path record = data_file_path data.
Proof.
  intros Hins. unfold saveAudioRecord. unfold_m. rewrite signed_in, Hins.
  world_simpl. eexists. eexists. split; [reflexivity|]. world_simpl.
  cbn [AudioRecord.points_earned AudioRecord.title AudioRecord.file_path].
  rewrite or_num_some. auto.
Qed.
End Audio_calls.

Lemma getUserAudioRecords_keeps_recordings (env : Env) :
  keeps recordings (getUserAudioRecords env).
Proof. unfold getUserAudioRecords. frame. Qed.

(** ** The recorder *)

Import AudioRecorder.

Lemma durationMinutes_nonneg (t : Q) : (0 <= t)%Q -> 0 <= durationMinutes t.
Proof.
  intros Ht. unfold durationMinutes.
  assert (0 <= t / 60)%Q as Hdiv.
  { unfold Qdiv. apply Qmult_le_0_compat; [assumption|]. discriminate. }
  pose proof (Qle_ceiling (t / 60)) as Hc.
  assert (inject_Z 0 <= inject_Z (Qceiling (t / 60)))%Q as Hz
    by (eapply Qle_trans; [exact Hdiv | exact Hc]).
  now rewrite <- Zle_Qle in Hz.
Qed.

Lemma recordings_audio {A} (c : M A) :
  keeps recordings c -> keeps audio_records c.
Proof.
  intros H w. specialize (H w). unfold recordings in H. now inversion H.
Qed.

Lemma save_failed_keeps : keeps audio_records save_failed.
Proof. unfold save_failed, undeclared, discardRecording. frame. Qed.

Section Save.
Variable env : Env.
Variable user : AuthUser.
Hypothesis signed_in : auth_user env = Some user.

(** What [save] hands to [saveAudioRecord]. *)
Lemma save_stores (st : State) (file : string) (size : Z) (w : World) :
  local_file env file = Some size ->
  size <> 0 ->
  faults env StorageUpload = false ->
  faults env AudioInsert = false ->
  existsb (stored_at (uid user ++ "/" ++ "recording-" ++ dashes (now_iso env) ++ ".m4a"))
          (audio_files w) = false ->
  exists record,
    audio_records (snd (save env st file w)) = (audio_records w ++ [record])%list
    /\ AudioRecord.points_earned record = totalPoints (duration (recordingState st))
    /\ AudioRecord.title record = Js.trim (title st).
Proof.
  intros Hlocal Hsize Hup Hins Hfree.
  destruct (@uploadAudioFile_stores env user signed_in file
              ("recording-" ++ dashes (now_iso env) ++ ".m4a") size w
              Hlocal Hsize Hup Hfree) as (w1 & Hupload & Hrec1 & _).
  match type of Hupload with _ = (Ok ?path, _) =>
    destruct (@saveAudioRecord_stores env user signed_in
                {| data_title := Js.trim (title st);
                   data_description :=
                     (if Js.truthy (Js.trim (description st))
                      then Some (Js.trim (description st)) else None);
                   data_file_path := path;
                   data_file_size := size;
                   data_duration := duration (recordingState st);
                   data_points_earned := totalPoints (duration (recordingState st)) |}
                w1 Hins) as (record & w2 & Hsave & Hrec2 & Hpoints & Htitle & _)
  end.
  exists record. split; [|split; assumption].
  unfold save. rewrite Hlocal.
  erewrite bind_ok by reflexivity.
  destruct (Z.eqb_spec size 0) as [|_]; [contradiction|].
  erewrite bind_ok by reflexivity.
  erewrite bind_ok by exact Hupload.
  erewrite bind_ok by exact Hsave.
  rewrite <- Hrec1, <- Hrec2.
  apply (@keeps_bind _ audio_records);
    [apply recordings_audio, awardPoints_keeps_recordings|intros _].
  apply keeps_bind;
    [apply recordings_audio, updateStreak_keeps_recordings|intros _].
  apply keeps_bind;
    [apply recordings_audio, checkAndAwardAchievements_keeps_recordings|intros news].
  apply keeps_bind;
    [apply recordings_audio, getUserAudioRecords_keeps_recordings|intros _].
  unfold discardRecording. frame.
Qed.
End Save.

(** C2: a save whose upload and insert succeed stores a record whose
    [points_earned] is [10 + min(ceil(t / 60) * 2, 20)] for the recorded
    duration [t]; nothing that follows (gamification, alerts, failures of
    either) changes the stored row.  For [t >= 0] the value lies between
    10 and 30, and it is 10, 12, 12 and 30 for 0, 30, 60 and 600 seconds. *)
Theorem validateAndSave_points_earned
    (env : Env) (user : AuthUser) (st : State) (file : string) (size : Z) (w : World) :
  auth_user env = Some user ->
  Js.truthy (Js.trim (title st)) = true ->
  uri (recordingState st) = Some file ->
  Js.truthy file = true ->
  local_file env file = Some size ->
  size <> 0 ->
  faults env StorageUpload = false ->
  faults env AudioInsert = false ->
  existsb (stored_at (uid user ++ "/" ++ "recording-" ++ dashes (now_iso env) ++ ".m4a"))
          (audio_files w) = false ->
  (0 <= duration (recordingState st))%Q ->
  (exists record,
      audio_records (snd (validateAndSave env st w)) = (audio_records w ++ [record])%list
      /\ AudioRecord.points_earned record
         = 10 + Z.min (Qceiling (duration (recordingState st) / 60) * 2) 20
      /\ 10 <= AudioRecord.points_earned record <= 30)
  /\ totalPoints 0 = 10
  /\ totalPoints 30 = 12
  /\ totalPoints 60 = 12
  /\ totalPoints 600 = 30.
Proof.
  intros Hauth Htitle Huri Hfile Hlocal Hsize Hup Hins Hfree Ht.
  split; [|repeat split; reflexivity].
  unfold validateAndSave. rewrite Htitle, Huri, Hfile. cbn [negb].
  erewrite bind_ok by reflexivity.
  erewrite bind_ok by reflexivity.
  rewrite try_finally_part by (unfold screen; frame).
  rewrite try_catch_part by (intros e; apply save_failed_keeps).
  match goal with |- context [save env st file ?w0] =>
    destruct (@save_stores env user Hauth st file size w0 Hlocal Hsize Hup Hins Hfree)
      as (record & Hstored & Hpoints & _)
  end.
  exists record. split; [|split].
  - exact Hstored.
  - rewrite Hpoints. reflexivity.
  - rewrite Hpoints. unfold totalPoints, durationBonus, basePoints.
    pose proof (durationMinutes_nonneg Ht). lia.
Qed.

Lemma validateAndSave_points_earned_witness :
  exists record,
    audio_records
      (snd (validateAndSave Sample.env
              Sample.capture
              Sample.world))
      = (audio_records Sample.world ++ [record])%list
    /\ AudioRecord.points_earned record = 14.
Proof.
  destruct (@validateAndSave_points_earned Sample.env Sample.ann
              Sample.capture
              "file:///rec.m4a" 1234 Sample.world
              eq_refl eq_refl eq_refl eq_refl eq_refl ltac:(discriminate)
              eq_refl eq_refl eq_refl ltac:(discriminate))
    as [(record & Hstored & Hpoints & _) _].
  exists record. split; [exact Hstored | exact Hpoints].
Defined.

(** An empty title stops [validateAndSave] at its first line: the message
    under the title field is the only effect. *)
Lemma validateAndSave_rejects_empty_title (env : Env) (st : State) (w : World) :
  Js.truthy (Js.trim (title st)) = false ->
  validateAndSave env st w
    = (Ok tt,
       with_trace (fun t => (t ++ [Screen (SetTitleError "Title is required")])%list) w).
Proof. intros H. unfold validateAndSave. now rewrite H. Qed.

(** An empty captured file stops [save] before the upload; the throw lands
    in the handler written for failures after the upload, which reads
    [totalPoints] out of its scope.  No request is sent and no alert
    shown. *)
Lemma validateAndSave_empty_file (env : Env) (st : State) (file : string) (w : World) :
  Js.truthy (Js.trim (title st)) = true ->
  uri (recordingState st) = Some file ->
  Js.truthy file = true ->
  local_file env file = Some 0 ->
  validateAndSave env st w
    = (Throw (ReferenceError "totalPoints"),
       with_trace (fun t => (t ++ [Screen (SetTitleError "");
                                   Screen (SetIsSaving true);
                                   ConsoleError "Save recording error";
                                   ConsoleError "Full error object";
                                   Screen (SetIsSaving false)])%list) w).
Proof.
  intros Htitle Huri Hfile Hlocal.
  unfold validateAndSave, save, save_failed, undeclared.
  rewrite Htitle, Huri, Hfile, Hlocal. unfold_m. cbn [negb Z.eqb].
  unfold with_trace. cbn. now rewrite <- !app_assoc.
Qed.

(** C8 at the failing input: a titled recording whose captured file holds
    zero bytes.  The save sends no request and changes no table, but the
    player is shown neither a validation message nor any alert: the call
    ends in a [ReferenceError] raised inside the [catch] block. *)
Theorem validateAndSave_empty_file_unreported :
  validateAndSave (Sample.env_with Sample.never 0) Sample.capture Sample.world
    = (Throw (ReferenceError "totalPoints"),
       with_trace (fun t => (t ++ [Screen (SetTitleError "");
                                   Screen (SetIsSaving true);
                                   ConsoleError "Save recording error";
                                   ConsoleError "Full error object";
                                   Screen (SetIsSaving false)])%list) Sample.world)
  /\ validateAndSave Sample.env Sample.untitled Sample.world
     = (Ok tt,
        with_trace (fun t => (t ++ [Screen (SetTitleError "Title is required")])%list)
          Sample.world).
Proof.
  split.
  - now apply validateAndSave_empty_file with (file := "file:///rec.m4a").
  - now apply validateAndSave_rejects_empty_title.
Qed.

(** ** The history list *)

Import AudioHistory.

(** C7: [deleteRecord] first stops the player when the record is the one
    playing, then asks the bucket to remove the object and the table to
    delete the row, in that order.  A refused removal is logged and the row
    is deleted all the same; a refused row deletion makes
    [deleteAudioRecord] throw, leaves the row in place and ends in the
    error alert instead of the confirmation. *)
Theorem deleteRecord_stops_removes_deletes
    (env : Env) (st : AudioHistory.State) (record : AudioRecord.t) (w : World) :
  let w' := snd (deleteRecord env st record w) in
  trace w'
    = (trace w
       ++ (if (is_playing st record && playback st)%bool then stop_trace env else [])
       ++ delete_trace env)%list
  /\ audio_files w'
     = (if faults env StorageRemove then audio_files w
        else delete (stored_at (AudioRecord.file_path record)) (audio_files w))
  /\ audio_records w'
     = (if faults env AudioDelete then audio_records w
        else delete (record_has_id (AudioRecord.id record)) (audio_records w))
  /\ forall v,
       fst (deleteAudioRecord env (AudioRecord.id record) (AudioRecord.file_path record) v)
         = (if faults env AudioDelete then Throw (SupabaseError AudioDelete) else Ok tt).
Proof.
  unfold deleteRecord, stopAudio, deleteAudioRecord, stop_trace, delete_trace.
  unfold_m.
  destruct (is_playing st record), (playback st), (sound_fails env),
    (faults env StorageRemove), (faults env AudioDelete);
    cbn; rewrite <- ?app_assoc; repeat split; reflexivity.
Qed.

(** Deleting the recording that is playing while the bucket refuses:
    the player is stopped first, the refusal is logged, the row goes. *)
Example deleteRecord_while_playing :
  trace (snd (deleteRecord (Sample.env_failing Sample.storage_down)
                Sample.playing_chapter Sample.chapter Sample.world))
    = [Screen SoundStopAsync; Screen SoundUnloadAsync; Screen SetPlaybackNull;
       Screen SetPlayingRecordIdNull; Screen ResetPlaybackState;
       Request StorageRemove; ConsoleError "Delete file error";
       Request AudioDelete; Screen AlertDeleted; Screen LoadRecords]
  /\ audio_records (snd (deleteRecord (Sample.env_failing Sample.storage_down)
                           Sample.playing_chapter Sample.chapter Sample.world))
     = []
  /\ audio_files (snd (deleteRecord (Sample.env_failing Sample.storage_down)
                         Sample.playing_chapter Sample.chapter Sample.world))
     = [("u1/recording-1.m4a", 1234)].
Proof. repeat split; reflexivity. Qed.

(** The same deletion while the table refuses: the object is gone, the
    row stays and the error alert is shown. *)
Example deleteRecord_database_down :
  trace (snd (deleteRecord (Sample.env_failing Sample.database_down)
                Sample.playing_chapter Sample.chapter Sample.world))
    = [Screen SoundStopAsync; Screen SoundUnloadAsync; Screen SetPlaybackNull;
       Screen SetPlayingRecordIdNull; Screen ResetPlaybackState;
       Request StorageRemove; Request AudioDelete;
       ConsoleError "Delete record error"; ConsoleError "Delete audio record error";
       ConsoleError "Delete record error"; Screen AlertDeleteError]
  /\ audio_records (snd (deleteRecord (Sample.env_failing Sample.database_down)
                           Sample.playing_chapter Sample.chapter Sample.world))
     = [Sample.chapter]
  /\ audio_files (snd (deleteRecord (Sample.env_failing Sample.database_down)
                         Sample.playing_chapter Sample.chapter Sample.world))
     = [].
Proof. repeat split; reflexivity. Qed.

(** ** Assignments *)

Import assignmentService.

Lemma filter_rewritten {R : Type} (p q : R -> bool) (f : R -> R) (table : list R) :
  (forall r, q (f r) = true) ->
  filter q table = [] ->
  filter q (update p f table) = map f (filter p table).
Proof.
  intros Hf. unfold update.
  induction table as [|r rest IH]; cbn; [reflexivity|].
  destruct (q r) eqn:Hq; [discriminate|]. intros Hnone.
  destruct (p r); cbn.
  - now rewrite Hf, IH.
  - now rewrite Hq, IH.
Qed.

Section Assignment_calls.
Variable env : Env.

Lemma set_status_overwrites (site : CallSite) (assignmentId : string)
    (s : assignment_status) (row : Assignment.t) (w : World) :
  faults env site = false ->
  single (filter (assignment_has_id assignmentId) (reading_assignments w)) = Some row ->
  exists w',
    set_status env site assignmentId s w
      = (Ok (Assignment.set_status s (now_iso env) row), w')
    /\ single (filter (assignment_has_id assignmentId) (reading_assignments w'))
       = Some (Assignment.set_status s (now_iso env) row)
    /\ audio_records w' = audio_records w.
Proof.
  intros Hsite Hrow. unfold set_status. unfold_m. world_simpl.
  rewrite Hsite, Hrow. eexists. split; [reflexivity|]. world_simpl.
  split; [|reflexivity].
  rewrite filter_update by (intros r; reflexivity).
  now rewrite (single_filter _ _ Hrow).
Qed.
End Assignment_calls.

(** C5, as stated, fails: reviewing a pending assignment takes it straight
    to reviewed, and completing a reviewed assignment takes it back to
    completed. *)
Lemma assignment_status_counterexample :
  ~ Forall2 (fun a a' => steps_forward (Assignment.status a) (Assignment.status a') = true)
      (reading_assignments Sample.world)
      (reading_assignments
         (snd (reviewAssignment Sample.env "h1" 5 None None Sample.world)))
  /\ ~ Forall2 (fun a a' => steps_forward (Assignment.status a) (Assignment.status a') = true)
         (reading_assignments Sample.reviewed_world)
         (reading_assignments
            (snd (completeAssignment Sample.env "h1" "r1" Sample.reviewed_world))).
Proof.
  split; intros H; vm_compute in H; inversion H; subst; discriminate.
Qed.

(** C5, amended: neither call reads the current status.  On an existing
    assignment [completeAssignment] writes completed and [reviewAssignment]
    writes reviewed, whatever was there; called in that order they take a
    pending assignment through completed to reviewed.  Completing sets
    [assignment_id] on the rows with the given recording id and on no
    other row; it is the only record linked when the id names one record
    and none was linked before. *)
Theorem assignment_status_overwritten
    (env : Env) (assignmentId recordingId : string) (rating : Z)
    (feedback quality : option string) (row : Assignment.t) (w : World) :
  faults env AssignmentComplete = false ->
  faults env AssignmentReview = false ->
  faults env AssignmentLink = false ->
  single (filter (assignment_has_id assignmentId) (reading_assignments w)) = Some row ->
  (exists w1 w2,
      completeAssignment env assignmentId recordingId w
        = (Ok (Assignment.set_status completed (now_iso env) row), w1)
      /\ single (filter (assignment_has_id assignmentId) (reading_assignments w1))
         = Some (Assignment.set_status completed (now_iso env) row)
      /\ audio_records w1
         = update (record_has_id recordingId) (AudioRecord.set_assignment assignmentId)
             (audio_records w)
      /\ (forall record,
            single (filter (record_has_id recordingId) (audio_records w)) = Some record ->
            filter (linked_to assignmentId) (audio_records w) = [] ->
            filter (linked_to assignmentId) (audio_records w1)
              = [AudioRecord.set_assignment assignmentId record])
      /\ fst (reviewAssignment env assignmentId rating feedback quality w1)
         = Ok (Assignment.set_status reviewed (now_iso env)
                 (Assignment.set_status completed (now_iso env) row))
      /\ w2 = snd (reviewAssignment env assignmentId rating feedback quality w1)
      /\ single (filter (assignment_has_id assignmentId) (reading_assignments w2))
         = Some (Assignment.set_status reviewed (now_iso env)
                   (Assignment.set_status completed (now_iso env) row)))
  /\ fst (reviewAssignment env assignmentId rating feedback quality w)
     = Ok (Assignment.set_status reviewed (now_iso env) row).
Proof.
  intros Hc Hr Hl Hrow.
  destruct (@set_status_overwrites env AssignmentComplete assignmentId completed row w Hc Hrow)
    as (w1 & Hrun1 & Hrow1 & Haudio1).
  assert (forall v row', faults env AssignmentReview = false ->
            single (filter (assignment_has_id assignmentId) (reading_assignments v))
              = Some row' ->
            fst (reviewAssignment env assignmentId rating feedback quality v)
              = Ok (Assignment.set_status reviewed (now_iso env) row')
            /\ single (filter (assignment_has_id assignmentId)
                         (reading_assignments
                            (snd (reviewAssignment env assignmentId rating feedback quality v))))
               = Some (Assignment.set_status reviewed (now_iso env) row')) as Hreview.
  { intros v row' Hf Hv.
    destruct (@set_status_overwrites env AssignmentReview assignmentId reviewed row' v Hf Hv)
      as (v1 & Hrun & Hrow' & _).
    unfold reviewAssignment, logged, try_catch.
    erewrite bind_ok by exact Hrun.
    unfold select_single, request, emit. unfold_m. world_simpl.
    destruct (if faults env AssignmentRecordingSelect then None
              else single (filter (linked_to assignmentId) (audio_records v1)));
      [destruct (faults env AssignmentRecordingUpdate)|]; world_simpl; auto. }
  split.
  - eexists. eexists.
    assert (completeAssignment env assignmentId recordingId w
            = (Ok (Assignment.set_status completed (now_iso env) row),
               with_audio_records
                 (update (record_has_id recordingId)
                    (AudioRecord.set_assignment assignmentId))
                 (with_trace (fun t => (t ++ [Request AssignmentLink])%list) w1)))
      as Hrun.
    { unfold completeAssignment, logged, try_catch.
      erewrite bind_ok by exact Hrun1.
      unfold request, emit. unfold_m. now rewrite Hl. }
    split; [exact Hrun|]. world_simpl.
    split; [exact Hrow1|]. split; [now rewrite Haudio1|].
    split.
    { intros record Hrec Hnone. rewrite Haudio1.
      rewrite filter_rewritten; auto.
      - now rewrite (single_filter _ _ Hrec).
      - intros r. unfold linked_to. cbn. apply String.eqb_refl. }
    match goal with |- context [reviewAssignment env _ _ _ _ ?wc] =>
      destruct (Hreview wc _ Hr Hrow1) as [Hres Hrow2]
    end.
    split; [exact Hres|]. split; [reflexivity|exact Hrow2].
  - apply (Hreview w row Hr Hrow).
Qed.

Lemma assignment_status_overwritten_witness :
  fst (reviewAssignment Sample.env "h1" 5 None None Sample.world)
    = Ok (Assignment.set_status reviewed (now_iso Sample.env) (Sample.homework pending)).
Proof.
  exact (proj2 (@assignment_status_overwritten Sample.env "h1" "r1" 5 None None
                  (Sample.homework pending) Sample.world
                  eq_refl eq_refl eq_refl eq_refl)).
Defined.

(** ** The achievement evaluator *)

(** Whatever the backend answers, a pass only appends rows to
    [user_achievements] and leaves the catalog as it is. *)
Lemma checkAndAwardAchievements_appends (env : Env) (w : World) :
  exists added,
    user_achievements (snd (checkAndAwardAchievements env w))
      = (user_achievements w ++ added)%list
    /\ achievements (snd (checkAndAwardAchievements env w)) = achievements w.
Proof.
  destruct (auth_user env) as [user|] eqn:Hauth.
  - destruct (@checkAndAwardAchievements_spec env user Hauth w)
      as (s & w0 & w' & _ & Hcat & Hrun).
    destruct (faults env AchievementsSelect).
    + destruct Hrun as [-> Hrows]. exists []. cbn [snd].
      rewrite Hrows, app_nil_r. auto.
    + destruct Hrun as [-> Hrows]. exists (rows_added env user s (available_to user w)).
      cbn [snd]. auto.
  - exists []. unfold checkAndAwardAchievements. unfold_m. rewrite Hauth.
    world_simpl. rewrite app_nil_r. auto.
Qed.

(** C4 at the failing inputs.  Ann has 95 points and the catalog holds one
    achievement for 50 points that carries no reward, so a pass changes no
    statistic.  The first pass awards it and files the row.  The second pass,
    run on what the first left, reads the same statistics, still finds the
    achievement among the rows to scan (the filter compares ids with the
    query text, not with the rows the text asks for), awards it again and
    files a second row for the same pair.  The same happens with the
    catalog of two rewarded achievements, where the reward of the first
    pass reaches no profile. *)
Theorem checkAndAwardAchievements_awards_again :
  (fst (checkAndAwardAchievements Sample.env Sample.first_steps_world)
   = Ok [Sample.first_steps]
   /\ map pair_of
        (user_achievements
           (snd (checkAndAwardAchievements Sample.env Sample.first_steps_world)))
      = [("u1", "a3")]
   /\ fst (getStudentProgress Sample.env
             (snd (checkAndAwardAchievements Sample.env Sample.first_steps_world)))
      = fst (getStudentProgress Sample.env Sample.first_steps_world)
   /\ available_to Sample.ann
        (snd (checkAndAwardAchievements Sample.env Sample.first_steps_world))
      = [Sample.first_steps]
   /\ fst (checkAndAwardAchievements Sample.env
             (snd (checkAndAwardAchievements Sample.env Sample.first_steps_world)))
      = Ok [Sample.first_steps]
   /\ map pair_of
        (user_achievements
           (snd (checkAndAwardAchievements Sample.env
                   (snd (checkAndAwardAchievements Sample.env
                           Sample.first_steps_world)))))
      = [("u1", "a3"); ("u1", "a3")])
  /\ (fst (checkAndAwardAchievements Sample.env Sample.bookworm_world)
      = Ok [Sample.bookworm]
      /\ fst (getStudentProgress Sample.env
                (snd (checkAndAwardAchievements Sample.env Sample.bookworm_world)))
         = fst (getStudentProgress Sample.env Sample.bookworm_world)
      /\ fst (checkAndAwardAchievements Sample.env
                (snd (checkAndAwardAchievements Sample.env Sample.bookworm_world)))
         = Ok [Sample.bookworm]
      /\ map pair_of
           (user_achievements
              (snd (checkAndAwardAchievements Sample.env
                      (snd (checkAndAwardAchievements Sample.env
                              Sample.bookworm_world)))))
         = [("u1", "a2"); ("u1", "a2")]).
Proof. repeat split; reflexivity. Qed.

(** C6 at the failing inputs.  The evaluator files the [user_achievements]
    row and reports the achievement, but looks the profile up by its row
    id, not by [user_id] as every other profile query does.  The row that
    [getStudentProgress] itself creates for a first visit gets a generated
    id, so the reward of 10 points and 1 diamond is written nowhere; the
    same happens to a profile of 95 points earning 25.  Only when the row
    id equals the user id does the reward arrive. *)
Theorem checkAndAwardAchievements_reward_lost :
  (fst (checkAndAwardAchievements Sample.env Sample.first_visit) = Ok [Sample.welcome]
   /\ map pair_of
        (user_achievements (snd (checkAndAwardAchievements Sample.env Sample.first_visit)))
      = [("u1", "a0")]
   /\ map Sample.balance
        (profiles (snd (checkAndAwardAchievements Sample.env Sample.first_visit)))
      = [("row-0", "u1", Some 0, Some 0)])
  /\ (fst (checkAndAwardAchievements Sample.env Sample.bookworm_world) = Ok [Sample.bookworm]
      /\ map pair_of
           (user_achievements
              (snd (checkAndAwardAchievements Sample.env Sample.bookworm_world)))
         = [("u1", "a2")]
      /\ map Sample.balance
           (profiles (snd (checkAndAwardAchievements Sample.env Sample.bookworm_world)))
         = [("p1", "u1", Some 95, Some 0)])
  /\ map Sample.balance
       (profiles (snd (checkAndAwardAchievements Sample.env Sample.keyed_world)))
     = [("u1", "u1", Some (95 + 25), Some (0 + 5))].
Proof. repeat split; reflexivity. Qed.

(** ** The points award: what is written and what is returned *)

Lemma update_misses {Row : Type} (key : Row -> bool) (f : Row -> Row) (table : list Row) :
  filter key table = [] -> update key f table = table.
Proof.
  unfold update. induction table as [|r rest IH]; cbn; [reflexivity|].
  destruct (key r); [discriminate|]. intros H. now rewrite IH.
Qed.

Lemma filter_update_other {Row : Type} (key other : Row -> bool) (f : Row -> Row)
    (table : list Row) :
  (forall r, other (f r) = other r) ->
  filter other table = [] ->
  filter other (update key f table) = [].
Proof.
  intros Hf. unfold update. induction table as [|r rest IH]; cbn; [reflexivity|].
  destruct (other r) eqn:Ho; [discriminate|]. intros H.
  destruct (key r); [rewrite Hf|]; rewrite Ho; now apply IH.
Qed.

Section Unkeyed_profiles.
Variable env : Env.
Variable user : AuthUser.
Hypothesis signed_in : auth_user env = Some user.

Lemma award_loop_keeps_unkeyed (stats : Progress.t) (available : list Achievement.t) :
  forall acc w,
    unkeyed user w ->
    profiles (snd (award_loop env user stats available acc w)) = profiles w.
Proof.
  induction available as [|a rest IH]; intros acc w Hun; cbn [award_loop];
    [reflexivity|].
  destruct (earned stats a); [|now apply IH].
  unfold bind at 1.
  assert (profiles (snd (award_achievement env user a w)) = profiles w) as Hsame.
  { unfold award_achievement. unfold_m. world_simpl.
    destruct (faults env (UserAchievementInsert (Achievement.id a))); world_simpl;
      destruct ((Achievement.points_reward a >? 0) || (Achievement.diamonds_reward a >? 0))%bool;
      world_simpl; try reflexivity;
      destruct (faults env (RewardProfileUpdate (Achievement.id a))); world_simpl;
      try reflexivity; now apply update_misses. }
  destruct (award_achievement_returns env user a w) as (w1 & Hrun & _).
  rewrite Hrun in *. cbn [snd] in Hsame. rewrite <- Hsame.
  apply IH. unfold unkeyed. now rewrite Hsame.
Qed.

(** With the profile found, [getStudentProgress] answers from the row and
    writes no profile. *)
Lemma getStudentProgress_reads (profile : Profile.t) (w : World) :
  faults env ProgressProfileSelect = false ->
  single (filter (of_user user) (profiles w)) = Some profile ->
  exists stats w',
    getStudentProgress env w = (Ok stats, w')
    /\ profiles w' = profiles w
    /\ Progress.points stats = Js.or_num (Profile.points profile) 0
    /\ Progress.level stats = Js.or_num (Profile.level profile) 1
    /\ Progress.currentStreak stats = Js.or_num (Profile.current_streak profile) 0
    /\ Progress.nextLevelPoints stats
       = Z.max 0 (Progress.level stats * 100 - Progress.points stats).
Proof.
  intros Hsel Hprofile.
  unfold getStudentProgress, progress_of. unfold_m. rewrite signed_in. world_simpl.
  rewrite Hsel, Hprofile. eexists. eexists. split; [reflexivity|]. world_simpl.
  cbn. auto 8.
Qed.

Lemma checkAndAwardAchievements_keeps_unkeyed (profile : Profile.t) (w : World) :
  faults env ProgressProfileSelect = false ->
  single (filter (of_user user) (profiles w)) = Some profile ->
  unkeyed user w ->
  profiles (snd (checkAndAwardAchievements env w)) = profiles w.
Proof.
  intros Hsel Hprofile Hun.
  destruct (@getStudentProgress_reads profile w Hsel Hprofile)
    as (stats & w0 & Hstats & Hp0 & _).
  unfold checkAndAwardAchievements. unfold_m. rewrite signed_in, Hstats.
  destruct (faults env AchievementsSelect); world_simpl; [assumption|].
  rewrite <- Hp0.
  match goal with |- context [award_loop env user stats ?l ?acc ?v] =>
    pose proof (@award_loop_keeps_unkeyed stats l acc v) as Hloop;
    destruct (award_loop env user stats l acc v) as [[news|e] v'] eqn:Hrun
  end; world_simpl; apply Hloop; unfold unkeyed; world_simpl; now rewrite Hp0.
Qed.

(** The world [awardPoints] hands to the evaluator once its own two
    requests are through. *)
Lemma awardPoints_found (profile : Profile.t) (d : Z) (recordingId : option string)
    (w : World) :
  faults env AwardProfileSelect = false ->
  faults env AwardProfileUpdate = false ->
  single (filter (of_user user) (profiles w)) = Some profile ->
  exists written,
    profiles written
      = update (of_user user)
          (Profile.set_points_level
             (Js.or_num (Profile.points profile) 0 + d)
             ((Js.or_num (Profile.points profile) 0 + d) / 100 + 1)
             (now_iso env))
          (profiles w)
    /\ other_tables written = other_tables w
    /\ trace written
       = (trace w ++ [Request AwardProfileSelect; Request AwardProfileUpdate])%list
    /\ awardPoints env d recordingId w
       = match checkAndAwardAchievements env written with
         | (Ok _, after) =>
             (Ok {| newPoints := Js.or_num (Profile.points profile) 0 + d;
                    newLevel := (Js.or_num (Profile.points profile) 0 + d) / 100 + 1 |},
              after)
         | (Throw e, after) =>
             (Throw e,
              with_trace (fun t => (t ++ [ConsoleError "Award points error"])%list) after)
         end.
Proof.
  intros Hsel Hupd Hprofile.
  unfold awardPoints. unfold_m. rewrite signed_in, Hsel. world_simpl.
  rewrite Hprofile, Hupd. world_simpl.
  match goal with |- context [checkAndAwardAchievements env ?v] => exists v end.
  split; [reflexivity|]. split; [reflexivity|]. split.
  - world_simpl. now rewrite <- app_assoc.
  - match goal with |- context [checkAndAwardAchievements env ?v] =>
      destruct (checkAndAwardAchievements env v) as [[news|e] after]
    end; reflexivity.
Qed.
End Unkeyed_profiles.

(** The write of [awardPoints], column by column. *)
Lemma set_points_level_written (env : Env) (user : AuthUser) (np nl : Z)
    (table : list Profile.t) :
  Forall2 (points_written env user np nl) table
    (update (of_user user) (Profile.set_points_level np nl (now_iso env)) table).
Proof.
  unfold update. apply Forall2_map_right. intros r _.
  unfold points_written. destruct (of_user user r); [|reflexivity].
  cbn. auto 12.
Qed.

(** C1, as stated, fails.  With the profile found, 95 points and a delta
    of 60, nothing being refused, the call answers 155 points and level 2;
    but the achievement pass it runs before returning adds two rewards of 25
    to the row it has just written, so the profile holds 205 points when the
    call ends, at the level 2 written for 155.  And with the catalog query
    of that pass refused the call throws instead of answering, the new
    points and level having been written. *)
Lemma awardPoints_points_and_level_counterexample :
  (map Sample.standing (profiles Sample.keyed_world) = [(Some 95, Some 1)]
   /\ fst (awardPoints Sample.env 60 None Sample.keyed_world)
      = Ok {| newPoints := 95 + 60; newLevel := (95 + 60) / 100 + 1 |}
   /\ map Sample.standing
        (profiles (snd (awardPoints Sample.env 60 None Sample.keyed_world)))
      = [(Some 205, Some 2)]
   /\ 205 <> 95 + 60
   /\ 2 <> 205 / 100 + 1)
  /\ (fst (awardPoints (Sample.env_failing Sample.catalog_down) 10 None Sample.world)
      = Throw (SupabaseError AchievementsSelect)
      /\ map Sample.standing
           (profiles
              (snd (awardPoints (Sample.env_failing Sample.catalog_down) 10 None
                      Sample.world)))
         = [(Some (95 + 10), Some ((95 + 10) / 100 + 1))]).
Proof. repeat split; try reflexivity; cbv; discriminate. Qed.

(** C1, amended: for a profile that is found, with [P] points, and a
    delta [d], both not negative, [awardPoints] computes [P + d] and the
    level [floor((P + d) / 100) + 1], which is at least 1.  When the update
    is refused it answers with the two numbers and writes nothing.
    Otherwise it writes them, with the time of the write, to the rows of the
    user and to no other column or row, and then runs the achievement pass
    on that state: it answers with the two numbers when the pass returns and
    throws what the pass throws, which happens exactly when the catalog
    query is refused; the write stays in either case.  Read right after the
    write, [getStudentProgress] reports [P + d], the new level and
    [max(0, level * 100 - points)]; the profiles are still as written when
    the call ends if no profile row carries the user's id as its row id, the
    table the rewards of the pass do not reach.  [getStudentProgress]
    always answers with [nextLevelPoints = max(0, level * 100 - points)],
    and with the points and the level of the profile row when it finds
    one. *)
Theorem awardPoints_writes_and_returns
    (env : Env) (user : AuthUser) (profile : Profile.t) (P d : Z)
    (recordingId : option string) (w : World) :
  auth_user env = Some user ->
  faults env AwardProfileSelect = false ->
  single (filter (of_user user) (profiles w)) = Some profile ->
  Js.or_num (Profile.points profile) 0 = P ->
  0 <= P ->
  0 <= d ->
  let L := (P + d) / 100 + 1 in
  let award := {| newPoints := P + d; newLevel := L |} in
  let run := awardPoints env d recordingId w in
  1 <= L
  /\ (faults env AwardProfileUpdate = true ->
      fst run = Ok award
      /\ profiles (snd run) = profiles w
      /\ other_tables (snd run) = other_tables w)
  /\ (faults env AwardProfileUpdate = false ->
      exists written,
        Forall2 (points_written env user (P + d) L) (profiles w) (profiles written)
        /\ other_tables written = other_tables w
        /\ run = match checkAndAwardAchievements env written with
                 | (Ok _, after) => (Ok award, after)
                 | (Throw e, after) =>
                     (Throw e,
                      with_trace
                        (fun t => (t ++ [ConsoleError "Award points error"])%list) after)
                 end
        /\ fst run = (if faults env AchievementsSelect
                      then Throw (SupabaseError AchievementsSelect)
                      else Ok award)
        /\ (faults env ProgressProfileSelect = false ->
            (exists s,
                fst (getStudentProgress env written) = Ok s
                /\ Progress.points s = P + d
                /\ Progress.level s = L
                /\ Progress.nextLevelPoints s = Z.max 0 (L * 100 - (P + d)))
            /\ (unkeyed user w -> profiles (snd run) = profiles written)))
  /\ (forall v, exists s,
        fst (getStudentProgress env v) = Ok s
        /\ Progress.nextLevelPoints s
           = Z.max 0 (Progress.level s * 100 - Progress.points s))
  /\ (forall v row,
        faults env ProgressProfileSelect = false ->
        single (filter (of_user user) (profiles v)) = Some row ->
        exists s,
          fst (getStudentProgress env v) = Ok s
          /\ Progress.points s = Js.or_num (Profile.points row) 0
          /\ Progress.level s = Js.or_num (Profile.level row) 1
          /\ profiles (snd (getStudentProgress env v)) = profiles v).
Proof.
  intros Hauth Hsel Hrow HP HP0 Hd L award run.
  assert (1 <= L) as HL.
  { unfold L. assert (0 <= (P + d) / 100) by (apply Z.div_pos; lia). lia. }
  split; [exact HL|]. split; [|split; [|split]].
  - intros Hupd. unfold run, awardPoints. unfold_m. rewrite Hauth, Hsel. world_simpl.
    rewrite Hrow, HP, Hupd. world_simpl. repeat split.
  - intros Hupd.
    destruct (@awardPoints_found env user Hauth profile d recordingId w Hsel Hupd Hrow)
      as (written & Hprofiles & Hother & _ & Hrun).
    rewrite HP in Hprofiles, Hrun. fold L in Hprofiles, Hrun. fold award in Hrun.
    fold run in Hrun.
    exists written. split; [|split; [|split; [|split]]].
    + rewrite Hprofiles. apply set_points_level_written.
    + exact Hother.
    + exact Hrun.
    + rewrite Hrun.
      destruct (@checkAndAwardAchievements_spec env user Hauth written)
        as (s & w0 & w' & _ & _ & Hpass).
      destruct (faults env AchievementsSelect); destruct Hpass as [-> _]; reflexivity.
    + intros Hprog.
      assert (single (filter (of_user user) (profiles written))
              = Some (Profile.set_points_level (P + d) L (now_iso env) profile))
        as Hmine.
      { rewrite Hprofiles, filter_update by (intros r; reflexivity).
        now rewrite (single_filter _ _ Hrow). }
      split.
      * destruct (@getStudentProgress_reads env user Hauth _ written Hprog Hmine)
          as (s & w' & Hs & _ & Hpoints & Hlevel & _ & Hnext).
        exists s. rewrite Hs. split; [reflexivity|].
        cbn [Profile.set_points_level Profile.points Profile.level] in Hpoints, Hlevel.
        rewrite or_num_some in Hpoints.
        assert (Progress.level s = L) as Hlevel'.
        { rewrite Hlevel. unfold Js.or_num. destruct (Z.eqb_spec L 0); [lia|reflexivity]. }
        rewrite Hnext, Hpoints, Hlevel'. auto.
      * intros Hun.
        assert (unkeyed user written) as Hun'.
        { unfold unkeyed. rewrite Hprofiles.
          apply filter_update_other; [intros r; reflexivity | exact Hun]. }
        pose proof (@checkAndAwardAchievements_keeps_unkeyed env user Hauth _ written
                      Hprog Hmine Hun') as Hkeep.
        rewrite Hrun.
        destruct (checkAndAwardAchievements env written) as [[news|e] after];
          cbn [snd] in *; world_simpl; exact Hkeep.
  - intros v.
    destruct (@getStudentProgress_returns env user Hauth v) as (s & v' & Hs & Hn & _).
    exists s. rewrite Hs. auto.
  - intros v row Hprog Hmine.
    destruct (@getStudentProgress_reads env user Hauth row v Hprog Hmine)
      as (s & v' & Hs & Hp & Hpoints & Hlevel & _).
    exists s. rewrite Hs. auto.
Qed.

Lemma awardPoints_writes_and_returns_witness :
  map Sample.standing (profiles Sample.world) = [(Some 95, Some 1)]
  /\ (1 <= (95 + 10) / 100 + 1
      /\ exists written,
           Forall2 (points_written Sample.env Sample.ann (95 + 10) ((95 + 10) / 100 + 1))
             (profiles Sample.world) (profiles written)
           /\ fst (awardPoints Sample.env 10 (Some "r1") Sample.world)
              = Ok {| newPoints := 95 + 10; newLevel := (95 + 10) / 100 + 1 |}
           /\ profiles (snd (awardPoints Sample.env 10 (Some "r1") Sample.world))
              = profiles written).
Proof.
  split; [reflexivity|].
  destruct (@awardPoints_writes_and_returns Sample.env Sample.ann Sample.ann_profile
              95 10 (Some "r1") Sample.world
              eq_refl eq_refl eq_refl eq_refl ltac:(lia) ltac:(lia))
    as (HL & _ & Hwritten & _).
  split; [exact HL|].
  destruct (Hwritten eq_refl) as (written & Hrows & _ & _ & Hfst & Hafter).
  exists written. split; [exact Hrows|]. split; [exact Hfst|].
  exact (proj2 (Hafter eq_refl) eq_refl).
Defined.

(** * Further properties *)

(** ** Calls without a signed-in user *)

(** Without a signed-in user the four gamification calls and the two
    audio calls that ask for the user throw before any request: the world
    gains one console line and nothing else. *)
Theorem signed_out_calls_write_nothing
    (env : Env) (d : Z) (recordingId : option string)
    (file fileName : string) (data : CreateAudioRecordData) (w : World) :
  auth_user env = None ->
  getStudentProgress env w
    = (Throw NotAuthenticated,
       with_trace (fun t => (t ++ [ConsoleError "Get student progress error"])%list) w)
  /\ awardPoints env d recordingId w
     = (Throw NotAuthenticated,
        with_trace (fun t => (t ++ [ConsoleError "Award points error"])%list) w)
  /\ updateStreak env w
     = (Throw NotAuthenticated,
        with_trace (fun t => (t ++ [ConsoleError "Update streak error"])%list) w)
  /\ checkAndAwardAchievements env w
     = (Throw NotAuthenticated,
        with_trace (fun t => (t ++ [ConsoleError "Check achievements error"])%list) w)
  /\ uploadAudioFile env file fileName w
     = (Throw NotAuthenticated,
        with_trace (fun t => (t ++ [ConsoleError "Upload audio file error"])%list) w)
  /\ saveAudioRecord env data w
     = (Throw NotAuthenticated,
        with_trace (fun t => (t ++ [ConsoleError "Save audio record error"])%list) w).
Proof.
  intros Hout.
  unfold getStudentProgress, awardPoints, updateStreak, checkAndAwardAchievements,
    uploadAudioFile, saveAudioRecord.
  unfold_m. rewrite Hout. auto 12.
Qed.

(** ** The streak ledger *)

(** Every call keeps the ledger's book-keeping rule: a day's
    [points_earned] is ten times its [recordings_count], whatever the
    recordings were worth. *)
Theorem updateStreak_keeps_ten_per_recording (env : Env) (w : World) :
  Forall ten_per_recording (reading_streaks w) ->
  Forall ten_per_recording (reading_streaks (snd (updateStreak env w))).
Proof.
  intros Hrule. unfold updateStreak. unfold_m.
  destruct (auth_user env) as [user|]; world_simpl; [|assumption].
  destruct (if faults env StreakLedgerSelect then None
            else single (filter (on_day user (today_of env)) (reading_streaks w)))
    as [existing|] eqn:Hsel; world_simpl.
  - destruct (faults env StreakLedgerUpdate); world_simpl; [assumption|].
    destruct (faults env StreakLedgerSelect); [discriminate|].
    assert (ten_per_recording existing) as Hex.
    { assert (In existing (filter (on_day user (today_of env)) (reading_streaks w))) as Hin
        by (rewrite (single_filter _ _ Hsel); now left).
      apply filter_In in Hin as [Hin _].
      now apply (proj1 (Forall_forall _ _) Hrule). }
    unfold update. apply Forall_map. apply Forall_forall. intros r Hin.
    destruct (streak_has_id (Streak.id existing) r).
    + unfold ten_per_recording, Streak.set_counters in *.
      cbn [Streak.points_earned Streak.recordings_count]. lia.
    + now apply (proj1 (Forall_forall _ _) Hrule).
  - destruct (faults env StreakLedgerInsert); world_simpl; [assumption|].
    assert (Forall ten_per_recording
              (reading_streaks w
               ++ [Streak.mk (uuid_of (next_uuid w)) (uid user) (today_of env) 1 10])%list)
      as Hnew.
    { apply Forall_app. split; [assumption|]. constructor; [reflexivity|constructor]. }
    destruct (if faults env StreakProfileSelect then None
              else single (filter (of_user user) (profiles w)));
      world_simpl; [|assumption].
    destruct (faults env StreakProfileUpdate); world_simpl; assumption.
Qed.

Lemma signed_out_calls_write_nothing_witness :
  fst (updateStreak Sample.signed_out Sample.world) = Throw NotAuthenticated
  /\ reading_streaks (snd (updateStreak Sample.signed_out Sample.world)) = [].
Proof.
  destruct (@signed_out_calls_write_nothing Sample.signed_out 10 None
              "file:///rec.m4a" "take.m4a" Sample.take Sample.world eq_refl)
    as (_ & _ & Hstreak & _).
  rewrite Hstreak. split; reflexivity.
Defined.

Lemma updateStreak_keeps_ten_per_recording_witness :
  Forall ten_per_recording (reading_streaks Sample.lapsed_world)
  /\ Forall ten_per_recording
       (reading_streaks (snd (updateStreak Sample.env Sample.lapsed_world))).
Proof.
  assert (Forall ten_per_recording (reading_streaks Sample.lapsed_world)) as Hrule
    by (constructor; [reflexivity|constructor]).
  split; [exact Hrule|].
  exact (@updateStreak_keeps_ten_per_recording Sample.env Sample.lapsed_world Hrule).
Defined.

(** Recordings on two different days count one day each, whichever the
    two days are and whatever lies between them: the streak grows by two,
    the ledger by one row per day, and [last_activity] is the day of the
    second call. *)
Theorem updateStreak_two_days
    (first second : Env) (user : AuthUser) (profile : Profile.t) (w : World) :
  auth_user first = Some user ->
  auth_user second = Some user ->
  reliable first ->
  reliable second ->
  today_of first <> today_of second ->
  filter (on_day user (today_of first)) (reading_streaks w) = [] ->
  filter (on_day user (today_of second)) (reading_streaks w) = [] ->
  single (filter (of_user user) (profiles w)) = Some profile ->
  exists w1 w2 after,
    updateStreak first w = (Ok tt, w1)
    /\ updateStreak second w1 = (Ok tt, w2)
    /\ reading_streaks w2
       = (reading_streaks w ++ [first_entry first user w; first_entry second user w1])%list
    /\ single (filter (of_user user) (profiles w2)) = Some after
    /\ streak_of after = streak_of profile + 2
    /\ longest_of after = Z.max (longest_of profile) (streak_of profile + 2)
    /\ Profile.last_activity after = Some (today_of second).
Proof.
  intros H1 H2 R1 R2 Hdays Hnew1 Hnew2 Hprofile.
  destruct (@updateStreak_first_of_day first user H1 profile w)
    as (w1 & Hrun1 & Hledger1 & _ & Hmine1); auto.
  { right. now rewrite Hnew1. }
  destruct (@updateStreak_first_of_day second user H2 (counted first profile) w1)
    as (w2 & Hrun2 & Hledger2 & _ & Hmine2); auto.
  { right. rewrite Hledger1, filter_app, Hnew2. cbn [app filter].
    unfold on_day, first_entry. cbn [Streak.student_id Streak.streak_date].
    rewrite String.eqb_refl. cbn [andb].
    destruct (String.eqb_spec (today_of first) (today_of second)); [contradiction|].
    reflexivity. }
  exists w1, w2, (counted second (counted first profile)).
  destruct (counted_streak first profile) as (Hs1 & Hl1 & _).
  destruct (counted_streak second (counted first profile)) as (Hs2 & Hl2 & Ha2).
  repeat split; auto.
  - rewrite Hledger2, Hledger1, <- app_assoc. reflexivity.
  - lia.
  - rewrite Hl2, Hl1, Hs2, Hs1. lia.
Qed.

(** ** Progress of a first visit *)

(** For a user without a profile row [getStudentProgress] creates one row
    with zero points, diamonds and streaks at level 1 and answers from it,
    100 points short of the next level; the next call finds that row,
    answers the same and creates nothing. *)
Theorem getStudentProgress_first_visit (env : Env) (user : AuthUser) (w : World) :
  auth_user env = Some user ->
  reliable env ->
  filter (of_user user) (profiles w) = [] ->
  exists stats w1 w2,
    getStudentProgress env w = (Ok stats, w1)
    /\ profiles w1
       = (profiles w
          ++ [Profile.mk (uuid_of (next_uuid w)) (uid user) (display_name user)
                (Some 0) (Some 0) (Some 0) (Some 0) (Some 1) None None])%list
    /\ (Progress.points stats, Progress.diamonds stats, Progress.currentStreak stats,
        Progress.longestStreak stats, Progress.level stats, Progress.nextLevelPoints stats)
       = (0, 0, 0, 0, 1, 100)
    /\ Progress.totalRecordings stats
       = Z.of_nat (List.length (filter (recorded_by user) (audio_records w)))
    /\ getStudentProgress env w1 = (Ok stats, w2)
    /\ profiles w2 = profiles w1.
Proof.
  intros Hauth Hrel Hnone.
  unfold getStudentProgress, progress_of. unfold_m. rewrite Hauth. world_simpl.
  rewrite !Hrel, Hnone. world_simpl. rewrite ?Hrel.
  eexists. eexists. eexists. split; [reflexivity|]. world_simpl.
  split; [reflexivity|]. split; [reflexivity|].
  split; [cbn [Progress.totalRecordings]; apply or_num_some|].
  rewrite filter_app, Hnone. cbn [app filter].
  match goal with |- context [of_user user ?p] =>
    replace (of_user user p) with true by (symmetry; apply String.eqb_refl)
  end.
  cbn [single]. world_simpl. split; reflexivity.
Qed.

Lemma updateStreak_two_days_witness :
  streak_of Sample.ann_profile = 2
  /\ exists w1 w2 after,
       updateStreak Sample.env Sample.world = (Ok tt, w1)
       /\ updateStreak Sample.next_day w1 = (Ok tt, w2)
       /\ single (filter (of_user Sample.ann) (profiles w2)) = Some after
       /\ streak_of after = 2 + 2
       /\ Profile.last_activity after = Some "2026-03-03".
Proof.
  split; [reflexivity|].
  destruct (@updateStreak_two_days Sample.env Sample.next_day Sample.ann
              Sample.ann_profile Sample.world
              eq_refl eq_refl (fun _ => eq_refl) (fun _ => eq_refl)
              ltac:(intros H; vm_compute in H; discriminate H)
              eq_refl eq_refl eq_refl)
    as (w1 & w2 & after & H1 & H2 & _ & Hmine & Hs & _ & Hlast).
  exists w1, w2, after. repeat split; assumption.
Defined.

Lemma getStudentProgress_first_visit_witness :
  profiles Sample.first_visit = []
  /\ exists stats w1 w2,
       getStudentProgress Sample.env Sample.first_visit = (Ok stats, w1)
       /\ Progress.nextLevelPoints stats = 100
       /\ getStudentProgress Sample.env w1 = (Ok stats, w2)
       /\ profiles w2 = profiles w1.
Proof.
  split; [reflexivity|].
  destruct (@getStudentProgress_first_visit Sample.env Sample.ann Sample.first_visit
              eq_refl (fun _ => eq_refl) eq_refl)
    as (stats & w1 & w2 & H1 & _ & Hcols & _ & H2 & Hsame).
  exists stats, w1, w2. repeat split; try assumption.
  now inversion Hcols.
Defined.

(** ** What a pass returns and what it leaves alone *)

Lemma rows_added_pairs (env : Env) (user : AuthUser) (stats : Progress.t)
    (available : list Achievement.t) :
  map pair_of (rows_added env user stats available)
  = map (fun a => (uid user, Achievement.id a))
      (filter (fun a => earned stats a
                        && negb (faults env (UserAchievementInsert (Achievement.id a))))%bool
              available).
Proof. unfold rows_added. now rewrite map_map. Qed.

(** The achievements a pass returns are the catalog rows left by the
    filter whose threshold the statistics of that moment meet, in catalog
    order, never a [perfect_week] one.  Each of them whose insert is
    accepted has a row afterwards.  The rows already filed play no part: on
    any world with the same catalog that reads the same statistics the
    pass returns the same achievements again. *)
Theorem checkAndAwardAchievements_returns_due
    (env : Env) (user : AuthUser) (w : World) (news : list Achievement.t) :
  auth_user env = Some user ->
  fst (checkAndAwardAchievements env w) = Ok news ->
  exists stats,
    fst (getStudentProgress env w) = Ok stats
    /\ news = filter (earned stats) (available_to user w)
    /\ Forall (fun a =>
                 In a (achievements w)
                 /\ Achievement.requirement a <> perfect_week
                 /\ earned stats a = true
                 /\ (faults env (UserAchievementInsert (Achievement.id a)) = false ->
                     In (uid user, Achievement.id a)
                        (map pair_of
                           (user_achievements (snd (checkAndAwardAchievements env w))))))
              news
    /\ (forall v,
          achievements v = achievements w ->
          fst (getStudentProgress env v) = Ok stats ->
          fst (checkAndAwardAchievements env v) = Ok news).
Proof.
  intros Hauth Hok.
  destruct (@checkAndAwardAchievements_spec env user Hauth w)
    as (s & w0 & w' & Hstats & _ & Hrun).
  destruct (faults env AchievementsSelect) eqn:Hcat.
  { destruct Hrun as [Hrun _]. rewrite Hrun in Hok. discriminate. }
  destruct Hrun as [Hrun Hrows]. rewrite Hrun in *. cbn [fst snd] in *.
  inversion Hok; subst news. exists s. rewrite Hstats.
  split; [reflexivity|]. split; [reflexivity|]. split.
  - apply Forall_forall. intros a Hin.
    apply filter_In in Hin as [Hin He]. pose proof Hin as Hav.
    unfold available_to in Hin. apply filter_In in Hin as [Hin Hun].
    repeat split; auto.
    + intros Hp. unfold earned in He. rewrite Hp in He. discriminate.
    + intros Hins. rewrite Hrows, map_app, rows_added_pairs. apply in_or_app. right.
      apply in_map_iff. exists a. split; [reflexivity|].
      apply filter_In. split; [assumption|]. now rewrite He, Hins.
  - intros v Hsame Hv.
    destruct (@checkAndAwardAchievements_spec env user Hauth v)
      as (s' & v0 & v' & Hstats' & _ & Hrun').
    rewrite Hcat in Hrun'. destruct Hrun' as [-> _]. cbn [fst].
    rewrite Hstats' in Hv. cbn [fst] in Hv. inversion Hv; subst s'.
    unfold available_to. now rewrite Hsame.
Qed.

Section Points_written.
Variable env : Env.
Variable user : AuthUser.
Hypothesis signed_in : auth_user env = Some user.

(** What [awardPoints] leaves in the profile table when both of its own
    requests are accepted and the rewards of the pass that follows reach
    no row. *)
Lemma awardPoints_writes (profile : Profile.t) (d : Z) (recordingId : option string)
    (w : World) :
  faults env AwardProfileSelect = false ->
  faults env AwardProfileUpdate = false ->
  faults env ProgressProfileSelect = false ->
  single (filter (of_user user) (profiles w)) = Some profile ->
  unkeyed user w ->
  profiles (snd (awardPoints env d recordingId w))
  = update (of_user user)
      (Profile.set_points_level
         (Js.or_num (Profile.points profile) 0 + d)
         ((Js.or_num (Profile.points profile) 0 + d) / 100 + 1)
         (now_iso env))
      (profiles w).
Proof.
  intros Hsel Hupd Hprog Hprofile Hun.
  unfold awardPoints. unfold_m. rewrite signed_in, Hsel. world_simpl.
  rewrite Hprofile, Hupd. world_simpl.
  match goal with |- context [checkAndAwardAchievements env ?v] =>
    pose proof (@checkAndAwardAchievements_keeps_unkeyed env user signed_in
                  (Profile.set_points_level
                     (Js.or_num (Profile.points profile) 0 + d)
                     ((Js.or_num (Profile.points profile) 0 + d) / 100 + 1)
                     (now_iso env) profile) v Hprog) as Hkeep;
    destruct (checkAndAwardAchievements env v) as [[news|e] v'] eqn:Hrun
  end; world_simpl; cbn [snd] in Hkeep; apply Hkeep; world_simpl.
  all: try (rewrite filter_update by (intros r; reflexivity);
            now rewrite (single_filter _ _ Hprofile)).
  all: unfold unkeyed; world_simpl;
    apply filter_update_other; [intros r; reflexivity | exact Hun].
Qed.
End Points_written.

Lemma checkAndAwardAchievements_returns_due_witness :
  exists stats,
    fst (getStudentProgress Sample.env Sample.first_steps_world) = Ok stats
    /\ [Sample.first_steps]
       = filter (earned stats) (available_to Sample.ann Sample.first_steps_world)
    /\ (forall v,
          achievements v = achievements Sample.first_steps_world ->
          fst (getStudentProgress Sample.env v) = Ok stats ->
          fst (checkAndAwardAchievements Sample.env v) = Ok [Sample.first_steps]).
Proof.
  destruct (@checkAndAwardAchievements_returns_due Sample.env Sample.ann
              Sample.first_steps_world [Sample.first_steps] eq_refl eq_refl)
    as (stats & Hstats & Hnews & _ & Hagain).
  exists stats. repeat split; assumption.
Defined.

(** ** Awards add up *)

Lemma update_twice {Row : Type} (key : Row -> bool) (f g : Row -> Row) (table : list Row) :
  (forall r, key (f r) = key r) ->
  update key g (update key f table) = update key (fun r => g (f r)) table.
Proof.
  intros Hkey. unfold update. rewrite map_map. apply map_ext. intros r.
  destruct (key r) eqn:Hr; [now rewrite Hkey, Hr | now rewrite Hr].
Qed.

Lemma awardPoints_answers
    (env : Env) (user : AuthUser) (profile : Profile.t) (d : Z)
    (recordingId : option string) (w : World) :
  auth_user env = Some user ->
  faults env AwardProfileSelect = false ->
  faults env AchievementsSelect = false ->
  single (filter (of_user user) (profiles w)) = Some profile ->
  fst (awardPoints env d recordingId w)
  = Ok {| newPoints := Js.or_num (Profile.points profile) 0 + d;
          newLevel := (Js.or_num (Profile.points profile) 0 + d) / 100 + 1 |}.
Proof.
  intros Hauth Hsel Hcat Hprofile.
  unfold awardPoints. unfold_m. rewrite Hauth, Hsel. world_simpl. rewrite Hprofile.
  destruct (faults env AwardProfileUpdate); world_simpl; [reflexivity|].
  match goal with |- context [checkAndAwardAchievements env ?v] =>
    destruct (@checkAndAwardAchievements_spec env user Hauth v)
      as (s & v0 & v' & _ & _ & Hrun)
  end.
  rewrite Hcat in Hrun. destruct Hrun as [-> _]. reflexivity.
Qed.

(** Awarding [a] and then [b] leaves the profile table as one award of
    [a + b] does, and the second answer is the answer of the single award:
    points [P + a + b] at the level that total gives.  This is for a
    backend that accepts the requests and a profile table the evaluator's
    rewards do not reach. *)
Theorem awardPoints_adds_up
    (env : Env) (user : AuthUser) (profile : Profile.t) (a b : Z)
    (first second once : option string) (w : World) :
  auth_user env = Some user ->
  reliable env ->
  single (filter (of_user user) (profiles w)) = Some profile ->
  unkeyed user w ->
  let P := Js.or_num (Profile.points profile) 0 in
  let w1 := snd (awardPoints env a first w) in
  profiles (snd (awardPoints env b second w1))
    = profiles (snd (awardPoints env (a + b) once w))
  /\ fst (awardPoints env b second w1)
     = Ok {| newPoints := P + a + b; newLevel := (P + a + b) / 100 + 1 |}
  /\ fst (awardPoints env (a + b) once w)
     = Ok {| newPoints := P + (a + b); newLevel := (P + (a + b)) / 100 + 1 |}.
Proof.
  intros Hauth Hrel Hprofile Hun P w1.
  pose proof (@awardPoints_writes env user Hauth profile a first w
                (Hrel _) (Hrel _) (Hrel _) Hprofile Hun) as Hw1.
  fold P in Hw1. fold w1 in Hw1.
  set (mid := Profile.set_points_level (P + a) ((P + a) / 100 + 1) (now_iso env)) in *.
  assert (single (filter (of_user user) (profiles w1)) = Some (mid profile)) as Hprofile1.
  { rewrite Hw1, filter_update by (intros r; reflexivity).
    now rewrite (single_filter _ _ Hprofile). }
  assert (unkeyed user w1) as Hun1.
  { unfold unkeyed. rewrite Hw1.
    apply filter_update_other; [intros r; reflexivity | exact Hun]. }
  assert (Js.or_num (Profile.points (mid profile)) 0 = P + a) as Hmid
    by apply or_num_some.
  split; [|split].
  - rewrite (@awardPoints_writes env user Hauth (mid profile) b second w1
               (Hrel _) (Hrel _) (Hrel _) Hprofile1 Hun1).
    rewrite (@awardPoints_writes env user Hauth profile (a + b) once w
               (Hrel _) (Hrel _) (Hrel _) Hprofile Hun).
    rewrite Hmid, Hw1, update_twice by (intros r; reflexivity).
    fold P. replace (P + (a + b)) with (P + a + b) by lia. reflexivity.
  - rewrite (@awardPoints_answers env user (mid profile) b second w1
               Hauth (Hrel _) (Hrel _) Hprofile1).
    now rewrite Hmid.
  - apply (@awardPoints_answers env user profile (a + b) once w
             Hauth (Hrel _) (Hrel _) Hprofile).
Qed.

Lemma awardPoints_adds_up_witness :
  profiles (snd (awardPoints Sample.env 20 None
                   (snd (awardPoints Sample.env 10 None Sample.world))))
  = profiles (snd (awardPoints Sample.env (10 + 20) None Sample.world))
  /\ fst (awardPoints Sample.env 20 None
            (snd (awardPoints Sample.env 10 None Sample.world)))
     = Ok {| newPoints := 95 + 10 + 20; newLevel := (95 + 10 + 20) / 100 + 1 |}.
Proof.
  destruct (@awardPoints_adds_up Sample.env Sample.ann Sample.ann_profile 10 20
              None None None Sample.world
              eq_refl (fun _ => eq_refl) eq_refl eq_refl)
    as (Hrows & Hsecond & _).
  split; [exact Hrows | exact Hsecond].
Defined.

(** ** What a save shows *)

Section Adds.
Variable allowed : Event -> Prop.

Lemma adds_ret {A} (a : A) : adds allowed (ret a).
Proof. intros w. exists []. cbn. now rewrite app_nil_r. Qed.

Lemma adds_throw {A} (e : Exn) : adds allowed (@throw A e).
Proof. intros w. exists []. cbn. now rewrite app_nil_r. Qed.

Lemma adds_gets {A} (f : World -> A) : adds allowed (gets f).
Proof. intros w. exists []. cbn. now rewrite app_nil_r. Qed.

Lemma adds_modify (f : World -> World) :
  (forall w, trace (f w) = trace w) -> adds allowed (modify f).
Proof. intros H w. exists []. cbn. now rewrite H, app_nil_r. Qed.

Lemma adds_emit (e : Event) : allowed e -> adds allowed (emit e).
Proof. intros H w. exists [e]. cbn. auto. Qed.

Lemma adds_bind {A B} (c : M A) (k : A -> M B) :
  adds allowed c -> (forall a, adds allowed (k a)) -> adds allowed (bind c k).
Proof.
  intros Hc Hk w. unfold bind. destruct (Hc w) as (ev1 & Ht1 & Hp1).
  destruct (c w) as [[a|e] w1]; cbn [snd] in *; [|eauto].
  destruct (Hk a w1) as (ev2 & Ht2 & Hp2).
  exists (ev1 ++ ev2)%list. rewrite Ht2, Ht1, app_assoc.
  split; [reflexivity|]. apply Forall_app. auto.
Qed.

Lemma adds_try_catch {A} (c : M A) (h : Exn -> M A) :
  adds allowed c -> (forall e, adds allowed (h e)) -> adds allowed (try_catch c h).
Proof.
  intros Hc Hh w. unfold try_catch. destruct (Hc w) as (ev1 & Ht1 & Hp1).
  destruct (c w) as [[a|e] w1]; cbn [snd] in *; [eauto|].
  destruct (Hh e w1) as (ev2 & Ht2 & Hp2).
  exists (ev1 ++ ev2)%list. rewrite Ht2, Ht1, app_assoc.
  split; [reflexivity|]. apply Forall_app. auto.
Qed.
End Adds.

Lemma adds_weaken {A} (strict loose : Event -> Prop) (c : M A) :
  (forall e, strict e -> loose e) -> adds strict c -> adds loose c.
Proof.
  intros Himp Hc w. destruct (Hc w) as (events & Ht & Hp).
  exists events. split; [assumption|]. eapply Forall_impl; eauto.
Qed.

Ltac adds_step :=
  first
    [ apply adds_ret
    | apply adds_throw
    | apply adds_gets
    | apply adds_emit; reflexivity
    | apply adds_modify; intros ?; reflexivity
    | apply adds_bind; [|intros ?]
    | apply adds_try_catch; [|intros ?]
    | match goal with
      | |- adds _ (match ?x with _ => _ end) => destruct x
      end ].

Ltac adds_quiet :=
  unfold logged, select_single, select_count, request, getUser, fresh_uuid,
    console_error, screen;
  repeat adds_step.

Section Services_are_quiet.
Variable env : Env.

Lemma getStudentProgress_quiet : adds quiet (getStudentProgress env).
Proof. unfold getStudentProgress, progress_of. adds_quiet. Qed.

Lemma award_loop_quiet (user : AuthUser) (stats : Progress.t)
    (available : list Achievement.t) :
  forall acc, adds quiet (award_loop env user stats available acc).
Proof.
  induction available as [|a rest IH]; intros acc; cbn [award_loop].
  - apply adds_ret.
  - destruct (earned stats a); [|apply IH].
    apply adds_bind; [|intros _; apply IH].
    unfold award_achievement. adds_quiet.
Qed.

Lemma checkAndAwardAchievements_quiet : adds quiet (checkAndAwardAchievements env).
Proof.
  unfold checkAndAwardAchievements.
  apply adds_try_catch; [|intros e; adds_quiet].
  apply adds_bind; [adds_quiet|intros user].
  apply adds_bind; [apply getStudentProgress_quiet|intros stats].
  apply adds_bind; [adds_quiet|intros failed].
  destruct failed; [adds_quiet|].
  apply adds_bind; [adds_quiet|intros catalog].
  apply award_loop_quiet.
Qed.

Lemma awardPoints_quiet (d : Z) (recordingId : option string) :
  adds quiet (awardPoints env d recordingId).
Proof.
  unfold awardPoints.
  apply adds_try_catch; [|intros e; adds_quiet].
  apply adds_bind; [adds_quiet|intros user].
  apply adds_bind; [adds_quiet|intros [profile|]]; [|adds_quiet].
  apply adds_bind; [adds_quiet|intros failed].
  destruct failed; [adds_quiet|].
  apply adds_bind; [adds_quiet|intros _].
  apply adds_bind; [apply checkAndAwardAchievements_quiet|intros _].
  adds_quiet.
Qed.

Lemma updateStreak_quiet : adds quiet (updateStreak env).
Proof. unfold updateStreak. adds_quiet. Qed.

Lemma uploadAudioFile_quiet (file fileName : string) :
  adds quiet (uploadAudioFile env file fileName).
Proof. unfold uploadAudioFile, upload. adds_quiet. Qed.

Lemma saveAudioRecord_quiet (data : CreateAudioRecordData) :
  adds quiet (saveAudioRecord env data).
Proof. unfold saveAudioRecord. adds_quiet. Qed.

Lemma getUserAudioRecords_quiet : adds quiet (getUserAudioRecords env).
Proof. unfold getUserAudioRecords. adds_quiet. Qed.
End Services_are_quiet.

Lemma fails_quietly_of_adds {A} (c : M A) : adds quiet c -> fails_quietly c.
Proof.
  intros Hc w. destruct (Hc w) as (events & Ht & Hq). exists events. auto.
Qed.

Lemma fails_quietly_bind {A B} (c : M A) (k : A -> M B) :
  adds quiet c -> (forall a, fails_quietly (k a)) -> fails_quietly (bind c k).
Proof.
  intros Hc Hk w. unfold bind. destruct (Hc w) as (ev1 & Ht1 & Hq1).
  destruct (c w) as [[a|e] w1]; cbn [snd fst] in *; [|eauto].
  destruct (Hk a w1) as (ev2 & Ht2 & Hq2).
  exists (ev1 ++ ev2)%list. rewrite Ht2, Ht1, app_assoc.
  split; [reflexivity|]. intros e He. apply Forall_app. eauto.
Qed.

Lemma fails_quietly_never {A} (c : M A) :
  adds (fun _ => True) c -> never_throws c -> fails_quietly c.
Proof.
  intros Hc Hok w. destruct (Hc w) as (events & Ht & _). exists events.
  split; [assumption|]. intros e He. destruct (Hok w) as (a & Ha). congruence.
Qed.

Section Save_outcomes.
Variable env : Env.
Variable st : AudioRecorder.State.

(** The last three statements of the [try] block. *)
Lemma announce_never_throws (total bonus : Z) (n : nat) :
  never_throws
    (screen (AlertRecordingSavedSuccessfully total basePoints bonus n) ;;;
     discardRecording ;;;
     screen OnRecordingSaved).
Proof. intros w. exists tt. reflexivity. Qed.

Lemma save_fails_quietly (file : string) : fails_quietly (save env st file).
Proof.
  unfold save.
  apply fails_quietly_bind; [destruct (local_file env file); adds_quiet|intros size].
  apply fails_quietly_bind; [destruct (size =? 0); adds_quiet|intros _].
  apply fails_quietly_bind; [apply uploadAudioFile_quiet|intros filePath].
  apply fails_quietly_bind; [apply saveAudioRecord_quiet|intros savedRecord].
  apply fails_quietly_bind; [apply awardPoints_quiet|intros _].
  apply fails_quietly_bind; [apply updateStreak_quiet|intros _].
  apply fails_quietly_bind; [apply checkAndAwardAchievements_quiet|intros news].
  apply fails_quietly_bind; [apply getUserAudioRecords_quiet|intros _].
  apply fails_quietly_never; [|apply announce_never_throws].
  unfold discardRecording, screen. repeat adds_step; exact I.
Qed.

(** [save] never shows the alert of the [catch] block. *)
Lemma save_adds (file : string) :
  adds (fun e => forall n, e <> Screen (AlertRecordingSaved n)) (save env st file).
Proof.
  assert (forall A (c : M A), adds quiet c ->
            adds (fun e => forall n, e <> Screen (AlertRecordingSaved n)) c) as Hq.
  { intros A c. apply adds_weaken. intros e He n ->. discriminate. }
  unfold save.
  apply adds_bind; [apply Hq; destruct (local_file env file); adds_quiet|intros size].
  apply adds_bind; [apply Hq; destruct (size =? 0); adds_quiet|intros _].
  apply adds_bind; [apply Hq, uploadAudioFile_quiet|intros filePath].
  apply adds_bind; [apply Hq, saveAudioRecord_quiet|intros savedRecord].
  apply adds_bind; [apply Hq, awardPoints_quiet|intros _].
  apply adds_bind; [apply Hq, updateStreak_quiet|intros _].
  apply adds_bind; [apply Hq, checkAndAwardAchievements_quiet|intros news].
  apply adds_bind; [apply Hq, getUserAudioRecords_quiet|intros _].
  unfold discardRecording, screen.
  repeat (apply adds_bind; [|intros ?]); apply adds_emit; intros n; discriminate.
Qed.
End Save_outcomes.

(** Whatever fails inside [validateAndSave] after the two validity checks
    (the local file, the upload, the insert, a gamification call, the
    listing) ends the call in the [ReferenceError] of the [catch] block:
    the "Recording Saved!" alert of that block is never shown, and a run
    that does not end well shows no alert at all. *)
Theorem validateAndSave_failure_is_silent
    (env : Env) (st : AudioRecorder.State) (w : World) :
  exists events,
    trace (snd (validateAndSave env st w)) = (trace w ++ events)%list
    /\ Forall (fun e => forall n, e <> Screen (AlertRecordingSaved n)) events
    /\ (fst (validateAndSave env st w) = Ok tt
        \/ fst (validateAndSave env st w) = Throw (ReferenceError "totalPoints")
           /\ Forall quiet events).
Proof.
  unfold validateAndSave.
  destruct (negb (Js.truthy (Js.trim (title st)))).
  { exists [Screen (SetTitleError "Title is required")]. cbn.
    split; [reflexivity|]. split; [|now left].
    constructor; [intros n; discriminate|constructor]. }
  destruct (uri (recordingState st)) as [file|].
  2:{ exists []. cbn. rewrite app_nil_r. auto. }
  destruct (negb (Js.truthy file)).
  { exists []. cbn. rewrite app_nil_r. auto. }
  erewrite bind_ok by reflexivity. erewrite bind_ok by reflexivity.
  unfold try_finally, try_catch.
  match goal with |- context [save env st file ?w0] => set (v := w0) end.
  destruct (save_fails_quietly env st file v) as (ev1 & Ht1 & Hq1).
  destruct (save_adds env st file v) as (ev2 & Ht2 & Ha2).
  assert (ev2 = ev1) as -> by (rewrite Ht1 in Ht2; now apply app_inv_head in Ht2).
  destruct (save env st file v) as [[[]|e] v1]; cbn [fst snd] in *.
  - exists ([Screen (SetTitleError ""); Screen (SetIsSaving true)] ++ ev1
            ++ [Screen (SetIsSaving false)])%list.
    cbn [screen emit modify snd fst with_trace trace]. rewrite Ht1.
    subst v. cbn [trace with_trace screen emit modify snd].
    split; [now rewrite <- !app_assoc|]. split; [|now left].
    constructor; [intros n; discriminate|]. constructor; [intros n; discriminate|].
    apply Forall_app. split; [assumption|].
    constructor; [intros n; discriminate|constructor].
  - exists ([Screen (SetTitleError ""); Screen (SetIsSaving true)] ++ ev1
            ++ [ConsoleError "Save recording error"; ConsoleError "Full error object";
                Screen (SetIsSaving false)])%list.
    unfold save_failed, undeclared. unfold_m.
    cbn [snd fst with_trace trace]. rewrite Ht1.
    subst v. cbn [trace with_trace snd].
    split; [now rewrite <- !app_assoc|].
    split.
    + constructor; [intros n; discriminate|]. constructor; [intros n; discriminate|].
      apply Forall_app. split; [assumption|].
      repeat (constructor; [intros n; discriminate|]). constructor.
    + right. split; [reflexivity|].
      constructor; [reflexivity|]. constructor; [reflexivity|].
      apply Forall_app. split; [now apply (Hq1 e)|].
      repeat (constructor; [reflexivity|]). constructor.
Qed.

(** ** A save from end to end *)

Section Ledger_frame.
Variable env : Env.

Lemma getStudentProgress_keeps_ledger : keeps reading_streaks (getStudentProgress env).
Proof. unfold getStudentProgress, progress_of. frame. Qed.

Lemma award_loop_keeps_ledger (user : AuthUser) (stats : Progress.t)
    (available : list Achievement.t) :
  forall acc, keeps reading_streaks (award_loop env user stats available acc).
Proof.
  induction available as [|a rest IH]; intros acc; cbn [award_loop].
  - apply keeps_ret.
  - destruct (earned stats a); [|apply IH].
    apply keeps_bind; [|intros _; apply IH].
    unfold award_achievement. frame.
Qed.

Lemma checkAndAwardAchievements_keeps_ledger :
  keeps reading_streaks (checkAndAwardAchievements env).
Proof.
  unfold checkAndAwardAchievements.
  apply keeps_try_catch; [|intros e; frame].
  apply keeps_bind; [frame|intros user].
  apply keeps_bind; [apply getStudentProgress_keeps_ledger|intros stats].
  apply keeps_bind; [frame|intros failed].
  destruct failed; [frame|].
  apply keeps_bind; [frame|intros catalog].
  apply award_loop_keeps_ledger.
Qed.

Lemma awardPoints_keeps_ledger (d : Z) (recordingId : option string) :
  keeps reading_streaks (awardPoints env d recordingId).
Proof.
  unfold awardPoints.
  apply keeps_try_catch; [|intros e; frame].
  apply keeps_bind; [frame|intros user].
  apply keeps_bind; [frame|intros [profile|]]; [|frame].
  apply keeps_bind; [frame|intros failed].
  destruct failed; [frame|].
  apply keeps_bind; [frame|intros _].
  apply keeps_bind; [apply checkAndAwardAchievements_keeps_ledger|intros _].
  frame.
Qed.

Lemma uploadAudioFile_keeps_standing (file fileName : string) :
  keeps standing (uploadAudioFile env file fileName).
Proof. unfold uploadAudioFile, upload. frame. Qed.

Lemma saveAudioRecord_keeps_standing (data : CreateAudioRecordData) :
  keeps standing (saveAudioRecord env data).
Proof. unfold saveAudioRecord. frame. Qed.

Lemma getUserAudioRecords_keeps_standing : keeps standing (getUserAudioRecords env).
Proof. unfold getUserAudioRecords. frame. Qed.
End Ledger_frame.

Lemma standing_parts (w w' : World) :
  standing w' = standing w ->
  profiles w' = profiles w /\ reading_streaks w' = reading_streaks w.
Proof. unfold standing. intros H. now inversion H. Qed.

Lemma getUserAudioRecords_lists (env : Env) (w : World) :
  faults env AudioSelectAll = false ->
  getUserAudioRecords env w
  = (Ok (newest_first (audio_records w)),
     with_trace (fun t => (t ++ [Request AudioSelectAll])%list) w).
Proof. intros H. unfold getUserAudioRecords. unfold_m. now rewrite H. Qed.

(** A titled, non-empty recording saved by a reader with a profile, on a
    day without a ledger row and with a backend that answers: the call
    ends well, the profile has the recording's points added and its level
    recomputed from the sum, the streak is one longer, the ledger has the
    day's row, and the last events are the success alert with those
    points, the reset of the form, the callback and the end of the saving
    state. *)
Theorem validateAndSave_saves_and_rewards
    (env : Env) (user : AuthUser) (profile : Profile.t) (st : AudioRecorder.State)
    (file : string) (size : Z) (w : World) :
  auth_user env = Some user ->
  reliable env ->
  Js.truthy (Js.trim (title st)) = true ->
  uri (recordingState st) = Some file ->
  Js.truthy file = true ->
  local_file env file = Some size ->
  size <> 0 ->
  existsb (stored_at (uid user ++ "/" ++ "recording-" ++ dashes (now_iso env) ++ ".m4a"))
          (audio_files w) = false ->
  single (filter (of_user user) (profiles w)) = Some profile ->
  unkeyed user w ->
  filter (on_day user (today_of env)) (reading_streaks w) = [] ->
  let total := totalPoints (duration (recordingState st)) in
  let P := Js.or_num (Profile.points profile) 0 in
  let w' := snd (validateAndSave env st w) in
  fst (validateAndSave env st w) = Ok tt
  /\ (exists after,
        single (filter (of_user user) (profiles w')) = Some after
        /\ Profile.points after = Some (P + total)
        /\ Profile.level after = Some ((P + total) / 100 + 1)
        /\ streak_of after = streak_of profile + 1
        /\ Profile.last_activity after = Some (today_of env))
  /\ (exists entry,
        reading_streaks w' = (reading_streaks w ++ [entry])%list
        /\ on_day user (today_of env) entry = true
        /\ Streak.recordings_count entry = 1)
  /\ (exists before n,
        trace w'
        = (before
           ++ [Screen (AlertRecordingSavedSuccessfully total basePoints
                         (durationBonus (duration (recordingState st))) n);
               Screen ResetRecordingState; Screen (SetTitle "");
               Screen (SetDescription ""); Screen (SetTitleError "");
               Screen OnRecordingSaved; Screen (SetIsSaving false)])%list).
Proof.
  intros Hauth Hrel Htitle Huri Hfile Hlocal Hsize Hfree Hprofile Hun Hday total P w'.
  unfold w', validateAndSave. rewrite Htitle, Huri, Hfile. cbn [negb].
  erewrite bind_ok by reflexivity. erewrite bind_ok by reflexivity.
  unfold try_finally, try_catch, save. rewrite Hlocal.
  erewrite bind_ok by reflexivity.
  destruct (Z.eqb_spec size 0) as [|_]; [contradiction|].
  erewrite bind_ok by reflexivity.
  match goal with |- context [bind (uploadAudioFile env file ?name) _ ?v] =>
    destruct (@uploadAudioFile_stores env user Hauth file name size v
                Hlocal Hsize (Hrel _) Hfree) as (w1 & Hup & _);
    pose proof (uploadAudioFile_keeps_standing env file name v) as Hst1
  end.
  rewrite Hup in Hst1. cbn [snd] in Hst1. apply standing_parts in Hst1 as [Hp1 Hl1].
  world_simpl.
  erewrite bind_ok by exact Hup. cbv beta.
  match goal with |- context [bind (saveAudioRecord env ?data) _ w1] =>
    destruct (@saveAudioRecord_stores env user Hauth data w1 (Hrel _))
      as (record & w2 & Hsave & _);
    pose proof (saveAudioRecord_keeps_standing env data w1) as Hst2
  end.
  rewrite Hsave in Hst2. cbn [snd] in Hst2. apply standing_parts in Hst2 as [Hp2 Hl2].
  erewrite bind_ok by exact Hsave. cbv beta.
  assert (single (filter (of_user user) (profiles w2)) = Some profile) as Hprofile2
    by now rewrite Hp2, Hp1.
  assert (unkeyed user w2) as Hun2 by (unfold unkeyed; now rewrite Hp2, Hp1).
  set (rid := Some (AudioRecord.id record)).
  pose proof (@awardPoints_answers env user profile total rid w2
                Hauth (Hrel _) (Hrel _) Hprofile2) as Hres3.
  pose proof (@awardPoints_writes env user Hauth profile total rid w2
                (Hrel _) (Hrel _) (Hrel _) Hprofile2 Hun2) as Hp3.
  pose proof (awardPoints_keeps_ledger env total rid w2) as Hl3.
  fold P in Hres3, Hp3.
  set (mid := Profile.set_points_level (P + total) ((P + total) / 100 + 1) (now_iso env)) in *.
  destruct (awardPoints env total rid w2) as [r3 w3] eqn:Hrun3.
  cbn [fst snd] in Hres3, Hp3, Hl3. subst r3.
  erewrite bind_ok by exact Hrun3.
  assert (single (filter (of_user user) (profiles w3)) = Some (mid profile)) as Hprofile3.
  { rewrite Hp3, filter_update by (intros r; reflexivity).
    now rewrite (single_filter _ _ Hprofile2). }
  assert (unkeyed user w3) as Hun3.
  { unfold unkeyed. rewrite Hp3.
    apply filter_update_other; [intros r; reflexivity | exact Hun2]. }
  destruct (@updateStreak_first_of_day env user Hauth (mid profile) w3)
    as (w4 & Hrun4 & Hl4 & Hp4 & Hmine4); auto.
  { right. now rewrite Hl3, Hl2, Hl1, Hday. }
  erewrite bind_ok by exact Hrun4.
  assert (unkeyed user w4) as Hun4.
  { unfold unkeyed. rewrite Hp4.
    apply filter_update_other; [intros r; reflexivity | exact Hun3]. }
  destruct (@checkAndAwardAchievements_spec env user Hauth w4)
    as (s5 & v5 & w5 & _ & _ & Hrun5).
  rewrite (Hrel AchievementsSelect) in Hrun5. destruct Hrun5 as [Hrun5 _].
  pose proof (@checkAndAwardAchievements_keeps_unkeyed env user Hauth
                (counted env (mid profile)) w4 (Hrel _) Hmine4 Hun4) as Hp5.
  pose proof (checkAndAwardAchievements_keeps_ledger env w4) as Hl5.
  rewrite Hrun5 in Hp5, Hl5. cbn [snd] in Hp5, Hl5.
  erewrite bind_ok by exact Hrun5.
  erewrite bind_ok by (apply getUserAudioRecords_lists, Hrel).
  unfold discardRecording, screen, emit, modify, bind, ret.
  cbn [fst snd].
  cbn [profiles reading_streaks trace with_trace].
  split; [reflexivity|]. split; [|split].
  - exists (counted env (mid profile)). rewrite Hp5.
    split; [exact Hmine4|].
    destruct (counted_streak env (mid profile)) as (Hs & _ & Ha).
    repeat split; auto.
  - exists (first_entry env user w3). rewrite Hl5, Hl4, Hl3, Hl2, Hl1.
    split; [reflexivity|]. split; [|reflexivity].
    unfold on_day, first_entry. cbn [Streak.student_id Streak.streak_date].
    now rewrite !String.eqb_refl.
  - exists (trace w5 ++ [Request AudioSelectAll])%list.
    exists (List.length (filter (earned s5) (available_to user w4))).
    now rewrite <- !app_assoc.
Qed.

Lemma validateAndSave_saves_and_rewards_witness :
  fst (validateAndSave Sample.env Sample.capture Sample.world) = Ok tt
  /\ exists after,
       single (filter (of_user Sample.ann)
                 (profiles (snd (validateAndSave Sample.env Sample.capture Sample.world))))
         = Some after
       /\ Profile.points after = Some (95 + totalPoints 90)
       /\ streak_of after = 2 + 1.
Proof.
  destruct (@validateAndSave_saves_and_rewards Sample.env Sample.ann Sample.ann_profile
              Sample.capture "file:///rec.m4a" 1234 Sample.world
              eq_refl (fun _ => eq_refl) eq_refl eq_refl eq_refl eq_refl
              ltac:(discriminate) eq_refl eq_refl eq_refl eq_refl)
    as (Hok & (after & Hmine & Hpoints & _ & Hstreak & _) & _).
  split; [exact Hok|]. exists after. repeat split; assumption.
Defined.

(** ** Uploads *)

(** An upload never replaces or removes a stored object: the bucket either
    stays as it is, and then the call has thrown, or gains one object with
    the size of the local file under [uid/fileName], a path that was free,
    and then the call answers that path. *)
Theorem uploadAudioFile_never_replaces
    (env : Env) (file fileName : string) (w : World) :
  (exists e,
      fst (uploadAudioFile env file fileName w) = Throw e
      /\ audio_files (snd (uploadAudioFile env file fileName w)) = audio_files w)
  \/ (exists user size,
        auth_user env = Some user
        /\ local_file env file = Some size
        /\ existsb (stored_at (uid user ++ "/" ++ fileName)) (audio_files w) = false
        /\ fst (uploadAudioFile env file fileName w) = Ok (uid user ++ "/" ++ fileName)
        /\ audio_files (snd (uploadAudioFile env file fileName w))
           = (audio_files w ++ [((uid user ++ "/" ++ fileName)%string, size)])%list).
Proof.
  unfold uploadAudioFile, upload. unfold_m.
  destruct (auth_user env) as [user|] eqn:Hauth; world_simpl; [|left; eauto].
  destruct (local_file env file) as [size|] eqn:Hlocal;
    destruct (is_mobile (platform env)); world_simpl; try (left; eauto; fail).
  - destruct (faults env StorageUpload); cbn [orb]; world_simpl; [left; eauto|].
    destruct (existsb (stored_at (uid user ++ "/" ++ fileName)) (audio_files w)) eqn:Hfree;
      world_simpl; [left; eauto|].
    right. exists user, size. auto.
  - destruct (size =? 0); world_simpl; [left; eauto|].
    destruct (faults env StorageUpload); cbn [orb]; world_simpl; [left; eauto|].
    destruct (existsb (stored_at (uid user ++ "/" ++ fileName)) (audio_files w)) eqn:Hfree;
      world_simpl; [left; eauto|].
    right. exists user, size. auto.
Qed.

(** An empty local file is treated differently by platform: on the web
    the upload is refused before any request, on iOS and Android the
    empty object is stored. *)
Theorem uploadAudioFile_empty_file
    (env : Env) (user : AuthUser) (file fileName : string) (w : World) :
  auth_user env = Some user ->
  local_file env file = Some 0 ->
  faults env StorageUpload = false ->
  existsb (stored_at (uid user ++ "/" ++ fileName)) (audio_files w) = false ->
  (platform env = web ->
   uploadAudioFile env file fileName w
   = (Throw (Error "Audio file is empty"),
      with_trace (fun t => (t ++ [ConsoleError "Upload audio file error"])%list) w))
  /\ (platform env <> web ->
      fst (uploadAudioFile env file fileName w) = Ok (uid user ++ "/" ++ fileName)
      /\ audio_files (snd (uploadAudioFile env file fileName w))
         = (audio_files w ++ [((uid user ++ "/" ++ fileName)%string, 0)])%list).
Proof.
  intros Hauth Hlocal Hup Hfree.
  unfold uploadAudioFile, upload. unfold_m. rewrite Hauth, Hlocal.
  split; intros Hplatform.
  - rewrite Hplatform. reflexivity.
  - destruct (platform env); [| |contradiction]; cbn [is_mobile]; world_simpl;
      rewrite Hup, Hfree; auto.
Qed.

(** ** Storing and deleting a recording *)

Lemma delete_misses {Row : Type} (key : Row -> bool) (table : list Row) :
  (forall r, In r table -> key r = false) -> delete key table = table.
Proof.
  unfold delete. induction table as [|r rest IH]; cbn; intros H; [reflexivity|].
  rewrite (H r) by now left. cbn. f_equal. apply IH. intros x Hx. apply H. now right.
Qed.

Lemma delete_last {Row : Type} (key : Row -> bool) (table : list Row) (r : Row) :
  (forall x, In x table -> key x = false) ->
  key r = true ->
  delete key (table ++ [r]) = table.
Proof.
  intros Hold Hr. unfold delete. rewrite filter_app. cbn. rewrite Hr. cbn.
  rewrite app_nil_r. now apply delete_misses.
Qed.

(** Uploading a file, saving its record and deleting that record again
    brings the bucket and the table back to where they were, provided the
    row id the store hands out is not already in use. *)
Theorem upload_save_delete_round_trip
    (env later : Env) (user : AuthUser) (file fileName : string) (size : Z)
    (data : CreateAudioRecordData) (w : World) :
  auth_user env = Some user ->
  local_file env file = Some size ->
  size <> 0 ->
  faults env StorageUpload = false ->
  faults env AudioInsert = false ->
  faults later StorageRemove = false ->
  faults later AudioDelete = false ->
  existsb (stored_at (uid user ++ "/" ++ fileName)) (audio_files w) = false ->
  ~ In (uuid_of (next_uuid w)) (map AudioRecord.id (audio_records w)) ->
  data_file_path data = uid user ++ "/" ++ fileName ->
  exists record w1 w2 w3,
    uploadAudioFile env file fileName w = (Ok (data_file_path data), w1)
    /\ saveAudioRecord env data w1 = (Ok record, w2)
    /\ In record (audio_records w2)
    /\ deleteAudioRecord later (AudioRecord.id record) (AudioRecord.file_path record) w2
       = (Ok tt, w3)
    /\ audio_records w3 = audio_records w
    /\ audio_files w3 = audio_files w.
Proof.
  intros Hauth Hlocal Hsize Hup Hins Hrm Hdel Hfree Hfresh Hpath.
  assert (exists w1,
             uploadAudioFile env file fileName w = (Ok (uid user ++ "/" ++ fileName), w1)
             /\ audio_records w1 = audio_records w
             /\ audio_files w1
                = (audio_files w ++ [((uid user ++ "/" ++ fileName)%string, size)])%list
             /\ next_uuid w1 = next_uuid w) as (w1 & Hrun1 & Hrec1 & Hfiles1 & Hid1).
  { unfold uploadAudioFile, upload. unfold_m. rewrite Hauth, Hlocal.
    destruct (is_mobile (platform env)); world_simpl.
    - rewrite Hup, Hfree. cbn [orb]. eexists. split; [reflexivity|]. world_simpl. auto.
    - destruct (Z.eqb_spec size 0) as [|_]; [contradiction|]. world_simpl.
      rewrite Hup, Hfree. cbn [orb]. eexists. split; [reflexivity|]. world_simpl. auto. }
  assert (exists record w2,
             saveAudioRecord env data w1 = (Ok record, w2)
             /\ audio_records w2 = (audio_records w1 ++ [record])%list
             /\ audio_files w2 = audio_files w1
             /\ AudioRecord.id record = uuid_of (next_uuid w1)
             /\ AudioRecord.file_path record = data_file_path data)
    as (record & w2 & Hrun2 & Hrec2 & Hfiles2 & Hid2 & Hpath2).
  { unfold saveAudioRecord. unfold_m. rewrite Hauth, Hins. world_simpl.
    eexists. eexists. split; [reflexivity|]. world_simpl. auto. }
  exists record, w1, w2.
  eexists. rewrite Hpath. split; [exact Hrun1|]. split; [exact Hrun2|].
  split; [rewrite Hrec2; apply in_or_app; right; now left|].
  unfold deleteAudioRecord. unfold_m. rewrite Hrm, Hdel. world_simpl.
  split; [reflexivity|]. world_simpl. split.
  - rewrite Hrec2, Hrec1. apply delete_last.
    + intros x Hx. unfold record_has_id. apply String.eqb_neq. intros Heq.
      apply Hfresh. rewrite <- Hid1, <- Hid2, <- Heq. now apply in_map.
    + apply String.eqb_refl.
  - rewrite Hfiles2, Hfiles1, Hpath2, Hpath. apply delete_last.
    + intros x Hx. destruct (stored_at (uid user ++ "/" ++ fileName) x) eqn:Hst;
        [|reflexivity].
      assert (existsb (stored_at (uid user ++ "/" ++ fileName)) (audio_files w) = true)
        by (apply existsb_exists; eauto).
      congruence.
    + unfold stored_at. cbn [fst]. apply String.eqb_refl.
Qed.

Lemma uploadAudioFile_empty_file_witness :
  uploadAudioFile Sample.nothing_captured "file:///rec.m4a" "take.m4a" Sample.world
  = (Throw (Error "Audio file is empty"),
     with_trace (fun t => (t ++ [ConsoleError "Upload audio file error"])%list)
       Sample.world).
Proof.
  exact (proj1 (@uploadAudioFile_empty_file Sample.nothing_captured Sample.ann
                  "file:///rec.m4a" "take.m4a" Sample.world
                  eq_refl eq_refl eq_refl eq_refl) eq_refl).
Defined.

Lemma upload_save_delete_round_trip_witness :
  exists record w1 w2 w3,
    uploadAudioFile Sample.env "file:///rec.m4a" "take.m4a" Sample.world
      = (Ok "u1/take.m4a", w1)
    /\ saveAudioRecord Sample.env Sample.take w1 = (Ok record, w2)
    /\ deleteAudioRecord Sample.evening (AudioRecord.id record)
         (AudioRecord.file_path record) w2
       = (Ok tt, w3)
    /\ audio_records w3 = [Sample.chapter]
    /\ audio_files w3 = [("u1/recording-1.m4a", 1234)].
Proof.
  destruct (@upload_save_delete_round_trip Sample.env Sample.evening Sample.ann
              "file:///rec.m4a" "take.m4a" 1234 Sample.take Sample.world
              eq_refl eq_refl ltac:(discriminate) eq_refl eq_refl eq_refl eq_refl eq_refl
              ltac:(intros [H|[]]; discriminate H) eq_refl)
    as (record & w1 & w2 & w3 & Hup & Hsave & _ & Hdel & Hrows & Hfiles).
  exists record, w1, w2, w3. repeat split; assumption.
Defined.

(** ** Assignments and their recordings *)

(** An assignment id that names no row, or more than one, makes both
    calls throw after their first request: no status is written and the
    recording is neither linked nor rated. *)
Theorem assignment_calls_need_one_row
    (env : Env) (assignmentId recordingId : string) (rating : Z)
    (feedback quality : option string) (w : World) :
  single (filter (assignment_has_id assignmentId) (reading_assignments w)) = None ->
  completeAssignment env assignmentId recordingId w
    = (Throw (SupabaseError AssignmentComplete),
       with_trace (fun t => (t ++ [Request AssignmentComplete;
                                   ConsoleError "Complete assignment error"])%list) w)
  /\ reviewAssignment env assignmentId rating feedback quality w
     = (Throw (SupabaseError AssignmentReview),
        with_trace (fun t => (t ++ [Request AssignmentReview;
                                    ConsoleError "Review assignment error"])%list) w).
Proof.
  intros Hnone. unfold completeAssignment, reviewAssignment, set_status. unfold_m.
  world_simpl. rewrite Hnone.
  destruct (faults env AssignmentComplete), (faults env AssignmentReview);
    unfold with_trace; cbn; rewrite <- !app_assoc; auto.
Qed.

Section Review.
Variable env : Env.

(** What [reviewAssignment] does to the recordings once the status is
    written: the one linked recording gets the rating, and when there is
    not exactly one nothing is rated. *)
Lemma reviewAssignment_rates (assignmentId : string) (rating : Z)
    (feedback quality : option string) (row : Assignment.t) (w : World) :
  faults env AssignmentReview = false ->
  faults env AssignmentRecordingSelect = false ->
  faults env AssignmentRecordingUpdate = false ->
  single (filter (assignment_has_id assignmentId) (reading_assignments w)) = Some row ->
  fst (reviewAssignment env assignmentId rating feedback quality w)
    = Ok (Assignment.set_status reviewed (now_iso env) row)
  /\ audio_records (snd (reviewAssignment env assignmentId rating feedback quality w))
     = match single (filter (linked_to assignmentId) (audio_records w)) with
       | Some recording =>
           update (record_has_id (AudioRecord.id recording))
             (AudioRecord.set_review rating feedback quality) (audio_records w)
       | None => audio_records w
       end.
Proof.
  intros Hr Hsel Hupd Hrow.
  destruct (@set_status_overwrites env AssignmentReview assignmentId reviewed row w Hr Hrow)
    as (w1 & Hrun & _ & Haudio).
  unfold reviewAssignment, logged, try_catch.
  erewrite bind_ok by exact Hrun.
  unfold select_single, request, emit. unfold_m. world_simpl.
  rewrite Hsel, Haudio.
  destruct (single (filter (linked_to assignmentId) (audio_records w))); world_simpl;
    [rewrite Hupd|]; world_simpl; rewrite ?Haudio; auto.
Qed.
End Review.


Section Complete.
Variable env : Env.

Lemma completeAssignment_links (assignmentId recordingId : string)
    (row : Assignment.t) (w : World) :
  faults env AssignmentComplete = false ->
  faults env AssignmentLink = false ->
  single (filter (assignment_has_id assignmentId) (reading_assignments w)) = Some row ->
  let w1 := snd (completeAssignment env assignmentId recordingId w) in
  audio_records w1
    = update (record_has_id recordingId) (AudioRecord.set_assignment assignmentId)
        (audio_records w)
  /\ single (filter (assignment_has_id assignmentId) (reading_assignments w1))
     = Some (Assignment.set_status completed (now_iso env) row).
Proof.
  intros Hc Hl Hrow w1.
  destruct (@set_status_overwrites env AssignmentComplete assignmentId completed row w
              Hc Hrow) as (v & Hrun & Hrow1 & Haudio1).
  unfold w1, completeAssignment, logged, try_catch.
  erewrite bind_ok by exact Hrun.
  unfold request, emit. unfold_m. rewrite Hl. world_simpl. now rewrite Haudio1.
Qed.
End Complete.

Lemma in_update {Row : Type} (key : Row -> bool) (f : Row -> Row) (table : list Row)
    (r : Row) :
  In r table -> In (if key r then f r else r) (update key f table).
Proof. intros H. unfold update. now apply (in_map (fun x => if key x then f x else x)). Qed.

Lemma at_least_two {Row : Type} (x y : Row) (table : list Row) :
  In x table -> In y table -> x <> y -> exists a b rest, table = a :: b :: rest.
Proof.
  destruct table as [|a [|b rest]]; cbn; intros Hx Hy Hne; [contradiction| |eauto].
  destruct Hx as [<-|[]], Hy as [<-|[]]. contradiction.
Qed.

(** Completing one assignment with two different recordings links both,
    and a review then rates neither: the look-up of the linked recording
    wants exactly one row. *)
Theorem two_recordings_are_never_rated
    (env : Env) (assignmentId firstId secondId : string) (rating : Z)
    (feedback quality : option string) (row : Assignment.t)
    (one two : AudioRecord.t) (w : World) :
  reliable env ->
  single (filter (assignment_has_id assignmentId) (reading_assignments w)) = Some row ->
  single (filter (record_has_id firstId) (audio_records w)) = Some one ->
  single (filter (record_has_id secondId) (audio_records w)) = Some two ->
  firstId <> secondId ->
  let w1 := snd (completeAssignment env assignmentId firstId w) in
  let w2 := snd (completeAssignment env assignmentId secondId w1) in
  let w3 := snd (reviewAssignment env assignmentId rating feedback quality w2) in
  (exists done,
      fst (reviewAssignment env assignmentId rating feedback quality w2) = Ok done
      /\ Assignment.status done = reviewed)
  /\ audio_records w3 = audio_records w2
  /\ (exists a b rest,
        filter (linked_to assignmentId) (audio_records w2) = a :: b :: rest).
Proof.
  intros Hrel Hrow Hone Htwo Hne w1 w2 w3.
  destruct (@completeAssignment_links env assignmentId firstId row w
              (Hrel _) (Hrel _) Hrow) as [Haudio1 Hrow1].
  fold w1 in Haudio1, Hrow1.
  destruct (@completeAssignment_links env assignmentId secondId _ w1
              (Hrel _) (Hrel _) Hrow1) as [Haudio2 Hrow2].
  fold w2 in Haudio2, Hrow2.
  assert (In one (audio_records w) /\ record_has_id firstId one = true) as [Hin1 Hid1].
  { apply filter_In. rewrite (single_filter _ _ Hone). now left. }
  assert (In two (audio_records w) /\ record_has_id secondId two = true) as [Hin2 Hid2].
  { apply filter_In. rewrite (single_filter _ _ Htwo). now left. }
  unfold record_has_id in Hid1, Hid2. apply String.eqb_eq in Hid1, Hid2.
  assert (In (AudioRecord.set_assignment assignmentId one) (audio_records w2)) as Hx.
  { pose proof (in_update (record_has_id firstId)
                  (AudioRecord.set_assignment assignmentId) _ _ Hin1) as H1.
    rewrite <- Haudio1 in H1. unfold record_has_id in H1 at 1.
    rewrite Hid1, String.eqb_refl in H1.
    pose proof (in_update (record_has_id secondId)
                  (AudioRecord.set_assignment assignmentId) _ _ H1) as H2.
    rewrite <- Haudio2 in H2. unfold record_has_id in H2 at 1.
    cbn [AudioRecord.set_assignment AudioRecord.id] in H2. rewrite Hid1 in H2.
    destruct (String.eqb_spec firstId secondId); [contradiction|]. exact H2. }
  assert (In (AudioRecord.set_assignment assignmentId two) (audio_records w2)) as Hy.
  { pose proof (in_update (record_has_id firstId)
                  (AudioRecord.set_assignment assignmentId) _ _ Hin2) as H1.
    rewrite <- Haudio1 in H1. unfold record_has_id in H1 at 1. rewrite Hid2 in H1.
    destruct (String.eqb_spec secondId firstId); [congruence|].
    pose proof (in_update (record_has_id secondId)
                  (AudioRecord.set_assignment assignmentId) _ _ H1) as H2.
    rewrite <- Haudio2 in H2. unfold record_has_id in H2 at 1.
    now rewrite Hid2, String.eqb_refl in H2. }
  assert (exists a b rest,
             filter (linked_to assignmentId) (audio_records w2) = a :: b :: rest)
    as (a & b & rest & Hlinked).
  { apply at_least_two with (x := AudioRecord.set_assignment assignmentId one)
                            (y := AudioRecord.set_assignment assignmentId two).
    - apply filter_In. split; [exact Hx|].
      unfold linked_to. cbn. apply String.eqb_refl.
    - apply filter_In. split; [exact Hy|].
      unfold linked_to. cbn. apply String.eqb_refl.
    - intros Heq. apply (f_equal AudioRecord.id) in Heq. cbn in Heq. congruence. }
  destruct (@reviewAssignment_rates env assignmentId rating feedback quality _ w2
              (Hrel _) (Hrel _) (Hrel _) Hrow2) as [Hres Hrated].
  split; [|split].
  - eexists. split; [exact Hres|reflexivity].
  - unfold w3. rewrite Hrated, Hlinked. reflexivity.
  - eauto.
Qed.

Lemma assignment_calls_need_one_row_witness :
  fst (completeAssignment Sample.env "h9" "r1" Sample.world)
    = Throw (SupabaseError AssignmentComplete)
  /\ fst (reviewAssignment Sample.env "h9" 5 None None Sample.world)
     = Throw (SupabaseError AssignmentReview).
Proof.
  destruct (@assignment_calls_need_one_row Sample.env "h9" "r1" 5 None None
              Sample.world eq_refl) as [Hc Hr].
  rewrite Hc, Hr. split; reflexivity.
Defined.


Lemma two_recordings_are_never_rated_witness :
  audio_records
    (snd (reviewAssignment Sample.env "h1" 5 None None
            (snd (completeAssignment Sample.env "h1" "r2"
                    (snd (completeAssignment Sample.env "h1" "r1" Sample.two_chapters))))))
  = audio_records
      (snd (completeAssignment Sample.env "h1" "r2"
              (snd (completeAssignment Sample.env "h1" "r1" Sample.two_chapters)))).
Proof.
  exact (proj1 (proj2
    (@two_recordings_are_never_rated Sample.env "h1" "r1" "r2" 5 None None
       (Sample.homework pending) Sample.chapter Sample.chapter_two Sample.two_chapters
       (fun _ => eq_refl) eq_refl eq_refl eq_refl ltac:(discriminate)))).
Defined.

(** ** Editing a recording *)

Import audioEdits.


(** ** The address of a stored file *)


(** ** The clock text *)

Lemma Qfloor_sixtieth (s : Q) : Qfloor (s / 60) = Qfloor s / 60.
Proof.
  destruct s as [a b]. unfold Qfloor, Qdiv, Qmult, Qinv. cbn.
  rewrite Z.mul_1_r, Pos2Z.inj_mul, Z.div_div; lia.
Qed.

Lemma Qfloor_minus_whole (s : Q) (k : Z) :
  Qfloor (s - 60 * inject_Z k) = Qfloor s - 60 * k.
Proof.
  destruct s as [a b]. unfold Qfloor, Qminus, Qplus, Qopp, Qmult, inject_Z.
  cbn [Qnum Qden]. rewrite !Pos.mul_1_r, Z.mul_1_r.
  replace (a + - (60 * k) * Z.pos b) with (a + (- (60 * k)) * Z.pos b) by lia.
  rewrite Z.div_add by lia. lia.
Qed.

Lemma truncate_nonneg (q : Q) : (0 <= q)%Q -> truncate q = Qfloor q.
Proof.
  intros H. unfold truncate. apply Qle_bool_iff in H. now rewrite H.
Qed.

Lemma padStart_two_digits (r : Z) :
  0 <= r < 60 -> padStart 2 "0" (number_to_string r) = two_digits r.
Proof.
  intros Hr. rewrite <- (Z2Nat.id r) by lia.
  assert (Z.to_nat r < 60)%nat as Hn by lia.
  generalize dependent (Z.to_nat r). clear. intros n Hn.
  do 60 (destruct n as [|n]; [reflexivity|]). lia.
Qed.

(** For a duration that is not negative [formatDuration] writes the whole
    minutes, a colon and the remaining whole seconds as exactly two
    digits, so that sixty times the minutes plus the seconds is the
    duration rounded down and the seconds stay below sixty.  The text
    "0:00" written for zero fits the same rule. *)
Theorem formatDuration_minutes_and_seconds (s : Q) :
  (0 <= s)%Q ->
  formatDuration (Some s)
  = number_to_string (Qfloor s / 60) ++ ":" ++ two_digits (Qfloor s mod 60).
Proof.
  intros Hs. unfold formatDuration.
  destruct (Qeq_bool s 0) eqn:Hzero.
  - apply Qeq_bool_iff in Hzero. rewrite Hzero. reflexivity.
  - assert (0 <= s / 60)%Q as Hdiv.
    { unfold Qdiv. apply Qmult_le_0_compat; [assumption|]. discriminate. }
    unfold remainder. rewrite (truncate_nonneg Hdiv), Qfloor_sixtieth, Qfloor_minus_whole.
    rewrite <- Z.mod_eq by lia.
    rewrite padStart_two_digits by (apply Z.mod_pos_bound; lia).
    reflexivity.
Qed.

Lemma formatDuration_minutes_and_seconds_witness :
  formatDuration (Some (151 # 2)) = "1:15".
Proof.
  exact (@formatDuration_minutes_and_seconds (151 # 2) ltac:(discriminate)).
Defined.

(** ** The progress bar *)

Import AchievementsScreen.

Lemma ratio_le_one (c v : Z) :
  0 < v -> (Qle_bool (inject_Z c / inject_Z v) 1 = true <-> c <= v).
Proof.
  intros Hv. rewrite Qle_bool_iff. destruct v as [|p|p]; try lia.
  unfold Qle, Qdiv, Qmult, Qinv, inject_Z. cbn. lia.
Qed.

Lemma ratio_is_one (c v : Z) :
  0 < v -> ((inject_Z c / inject_Z v == 1)%Q <-> c = v).
Proof.
  intros Hv. destruct v as [|p|p]; try lia.
  unfold Qeq, Qdiv, Qmult, Qinv, inject_Z. cbn. lia.
Qed.

Lemma ratio_nonneg (c v : Z) :
  0 < v -> 0 <= c -> (0 <= inject_Z c / inject_Z v)%Q.
Proof.
  intros Hv Hc. destruct v as [|p|p]; try lia.
  unfold Qle, Qdiv, Qmult, Qinv, inject_Z. cbn. lia.
Qed.

(** For an achievement not yet earned, with a positive threshold, the
    progress bar shows a fraction that never exceeds 1 and is exactly 1
    when, and only when, the evaluator's test on the same statistics
    passes; it is not negative when the statistic is not. *)
Theorem getProgressPercentage_full_when_due (stats : Progress.t) (l : Listed.t) :
  Listed.earned l = false ->
  0 < Achievement.requirement_value (Listed.achievement l) ->
  exists q,
    getProgressPercentage (Some stats) l = Fraction q
    /\ (q <= 1)%Q
    /\ (q == 1 <-> earned stats (Listed.achievement l) = true)%Q
    /\ (0 <= current_of stats (Listed.achievement l) -> (0 <= q)%Q).
Proof.
  intros Hnot Hv. unfold getProgressPercentage, min_with_one. rewrite Hnot.
  set (a := Listed.achievement l) in *.
  set (v := Achievement.requirement_value a) in *.
  set (c := current_of stats a).
  destruct (Z.eqb_spec v 0) as [|_]; [lia|].
  assert (earned stats a = true <-> v <= c /\ Achievement.requirement a <> perfect_week)
    as Hearned.
  { unfold earned, c, current_of. fold v.
    destruct (Achievement.requirement a); rewrite ?or_num_some, ?Z.geb_le;
      (split;
       [ intros H; first [discriminate H | split; [exact H|discriminate]]
       | intros [H Hp]; first [exact H | now contradiction Hp] ]). }
  assert (Achievement.requirement a = perfect_week -> c = 0) as Hweek.
  { intros H. unfold c, current_of. now rewrite H. }
  eexists. split; [reflexivity|].
  destruct (Qle_bool (inject_Z c / inject_Z v) 1) eqn:Hle.
  - pose proof (proj1 (ratio_le_one c Hv) Hle) as Hcv.
    split; [now apply Qle_bool_iff|]. split; [|now apply ratio_nonneg].
    rewrite (ratio_is_one c Hv), Hearned. split.
    + intros ->. split; [lia|]. intros Hp. specialize (Hweek Hp). lia.
    + intros [H _]. lia.
  - assert (~ c <= v) as Hcv by (intros H; apply (ratio_le_one c Hv) in H; congruence).
    split; [apply Qle_refl|]. split; [|intros _; discriminate].
    rewrite Hearned. split; [|reflexivity].
    intros _. split; [lia|]. intros Hp. specialize (Hweek Hp). lia.
Qed.

(** With a threshold of zero and a statistic of zero there is no number
    to show: the bar's value is the result of dividing zero by zero,
    although the evaluator's test passes for such an achievement. *)
Theorem getProgressPercentage_zero_threshold (stats : Progress.t) (l : Listed.t) :
  Listed.earned l = false ->
  Achievement.requirement_value (Listed.achievement l) = 0 ->
  current_of stats (Listed.achievement l) = 0 ->
  getProgressPercentage (Some stats) l = NotANumber
  /\ (Achievement.requirement (Listed.achievement l) <> perfect_week ->
      earned stats (Listed.achievement l) = true).
Proof.
  intros Hnot Hv Hc. unfold getProgressPercentage, min_with_one.
  rewrite Hnot, Hv, Hc. split; [reflexivity|].
  intros Hp. unfold earned. unfold current_of in Hc. rewrite Hv.
  destruct (Achievement.requirement (Listed.achievement l));
    rewrite ?or_num_some in Hc; rewrite ?Hc; try reflexivity. contradiction.
Qed.

Lemma getProgressPercentage_full_when_due_witness :
  exists q,
    getProgressPercentage (Some Sample.ann_stats) (Listed.mk Sample.century false None)
      = Fraction q
    /\ (q <= 1)%Q.
Proof.
  destruct (@getProgressPercentage_full_when_due Sample.ann_stats
              (Listed.mk Sample.century false None) eq_refl eq_refl)
    as (q & Hbar & Hle & _).
  exists q. split; assumption.
Defined.

Lemma getProgressPercentage_zero_threshold_witness :
  getProgressPercentage (Some Sample.fresh_stats) (Listed.mk Sample.zero_streak false None)
    = NotANumber
  /\ earned Sample.fresh_stats Sample.zero_streak = true.
Proof.
  destruct (@getProgressPercentage_zero_threshold Sample.fresh_stats
              (Listed.mk Sample.zero_streak false None) eq_refl eq_refl eq_refl)
    as [Hbar Hdue].
  split; [exact Hbar|]. apply Hdue. discriminate.
Defined.

(** ** The achievement list *)

Import achievementList.

Lemma insert_by_requirement_keeps (a : Achievement.t) (listing : list Achievement.t) :
  Permutation (a :: listing) (insert_by_requirement a listing).
Proof.
  induction listing as [|b rest IH]; cbn; [reflexivity|].
  destruct (Achievement.requirement_value a <=? Achievement.requirement_value b);
    [reflexivity|].
  rewrite perm_swap. now constructor.
Qed.

Lemma by_requirement_keeps (catalog : list Achievement.t) :
  Permutation (by_requirement catalog) catalog.
Proof.
  unfold by_requirement. induction catalog as [|a rest IH]; cbn; [reflexivity|].
  rewrite <- insert_by_requirement_keeps. now constructor.
Qed.

Lemma insert_by_requirement_ascending (a : Achievement.t) (listing : list Achievement.t) :
  ascending listing -> ascending (insert_by_requirement a listing).
Proof.
  unfold ascending. induction 1 as [|b rest Hrest IH Hhead]; cbn.
  - repeat constructor.
  - destruct (Z.leb_spec (Achievement.requirement_value a) (Achievement.requirement_value b)).
    + constructor; [now constructor|]. now constructor.
    + constructor; [exact IH|].
      destruct rest as [|c rest']; cbn.
      * constructor. unfold no_higher. lia.
      * destruct (Z.leb_spec (Achievement.requirement_value a)
                    (Achievement.requirement_value c)).
        -- constructor. unfold no_higher. lia.
        -- constructor. now inversion Hhead.
Qed.

Lemma by_requirement_ascending (catalog : list Achievement.t) :
  ascending (by_requirement catalog).
Proof.
  unfold by_requirement. induction catalog as [|a rest IH]; cbn.
  - constructor.
  - now apply insert_by_requirement_ascending.
Qed.

(** The map built by [forEach]: a key is present exactly when some row
    set it, and the value is the date of one of those rows. *)
Lemma earned_at_of_found (a : Achievement.t) (mine : list UserAchievement.t) :
  forall found,
    (fold_left
       (fun found ua => if row_for a ua then Some (UserAchievement.earned_at ua) else found)
       mine found = None
     <-> found = None /\ existsb (row_for a) mine = false)
    /\ (forall date,
          fold_left
            (fun found ua => if row_for a ua then Some (UserAchievement.earned_at ua) else found)
            mine found = Some date ->
          found = Some date
          \/ exists ua, In ua mine /\ row_for a ua = true
                        /\ UserAchievement.earned_at ua = date).
Proof.
  induction mine as [|ua rest IH]; intros found; cbn [fold_left existsb].
  - split; [tauto|]. intros date H. now left.
  - destruct (IH (if row_for a ua then Some (UserAchievement.earned_at ua) else found))
      as [Hnone Hsome].
    split.
    + rewrite Hnone. destruct (row_for a ua); cbn [orb]; split;
        intros [H1 H2]; try discriminate; auto.
    + intros date H. apply Hsome in H as [H|(x & Hin & Hrow & Hdate)].
      * destruct (row_for a ua) eqn:Hrow; [|now left].
        right. exists ua. inversion H. cbn. auto.
      * right. exists x. cbn. auto.
Qed.

Lemma row_of_user_for (user : AuthUser) (a : Achievement.t)
    (rows : list UserAchievement.t) :
  existsb (row_for a) (filter (row_of user) rows) = true
  <-> In (uid user, Achievement.id a) (map pair_of rows).
Proof.
  rewrite existsb_exists, in_map_iff. split.
  - intros (ua & Hin & Hrow). apply filter_In in Hin as [Hin Huser].
    exists ua. split; [|assumption].
    unfold row_of in Huser. unfold row_for in Hrow.
    apply String.eqb_eq in Huser, Hrow. unfold pair_of. now rewrite Huser, Hrow.
  - intros (ua & Hpair & Hin). unfold pair_of in Hpair. inversion Hpair as [[Hu Ha]].
    exists ua. split.
    + apply filter_In. split; [assumption|]. unfold row_of. rewrite Hu.
      apply String.eqb_refl.
    + unfold row_for. rewrite Ha. apply String.eqb_refl.
Qed.

(** [getAllAchievements] writes nothing and lists every catalog row
    exactly once, in ascending order of [requirement_value].  A row is
    flagged [earned] exactly when the user has a [user_achievements] row
    for it, and exactly then it carries a date, which is the date of one of
    those rows.  Either query being refused makes the call throw. *)
Theorem getAllAchievements_lists_the_catalog (env : Env) (user : AuthUser) (w : World) :
  auth_user env = Some user ->
  (exists listing,
      getAllAchievements env false false w = (Ok listing, w)
      /\ Permutation (map Listed.achievement listing) (achievements w)
      /\ ascending (map Listed.achievement listing)
      /\ Forall (fun l =>
                   (Listed.earned l = true
                    <-> In (uid user, Achievement.id (Listed.achievement l))
                           (map pair_of (user_achievements w)))
                   /\ (Listed.earned l = true <-> Listed.earned_at l <> None)
                   /\ (forall date,
                         Listed.earned_at l = Some date ->
                         In (UserAchievement.mk (uid user)
                               (Achievement.id (Listed.achievement l)) date)
                            (user_achievements w)))
                listing)
  /\ (forall userError,
        fst (getAllAchievements env true userError w) = Throw (Error "backend error"))
  /\ fst (getAllAchievements env false true w) = Throw (Error "backend error").
Proof.
  intros Hauth. unfold getAllAchievements. unfold_m. rewrite Hauth. world_simpl.
  split; [|split; [intros userError|]; reflexivity].
  eexists. split; [reflexivity|]. rewrite map_map. cbn [Listed.achievement].
  rewrite map_id. split; [apply by_requirement_keeps|].
  split; [apply by_requirement_ascending|].
  apply Forall_map. apply Forall_forall. intros a _.
  cbn [Listed.earned Listed.earned_at Listed.achievement].
  destruct (earned_at_of_found a (filter (row_of user) (user_achievements w)) None)
    as [Hnone Hsome].
  fold (earned_at_of a (filter (row_of user) (user_achievements w))) in Hnone, Hsome.
  split; [apply row_of_user_for|]. split.
  - split.
    + intros Hyes Hno. apply Hnone in Hno as [_ Hno]. congruence.
    + intros Hdate.
      destruct (existsb (row_for a) (filter (row_of user) (user_achievements w))) eqn:Hex;
        [reflexivity|].
      exfalso. apply Hdate. apply Hnone. auto.
  - intros date Hdate. apply Hsome in Hdate as [Hdate|(ua & Hin & Hrow & Hat)];
      [discriminate|].
    apply filter_In in Hin as [Hin Huser].
    unfold row_of in Huser. unfold row_for in Hrow.
    apply String.eqb_eq in Huser, Hrow.
    destruct ua as [u i t]. cbn in *. now subst.
Qed.

Lemma getAllAchievements_lists_the_catalog_witness :
  exists listing,
    getAllAchievements Sample.env false false Sample.bookworm_world
      = (Ok listing, Sample.bookworm_world)
    /\ Permutation (map Listed.achievement listing) [Sample.bookworm; Sample.century]
    /\ ascending (map Listed.achievement listing).
Proof.
  destruct (@getAllAchievements_lists_the_catalog Sample.env Sample.ann
              Sample.bookworm_world eq_refl)
    as ((listing & Hrun & Hsame & Hsorted & _) & _).
  exists listing. repeat split; assumption.
Defined.

(** The list and the evaluator disagree on what is earned.  An achievement
    that a pass has just returned, its insert accepted, is flagged [earned]
    in the list taken afterwards; the evaluator's own scan of that same
    world still contains it. *)
Theorem awarded_is_listed_but_scanned_again
    (env : Env) (user : AuthUser) (w : World) (news : list Achievement.t)
    (a : Achievement.t) :
  auth_user env = Some user ->
  fst (checkAndAwardAchievements env w) = Ok news ->
  In a news ->
  faults env (UserAchievementInsert (Achievement.id a)) = false ->
  let after := snd (checkAndAwardAchievements env w) in
  (exists listing l,
      fst (getAllAchievements env false false after) = Ok listing
      /\ In l listing
      /\ Listed.achievement l = a
      /\ Listed.earned l = true)
  /\ In a (available_to user after).
Proof.
  intros Hauth Hok Hin Hins after.
  destruct (@checkAndAwardAchievements_spec env user Hauth w)
    as (s & w0 & w' & Hstats & Hcat & Hrun).
  destruct (faults env AchievementsSelect).
  { destruct Hrun as [Hrun _]. rewrite Hrun in Hok. discriminate. }
  destruct Hrun as [Hrun Hrows].
  assert (after = w') as -> by (unfold after; now rewrite Hrun).
  rewrite Hrun in Hok. cbn [fst] in Hok. inversion Hok; subst news.
  pose proof Hin as Hdue. apply filter_In in Hdue as [Hav He].
  pose proof Hav as Hscan. unfold available_to in Hav. apply filter_In in Hav as [Hcatalog Hun].
  split.
  - unfold getAllAchievements. unfold_m. rewrite Hauth. world_simpl.
    eexists. exists (Listed.mk a
                       (existsb (row_for a) (filter (row_of user) (user_achievements w')))
                       (earned_at_of a (filter (row_of user) (user_achievements w')))).
    split; [reflexivity|]. split; [|split; [reflexivity|]].
    + apply (in_map (fun a => Listed.mk a
                       (existsb (row_for a) (filter (row_of user) (user_achievements w')))
                       (earned_at_of a (filter (row_of user) (user_achievements w'))))).
      rewrite Hcat. apply (Permutation_in a (Permutation_sym (by_requirement_keeps _))).
      exact Hcatalog.
    + cbn [Listed.earned]. apply row_of_user_for.
      rewrite Hrows, map_app. apply in_or_app. right.
      unfold rows_added. rewrite map_map. cbn [pair_of UserAchievement.user_id
        UserAchievement.achievement_id].
      apply (in_map (fun x => (uid user, Achievement.id x))).
      apply filter_In. split; [exact Hscan|]. now rewrite He, Hins.
  - unfold available_to. rewrite Hcat. apply filter_In. auto.
Qed.

Lemma awarded_is_listed_but_scanned_again_witness :
  In Sample.first_steps
    (available_to Sample.ann
       (snd (checkAndAwardAchievements Sample.env Sample.first_steps_world)))
  /\ exists listing l,
       fst (getAllAchievements Sample.env false false
              (snd (checkAndAwardAchievements Sample.env Sample.first_steps_world)))
         = Ok listing
       /\ In l listing
       /\ Listed.achievement l = Sample.first_steps
       /\ Listed.earned l = true.
Proof.
  destruct (@awarded_is_listed_but_scanned_again Sample.env Sample.ann
              Sample.first_steps_world [Sample.first_steps] Sample.first_steps
              eq_refl eq_refl (or_introl eq_refl) eq_refl)
    as [Hlisted Hscanned].
  split; [exact Hscanned | exact Hlisted].
Defined.
